(* ===== verification/_CoqProject ===== *)
-Q . S2P
Prelude.v
JsString.v
Host.v
Fixture.v
Paths.v
Posix.v
Utils.v
NodeFs.v
ModuleBuilder.v
Matcher.v
Resolver.v
Transform.v
Cache.v
CacheEquiv.v
CacheHeap.v
CacheLoads.v
HeapLoads.v
CacheSpec.v
Filters.v
Plugin.v
NodePlugin.v
NodeBuild.v
Session.v
