(* ===== verification/Prelude.v ===== *)
(** * Verification of esbuild-sass-plugin: [src/src/plugin.ts]

    The program is one TypeScript file: an esbuild plugin that takes over the
    imports of [.scss], [.sass] and [.css] files, compiles them with an external
    Sass compiler, packages the CSS text as a CSS file or as a JavaScript
    module, and memoises the result per (resolve directory, import path) with a
    freshness test on the file's modification time.

    ** Parts of the program and the files that model them

    - [Prelude] (this file): what every component shares.  JavaScript
      completions ([completion]: a call returns normally or throws), the
      state-and-exception monad [M] in which the handlers that mutate the
      cache are written (a throw keeps the mutations made before it, as in
      JavaScript), the notations of scope [js_scope], the tactics and the hint
      database [js], and lemmas on strings.
    - [JsString]: the JavaScript string primitives the plugin calls
      ([endsWith], truthiness, the escaping [replace] of lines 11 and 18 as
      [escape], the tilde [replace] of line 94 as [replace_tilde] with the
      replacement patterns of [GetSubstitution]) and, as the reference
      semantics of the generated modules, the reading of a template literal
      ([read_template], written from ECMAScript, not from [src/]).
    - [Host]: the data the plugin exchanges with esbuild and Node
      ([OnResolveArgs], [OnLoadArgs], [OnLoadResult], [Loader], [CachedResult],
      the options record [Index]) and the interfaces of the code the plugin
      only calls: the class [Libs] (functions of their arguments:
      [path.resolve], [path.dirname], [posix.dirname], [picomatch],
      [moduleRelativeUrl]), the record [World] (calls whose answer depends on
      the file system at the time of the call: [statSync], [readFileSync],
      [require.resolve], [sass.renderSync]) and the record [Process]
      ([process.cwd], [findModuleDirectory]).
    - [Fixture]: one instance of the three interfaces over a small file
      system, on which the witnesses and the examples are evaluated.  Nothing
      general is proved from it.
    - [Paths]: the laws of the path functions that the plugin relies on, as
      the class [PathLaws] over [Libs]: [path.resolve] answers an absolute
      path, the URL of [moduleRelativeUrl] leads to the module directory,
      the [dirname] of a file resolved in a directory is that directory.
    - [Posix]: Node's [path.resolve], [path.dirname] and [path.relative] for
      POSIX paths, as functions on strings (segments between slashes, a stack
      for [.] and [..], the scan from the end of [dirname]).  Not code of
      [src/]: written from the documented behaviour of the functions.
    - [Utils]: the helpers [findModuleDirectory] and [moduleRelativeUrl] of
      [./utils] as the specification describes them (the walk from
      [options.basedir] up to the first directory with a [node_modules], the
      relative URL of the module directory), the instance [node_libs] of
      [Libs] and [node_process] of [Process] made of them, and the proof that
      [node_libs] has the laws of [PathLaws].
    - [NodeFs]: a file system as a finite map from the paths of its files to
      their modification time and text, with [fs.existsSync], [fs.statSync]
      and [fs.readFileSync] on it and the lookup of [require.resolve] with
      [paths] (an absolute request, a request relative to the start paths,
      or a module in the [node_modules] of the start paths and of the
      directories above them), and the instance [node_world] of [World] made
      of them, with the compiler as a parameter.  Not code of [src/]:
      written from the documented behaviour of Node.
    - [ModuleBuilder]: [cssResultModule], [styleModule], [makeModule]
      (plugin.ts lines 8-23).
    - [Matcher]: the constant [type], [matchers] and [typeOf] (lines 40-73),
      and the routing table of the specification ([classify]).
    - [Resolver]: [pathResolve] and [requireResolve] (lines 75-82).
    - [Transform]: [importer], [renderSync] and [transform]
      (lines 90-100 and 152-162).
    - [Cache]: the two versions of [cached] (lines 116-150) over the store
      [gmap string (gmap string CachedResult)].
    - [CacheEquiv]: the equivalence of stores that hold the same entries
      ([same_entries]: a directory with an empty group is a directory with
      none), with the [Proper] instances that let [rewrite] work under the
      operations of the cache.
    - [CacheHeap]: lines 122-145 once more, on objects: the cache, its groups
      and their entries live at locations of a [Heap], [cached_h] reads and
      writes them one operation of the source at a time ([cache.get],
      [new Map()], [cache.set], [group.get], the destructuring of line 130,
      [cached.result = ...], the object literal of line 143, [group.set]) and
      logs every call of [statSync], of the resolver, of [typeOf] and of the
      transformer in the order it is made.  [view] reads a heap as a store.
    - [CacheLoads]: a load in the world of the call, the step relation of the
      cache and sequences of loads while files change.
    - [HeapLoads]: the same sequences on the heap.
    - [CacheSpec]: the algorithm the specification describes for the cache
      ([getOrCompute]) and the refinement between it and [Cache.cached].
    - [Filters]: the three regular expressions the hooks are registered with
      (lines 112, 164 and 165), as values of a small type of regular
      expressions with a matcher.
    - [Plugin]: [sassPlugin] (lines 29-168): the defaults of the options, the
      exit when no module directory is found, the choice of the cache,
      [setup] with its [onResolve] and its two [onLoad] registrations, and
      the dispatch esbuild performs over the registered hooks ([import]).
    - [NodePlugin]: [sassPlugin] and the importer with [node_libs] and
      [node_process] in the place of the interfaces.
    - [NodeBuild]: the hooks of the plugin on a file system, with
      [node_world] in the place of [World].
    - [Session]: a build that watches its files, as a step relation on the
      file system and the cache: a step is a write to a file or an import
      through the hooks.

    ** How state and effects are modelled

    The cache is the only state the plugin owns.  A JavaScript
    [Map<string, Map<string, CachedResult>>] is a [gmap string (gmap string
    CachedResult)]; [group.set] on a group obtained from the cache is an insert
    in the nested map, and the assignment [cached.result = ...] to an entry
    obtained from a group is the insert of [set_result entry r].  This is what
    the code does as long as no group or entry object is stored under two
    keys.  [CacheHeap] and [HeapLoads] prove it: there the objects have
    identity, new objects take a location the heap does not use
    ([unused]), a location without an object reads as [undefined], and the
    map of values is shown to be the [view] of the heap along every build
    that starts from a heap without sharing ([separated]), the empty cache of
    line 105 among them.  For a [Map] the caller hands in (line 104) with a
    shared group the two models differ, and the heap is the one to read.
    The file system, the module resolver and the Sass compiler are not state
    of the plugin: they are the fields of a [World], and a sequence of loads
    is a list of (world, request) pairs, so that files may change between
    loads.  A call that may throw returns a [completion]; [process.exit] is
    not an exception and is a constructor of [Plugin.Construction].

    Modification times ([stats.mtimeMs], a JavaScript number) are integers
    [Z]: the code only compares them with [<=].  Strings are [string] (8-bit
    characters): the code inspects characters only through its regular
    expressions and [endsWith], whose special characters are ASCII.

    ** What the theorems show

    - [Cache]: what a load does on each path (miss, fresh hit, stale hit,
      exception) to its result and to the store; that a stale hit returns the
      result stored before and not the one it recomputes; that a load changes
      the entry of its key only and an exception changes none; that a hit
      does not look at the importer.  Entries with the same file, type and
      modification time form an equivalence ([same_identity]) that staleness
      respects.
    - [CacheLoads]: by induction on the steps, that an entry is never removed
      and keeps its file, type and modification time, and so stays stale for
      good once its file has changed; that a load that throws can be left out
      of a build without changing what the other loads return (error
      isolation, up to [same_entries]); that loads of different keys are
      independent, each completing as it would alone, and leave the same
      entries in any order; that in a world that does not change the cache is
      transparent, a load through it completing as a load without it, when
      the type and the file of a request depend on its key only
      ([cache_transparent]); that repeated loads of a changed file do return
      the new result, from the second load on; and that a file written
      between the transform and the [statSync] of its first load is answered
      with its old content from then on.
    - [CacheHeap]: that the callback on objects and the callback on values
      complete alike on every heap; that [separated] is kept by each write;
      the calls a load makes on each path, in their order (a hit never
      resolves or classifies, a fresh hit only stats, a miss stats after it
      transformed); and that a group shared between two directories makes a
      load of one fill the other.
    - [HeapLoads]: the refinement between the two models along every sequence
      of loads from a [separated] heap, that these are the heaps a build
      reaches from the empty cache, and that a build of [n] loads ends after
      at most [4 * n] calls.
    - [CacheSpec]: that the code and the specification's algorithm hold the
      same entries along every sequence of loads (a simulation through
      [abstracts]) and return the same completions except on stale entries.
    - [Posix] and [Utils]: that [path.resolve] answers a path in normal
      form, that the relative path of [path.relative] leads back
      ([relative_roundtrip]), that [dirname] shortens a path or keeps it, so
      that the walk up the directories ends ([ancestors_terminate]), that
      [findModuleDirectory] answers with the nearest [node_modules] and with
      none exactly when there is none, and the laws of [PathLaws].
    - [ModuleBuilder]: that the literal of a generated module reads back, as a
      template literal, to a line feed and the CSS text with line ends
      normalised, so that no text can end the literal or interpolate into it;
      injectivity and the length of the module.
    - [Matcher]: first match wins, the fallback type, the refinement of the
      specification's routing table, and when the importer plays no part.
    - [Transform]: the result of [transform] for the type ["css"] and for the
      others, the propagation of exceptions, what the importer does to a URL
      with a tilde, and how an [importer] option and a dollar sign in the
      module directory defeat it; from the laws of [PathLaws], that the file
      the importer names is the rest of the URL in the module directory.
    - [Filters]: each regular expression against the condition on the path it
      stands for, that the load filters cover the resolve filter, and where
      they overlap.
    - [Plugin]: the route of an import through the registered hooks; what
      an import returns the first time, the second time and without a cache,
      as the composition of the resolver, the matcher and the transform; the
      shape of every entry of the cache along every sequence of imports;
      that the plugin with a cache and the plugin without one answer alike
      in a world that does not change, when no rule reads the importer
      ([plugin_cache_transparent], which composes the matcher, the two
      resolvers, the transform and the cache); what a second plugin gets from
      a cache it shares with a first; the two outcomes of the
      construction; and, from the laws of [PathLaws], the resolve directory
      of the module made for a relative import.
    - [NodePlugin]: that the construction exits exactly when no directory
      from the base directory upwards has a [node_modules] and takes the
      nearest one otherwise; and that a tilde import goes to that directory
      also from a file that has a nearer [node_modules].
    - [NodeFs] and [NodeBuild]: that a file that can be read can be stat'ed
      and that what [require.resolve] answers is a file; what a first import
      returns and stores, for a path that starts with [./] or [../] and for
      a module, as a function of the files; that the resolve directory is
      searched before the include paths and that a module is only ever found
      in a directory called [node_modules]; and that a write to a file other
      than the one of the request, a file it imports for instance, is not
      seen by the cache.
    - [Session]: by induction on the steps of a session, that an entry is
      never newer than its file and that an entry of a [.css] file that is
      as new as the file holds the text the file has now, so that a fresh
      hit on a [.css] file returns the file as it is.

    Theorems with hypotheses have a witness that evaluates them, on
    [Fixture] or on the functions of [Posix] and [Utils].

    ** Not modelled

    The Sass compiler, [picomatch], Node's [fs], [path] and [require.resolve],
    and the helpers of [./utils] ([loadSass], [findModuleDirectory],
    [moduleRelativeUrl]) are outside [src/]: they appear as the fields of
    [Libs], [World] and [Process], and the theorems about the code of
    plugin.ts assume nothing on what they compute, or the laws of [PathLaws]
    where they say so.  [Posix], [Utils] and [NodeFs] give the path
    functions, the two helpers, [fs] and [require.resolve] a definition, from
    their description and not from their code: POSIX paths only; files
    without directories of their own, links or permissions; the lookup of a
    module for a request that names its file, without the extensions Node
    adds, [package.json] and the global folders.  The Sass compiler and
    [picomatch] have no definition: neither the repository nor the
    specification says what they compute, and every theorem holds for any
    compiler and any matcher.  [loadSass], which only selects the compiler,
    has no counterpart.
    Identity is modelled for the objects the cache is made of, not for the
    [OnLoadResult] objects the entries hold: the plugin never writes to them,
    and what the host does to a result it was handed is outside the program.
    A load takes its resolver, its transformer and its file system as three
    parameters, so that a world that changes during a load is a load whose
    parameters come from different worlds ([CacheLoads.miss_race_pins_old]);
    changes during a call of the compiler are not modelled.  A modification
    time that is not a
    number, hexadecimal and Unicode escapes of template literals, and the
    parts of esbuild's protocol beyond the resolve and load hooks are left
    out.  No fuel is used anywhere: every definition is structurally
    recursive but the walk up the directories ([Utils.ancestors]), which is
    defined by well-founded recursion on the length of the path; the bound
    of [HeapLoads] on the calls of a build is proved of the log the model
    keeps. *)

From stdpp Require Export base tactics option list strings gmap.
From Stdlib Require Export Ascii ZArith Lia.

Declare Scope js_scope.
Delimit Scope js_scope with js.

(** ** Errors and completions *)

(** The kinds of exception the plugin lets through to esbuild. *)
Inductive error : Type :=
| ResolutionError (specifier : string)
| CompileError (file : string)
| FileSystemError (file : string).

#[export] Instance error_eq_dec : EqDecision error.
Proof. solve_decision. Defined.

(** The outcome of a JavaScript call: a value, or a thrown exception. *)
Inductive completion (A : Type) : Type :=
| Normal (a : A)
| Throw (e : error).
Arguments Normal {A} a.
Arguments Throw {A} e.

#[export] Instance completion_eq_dec `{EqDecision A} : EqDecision (completion A).
Proof. solve_decision. Defined.

Definition cbind {A B : Type} (c : completion A) (k : A → completion B) : completion B :=
  match c with
  | Normal a => k a
  | Throw e => Throw e
  end.

Definition cmap {A B : Type} (f : A → B) (c : completion A) : completion B :=
  cbind c (λ a, Normal (f a)).

Definition is_Normal {A : Type} (c : completion A) : bool :=
  match c with Normal _ => true | Throw _ => false end.

Definition of_option {A : Type} (e : error) (o : option A) : completion A :=
  match o with Some a => Normal a | None => Throw e end.

(** ** The state-and-exception monad

    A computation over a mutable store [S]: it returns the completion and the
    store as the call left it.  A throw does not undo the mutations that came
    before it. *)
Definition M (S A : Type) : Type := S → completion A * S.

Definition ret {S A : Type} (a : A) : M S A := λ s, (Normal a, s).
Definition throw {S A : Type} (e : error) : M S A := λ s, (Throw e, s).
Definition bind {S A B : Type} (c : M S A) (k : A → M S B) : M S B :=
  λ s, match c s with
       | (Normal a, s') => k a s'
       | (Throw e, s') => (Throw e, s')
       end.
Definition get {S : Type} : M S S := λ s, (Normal s, s).
Definition put {S : Type} (s : S) : M S unit := λ _, (Normal tt, s).
Definition modify {S : Type} (f : S → S) : M S unit := λ s, (Normal tt, f s).
Definition lift {S A : Type} (c : completion A) : M S A := λ s, (c, s).
Definition run {S A : Type} (c : M S A) (s : S) : completion A * S := c s.

Notation "x <- c ;; k" := (bind c (λ x, k))
  (at level 100, c at next level, right associativity) : js_scope.
Notation "c ;;; k" := (bind c (λ _, k))
  (at level 100, right associativity) : js_scope.
Notation "x <~ c ;; k" := (cbind c (λ x, k))
  (at level 100, c at next level, right associativity) : js_scope.

(** ** Strings *)

(** Comparisons of characters stay folded under [simpl]: the proofs split on
    them with [Ascii.eqb_spec]. *)
#[global] Arguments Ascii.eqb : simpl never.

Definition str_of_char (c : ascii) : string := String c EmptyString.

(** The characters the plugin's text contains and Rocq's string syntax cannot
    write directly. *)
Definition char_dquote : ascii := "034"%char.
Definition char_lf : ascii := "010"%char.
Definition char_cr : ascii := "013"%char.

Definition LF : string := str_of_char char_lf.
Definition DQUOTE : string := str_of_char char_dquote.

(** ** Tactics *)

(** Case analysis on the completions and pairs a goal or hypothesis matches on. *)
Ltac case_completion :=
  repeat match goal with
  | |- context [match ?c with Normal _ => _ | Throw _ => _ end] =>
      let E := fresh "E" in destruct c eqn:E; simpl in *
  | |- context [let (_, _) := ?p in _] =>
      let E := fresh "E" in destruct p eqn:E; simpl in *
  | H : context [match ?c with Normal _ => _ | Throw _ => _ end] |- _ =>
      let E := fresh "E" in destruct c eqn:E; simpl in *
  end.

(** Unfolds the monad's operations in the goal and the hypotheses. *)
Ltac unfold_M :=
  unfold run, bind, ret, throw, get, put, modify, lift, cbind, cmap in *; simpl in *.

Create HintDb js.
Create Rewrite HintDb js.

(** ** Lemmas *)

Section completion_lemmas.
Context {A B C : Type}.
Implicit Types (c : completion A) (a : A).

Lemma cbind_Normal a (k : A → completion B) : cbind (Normal a) k = k a.
Proof. done. Qed.

Lemma cbind_Throw e (k : A → completion B) : cbind (Throw e) k = Throw e.
Proof. done. Qed.

Lemma cbind_ret c : cbind c Normal = c.
Proof. by destruct c. Qed.

Lemma cbind_assoc c (k : A → completion B) (h : B → completion C) :
  cbind (cbind c k) h = cbind c (λ a, cbind (k a) h).
Proof. by destruct c. Qed.

Lemma cbind_Normal_inv c (k : A → completion B) b :
  cbind c k = Normal b → ∃ a, c = Normal a ∧ k a = Normal b.
Proof. destruct c; [eauto | done]. Qed.

Lemma cbind_Throw_inv c (k : A → completion B) e :
  cbind c k = Throw e → c = Throw e ∨ ∃ a, c = Normal a ∧ k a = Throw e.
Proof. destruct c; naive_solver. Qed.

Lemma cmap_Normal_inv (f : A → B) c b :
  cmap f c = Normal b → ∃ a, c = Normal a ∧ b = f a.
Proof. destruct c; naive_solver. Qed.

Lemma is_Normal_true c : is_Normal c = true ↔ ∃ a, c = Normal a.
Proof. destruct c; simpl; [split; eauto | split; [done | intros [? [=]]]]. Qed.

End completion_lemmas.

Section monad_lemmas.
Context {S A B C : Type}.
Implicit Types (s : S) (c : M S A).

Lemma run_ret (a : A) s : run (ret a) s = (Normal a, s).
Proof. done. Qed.

Lemma run_throw e s : run (throw e : M S A) s = (Throw e, s).
Proof. done. Qed.

Lemma run_lift (r : completion A) s : run (lift r) s = (r, s).
Proof. done. Qed.

Lemma run_bind c (k : A → M S B) s :
  run (bind c k) s =
  match run c s with
  | (Normal a, s') => run (k a) s'
  | (Throw e, s') => (Throw e, s')
  end.
Proof. done. Qed.

(** The monad laws, pointwise in the store. *)
Lemma bind_ret_l (a : A) (k : A → M S B) s : run (bind (ret a) k) s = run (k a) s.
Proof. done. Qed.

Lemma bind_ret_r c s : run (bind c ret) s = run c s.
Proof. unfold_M. by destruct (c s) as [[] ?]. Qed.

Lemma bind_assoc c (k : A → M S B) (h : B → M S C) s :
  run (bind (bind c k) h) s = run (bind c (λ a, bind (k a) h)) s.
Proof. unfold_M. by destruct (c s) as [[] ?]. Qed.

Lemma bind_throw e (k : A → M S B) s : run (bind (throw e) k) s = (Throw e, s).
Proof. done. Qed.

End monad_lemmas.

#[export] Hint Rewrite @run_ret @run_throw @run_lift @run_bind : js.
#[export] Hint Rewrite @cbind_Normal @cbind_Throw : js.

Section string_lemmas.
Implicit Types (s t u : string) (c : ascii).

Lemma str_app_nil_l s : "" +:+ s = s.
Proof. done. Qed.

Lemma str_app_cons c s t : String c s +:+ t = String c (s +:+ t).
Proof. done. Qed.

Lemma str_app_nil_r s : s +:+ "" = s.
Proof. induction s; rewrite ?str_app_cons; [done | congruence]. Qed.

Lemma str_app_assoc s t u : (s +:+ t) +:+ u = s +:+ (t +:+ u).
Proof. induction s; rewrite ?str_app_cons; [done | congruence]. Qed.

Lemma str_length_app s t :
  String.length (s +:+ t) = String.length s + String.length t.
Proof. induction s; rewrite ?str_app_cons; simpl; [done | congruence]. Qed.

Lemma str_app_inv_head s t u : s +:+ t = s +:+ u → t = u.
Proof. induction s; rewrite ?str_app_cons; [done|]. intros [=]. auto. Qed.

Lemma str_app_inv_tail s t u : s +:+ u = t +:+ u → s = t.
Proof.
  revert t. induction s as [|c s IH]; intros [|c' t] H;
    rewrite ?str_app_cons, ?str_app_nil_l in H; [done| | |].
  - apply (f_equal String.length) in H. simpl in H. rewrite str_length_app in H. lia.
  - apply (f_equal String.length) in H. simpl in H. rewrite str_length_app in H. lia.
  - injection H as -> H. f_equal. eauto.
Qed.

Lemma str_app_eq_nil s t : s +:+ t = "" → s = "" ∧ t = "".
Proof. by destruct s. Qed.

End string_lemmas.

#[export] Hint Rewrite str_app_nil_l str_app_cons str_app_nil_r str_app_assoc
  str_length_app : js.
