(* ===== verification/JsString.v ===== *)
(** * JsString: the JavaScript string operations the plugin relies on

    [escape] is the replacement the two module templates apply to the CSS text
    (plugin.ts lines 11 and 18); [endsWith], [truthy], [get_substitution] and
    [replace_tilde] are the built-ins the source calls, written from their
    ECMAScript definitions.  [read_template] is the reference semantics of a
    template literal (its lexing up to the closing backtick and its cooked
    value): it is what the round-trip theorems of [ModuleBuilder] evaluate the
    generated modules with. *)

From S2P Require Import Prelude.

Local Open Scope char_scope.

(** ** Definitions *)

(** ToBoolean on a string: only the empty string is falsy. *)
Definition truthy (s : string) : bool :=
  match s with
  | EmptyString => false
  | String _ _ => true
  end.

(** ToBoolean on a string that may be absent ([undefined]). *)
Definition truthy_opt (s : option string) : bool :=
  match s with
  | Some s => truthy s
  | None => false
  end.

(** [s.endsWith(suffix)]: the last [length suffix] characters of [s] are
    [suffix]. *)
Definition endsWith (s suffix : string) : bool :=
  let n := String.length s in
  let m := String.length suffix in
  (m <=? n)%nat && String.eqb (String.substring (n - m) m s) suffix.

(** The character class [[$`\\]] of the regular expression of lines 11 and 18. *)
Definition special (c : ascii) : bool :=
  (c =? "$") || (c =? "`") || (c =? "\").

(** [cssText.replace(/([$`\\])/g, "\\$1")]: every dollar sign, backtick and
    backslash gets a backslash in front of it. *)
Fixpoint escape (cssText : string) : string :=
  match cssText with
  | EmptyString => EmptyString
  | String c rest =>
      if special c then String "\" (String c (escape rest))
      else String c (escape rest)
  end.

(** What a template literal does to the line ends of its source text: CR LF
    and a lone CR both become LF. *)
Fixpoint normalize_eol (s : string) : string :=
  match s with
  | EmptyString => EmptyString
  | String c rest =>
      if c =? char_cr then
        String char_lf
          match rest with
          | String c' rest' => if c' =? char_lf then normalize_eol rest' else normalize_eol rest
          | EmptyString => EmptyString
          end
      else String c (normalize_eol rest)
  end.

(** The value of the escape sequence backslash-[c] in a template literal:
    [Some (Some v)] is the character [v], [Some None] is no character at all
    (a line continuation), [None] is an escape outside the fragment modelled
    here (hexadecimal, Unicode and the digits, which are errors or need more
    than one character). *)
Definition escape_value (c : ascii) : option (option ascii) :=
  if c =? "b" then Some (Some "008")
  else if c =? "t" then Some (Some "009")
  else if c =? "n" then Some (Some "010")
  else if c =? "v" then Some (Some "011")
  else if c =? "f" then Some (Some "012")
  else if c =? "r" then Some (Some "013")
  else if c =? char_lf then Some None
  else if (c =? "x") || (c =? "u") || (c =? char_cr) then None
  else if (("0" <=? c) && (c <=? "9"))%char then None
  else Some (Some c).

Definition prepend (c : ascii) (r : option (string * string)) : option (string * string) :=
  match r with
  | Some (v, rest) => Some (String c v, rest)
  | None => None
  end.

(** Reads a template literal with no substitution from the text that follows
    its opening backtick: the cooked value of the literal and the text after
    its closing backtick.  [None]: the text has no closing backtick, starts a
    substitution, or uses an escape outside the fragment. *)
Fixpoint read_template (s : string) : option (string * string) :=
  match s with
  | EmptyString => None
  | String c rest =>
      if c =? "`" then Some (EmptyString, rest)
      else if c =? "\" then
        match rest with
        | EmptyString => None
        | String c' rest' =>
            match escape_value c' with
            | Some (Some v) => prepend v (read_template rest')
            | Some None => read_template rest'
            | None => None
            end
        end
      else if c =? "$" then
        match rest with
        | String c' _ => if c' =? "{" then None else prepend c (read_template rest)
        | EmptyString => None
        end
      else if c =? char_cr then
        match rest with
        | String c' rest' =>
            if c' =? char_lf then prepend char_lf (read_template rest')
            else prepend char_lf (read_template rest)
        | EmptyString => None
        end
      else prepend c (read_template rest)
  end.

(** GetSubstitution of ECMAScript for a pattern with no capture group: the
    replacement text [repl] with [$$], [$&], [$`] and [$'] expanded.  A dollar
    sign followed by anything else stays as it is. *)
Fixpoint get_substitution (matched before after repl : string) : string :=
  match repl with
  | EmptyString => EmptyString
  | String c rest =>
      if c =? "$" then
        match rest with
        | EmptyString => String c EmptyString
        | String c' rest' =>
            if c' =? "$" then String "$" (get_substitution matched before after rest')
            else if c' =? "&" then matched +:+ get_substitution matched before after rest'
            else if c' =? "`" then before +:+ get_substitution matched before after rest'
            else if c' =? "'" then after +:+ get_substitution matched before after rest'
            else String c (String c' (get_substitution matched before after rest'))
        end
      else String c (get_substitution matched before after rest)
  end.

(** [url.replace(/^~/, repl)]: a leading tilde is replaced, once. *)
Definition replace_tilde (url repl : string) : string :=
  match url with
  | String c rest =>
      if c =? "~" then get_substitution "~" "" rest repl +:+ rest else url
  | EmptyString => url
  end.

(** No character of [s] is [c]. *)
Fixpoint lacks (c : ascii) (s : string) : bool :=
  match s with
  | EmptyString => true
  | String c' rest => negb (c' =? c) && lacks c rest
  end.

(** The inverse of [escape] on its image: a backslash stands for the
    character after it. *)
Fixpoint unescape (s : string) : string :=
  match s with
  | EmptyString => EmptyString
  | String c rest =>
      if c =? "\" then
        match rest with
        | String c' rest' => String c' (unescape rest')
        | EmptyString => EmptyString
        end
      else String c (unescape rest)
  end.

(** ** Lemmas *)

Section lemmas.
Implicit Types (s t rest : string) (c : ascii).

(** *** [truthy] and [endsWith] *)

Lemma truthy_spec s : truthy s = true ↔ s ≠ EmptyString.
Proof. by destruct s. Qed.

Lemma substring_0_length s : String.substring 0 (String.length s) s = s.
Proof. induction s; simpl; congruence. Qed.

Lemma substring_app_r s t :
  String.substring (String.length s) (String.length t) (s +:+ t) = t.
Proof. induction s; rewrite ?str_app_cons; simpl; [apply substring_0_length | done]. Qed.

Lemma substring_split s k :
  (k ≤ String.length s)%nat →
  s = String.substring 0 k s +:+ String.substring k (String.length s - k) s.
Proof.
  revert k. induction s as [|c s IH]; intros [|k] Hk; simpl in *; try lia.
  - done.
  - rewrite str_app_nil_l. f_equal. symmetry. apply substring_0_length.
  - rewrite str_app_cons. f_equal. apply IH. lia.
Qed.

Lemma endsWith_app s suffix : endsWith (s +:+ suffix) suffix = true.
Proof.
  unfold endsWith. rewrite str_length_app.
  replace (String.length s + String.length suffix - String.length suffix)%nat
    with (String.length s) by lia.
  rewrite substring_app_r, String.eqb_refl, andb_true_r. apply Nat.leb_le. lia.
Qed.

Lemma endsWith_inv s suffix : endsWith s suffix = true → ∃ p, s = p +:+ suffix.
Proof.
  unfold endsWith. intros [Hle Heq]%andb_true_iff.
  apply Nat.leb_le in Hle. apply String.eqb_eq in Heq.
  set (k := (String.length s - String.length suffix)%nat) in *.
  assert (String.length suffix = String.length s - k)%nat as Hm by lia.
  exists (String.substring 0 k s). rewrite Hm in Heq. rewrite <-Heq.
  apply substring_split. lia.
Qed.

Lemma endsWith_spec s suffix : endsWith s suffix = true ↔ ∃ p, s = p +:+ suffix.
Proof. split; [apply endsWith_inv | intros [p ->]; apply endsWith_app]. Qed.

(** *** [escape] *)

Lemma special_true c : special c = true ↔ c = "$" ∨ c = "`" ∨ c = "\".
Proof. unfold special. rewrite !orb_true_iff, !Ascii.eqb_eq. tauto. Qed.

Lemma special_false c : special c = false ↔ c ≠ "$" ∧ c ≠ "`" ∧ c ≠ "\".
Proof. unfold special. rewrite !orb_false_iff, !Ascii.eqb_neq. tauto. Qed.

Lemma escape_cons c s :
  escape (String c s) =
  if special c then String "\" (String c (escape s)) else String c (escape s).
Proof. done. Qed.

Lemma escape_plain c s : special c = false → escape (String c s) = String c (escape s).
Proof. intros H. by rewrite escape_cons, H. Qed.

Lemma escape_special c s :
  special c = true → escape (String c s) = String "\" (String c (escape s)).
Proof. intros H. by rewrite escape_cons, H. Qed.

Lemma escape_app s t : escape (s +:+ t) = escape s +:+ escape t.
Proof.
  induction s as [|c s IH]; [done|].
  rewrite str_app_cons, !escape_cons, IH. by destruct (special c).
Qed.

Lemma escape_length_ge s : (String.length s ≤ String.length (escape s))%nat.
Proof. induction s as [|c s IH]; simpl; [done|]. destruct (special c); simpl; lia. Qed.

Lemma escape_length_le s : (String.length (escape s) ≤ 2 * String.length s)%nat.
Proof. induction s as [|c s IH]; simpl; [done|]. destruct (special c); simpl; lia. Qed.

Lemma unescape_escape s : unescape (escape s) = s.
Proof.
  induction s as [|c s IH]; [done|]. rewrite escape_cons.
  destruct (special c) eqn:Hsp; simpl; [by rewrite IH|].
  apply special_false in Hsp as (_ & _ & ->%Ascii.eqb_neq). by rewrite IH.
Qed.

Lemma escape_inj s t : escape s = escape t → s = t.
Proof. intros H. by rewrite <-(unescape_escape s), H, unescape_escape. Qed.

Lemma escape_fixed s :
  lacks "$" s && lacks "`" s && lacks "\" s = true → escape s = s.
Proof.
  induction s as [|c s IH]; [done|]. simpl lacks.
  rewrite !andb_true_iff, !negb_true_iff.
  intros [[[H1 ?] [H2 ?]] [H3 ?]]. rewrite escape_plain, IH; [done| |].
  - by rewrite !andb_true_iff.
  - unfold special. by rewrite H1, H2, H3.
Qed.

(** *** Line ends *)

Lemma normalize_eol_id s : lacks char_cr s = true → normalize_eol s = s.
Proof.
  induction s as [|c s IH]; [done|]. simpl.
  intros [Hc ?]%andb_true_iff. apply negb_true_iff in Hc. rewrite Hc. f_equal. auto.
Qed.

(** *** Reading a template literal *)

Lemma read_template_close rest : read_template (String "`" rest) = Some (EmptyString, rest).
Proof. done. Qed.

Lemma read_template_escaped c t :
  special c = true →
  read_template (String "\" (String c t)) = prepend c (read_template t).
Proof. intros [->|[->| ->]]%special_true; done. Qed.

Lemma read_template_plain c t :
  special c = false → c ≠ char_cr →
  read_template (String c t) = prepend c (read_template t).
Proof.
  intros (H1 & H2 & H3)%special_false H4%Ascii.eqb_neq.
  apply Ascii.eqb_neq in H1, H2, H3. simpl. by rewrite H1, H2, H3, H4.
Qed.

Lemma read_template_cr_lf t :
  read_template (String char_cr (String char_lf t)) = prepend char_lf (read_template t).
Proof. done. Qed.

Lemma read_template_cr c t :
  c ≠ char_lf →
  read_template (String char_cr (String c t)) = prepend char_lf (read_template (String c t)).
Proof. intros H%Ascii.eqb_neq. simpl. by rewrite H. Qed.

Lemma escape_head_not_lf c s rest :
  c ≠ char_lf → ∃ c' t, escape (String c s) +:+ rest = String c' t ∧ c' ≠ char_lf.
Proof.
  intros Hc. rewrite escape_cons. destruct (special c); rewrite str_app_cons; eauto.
Qed.

(** The escaped text followed by a backtick reads back as the text, with its
    line ends normalised, and the reading stops at that backtick. *)
Definition roundtrip_at (s : string) : Prop :=
  ∀ rest, read_template (escape s +:+ String "`" rest) = Some (normalize_eol s, rest).

Lemma roundtrip_cons c s :
  roundtrip_at s → (∀ c' s', s = String c' s' → roundtrip_at s') →
  roundtrip_at (String c s).
Proof.
  intros IH IH' rest. destruct (special c) eqn:Hsp.
  - rewrite escape_special, !str_app_cons, read_template_escaped, IH by done.
    apply special_true in Hsp as [->|[->| ->]]; done.
  - rewrite escape_plain, str_app_cons by done.
    destruct (decide (c = char_cr)) as [->|Hcr].
    + destruct s as [|c' s']; [done|].
      destruct (decide (c' = char_lf)) as [->|Hlf].
      * rewrite escape_plain, str_app_cons, read_template_cr_lf by done.
        by rewrite (IH' _ _ eq_refl).
      * destruct (escape_head_not_lf c' s' (String "`" rest) Hlf) as (h & t & Heq & Hh).
        rewrite Heq, read_template_cr, <-Heq, IH by done.
        simpl. apply Ascii.eqb_neq in Hlf. by rewrite Hlf.
    + rewrite read_template_plain, IH by done.
      simpl. apply Ascii.eqb_neq in Hcr. by rewrite Hcr.
Qed.

Lemma read_template_escape s : roundtrip_at s.
Proof.
  cut (roundtrip_at s ∧ ∀ c, roundtrip_at (String c s)); [by intros []|].
  induction s as [|a s [IH1 IH2]].
  - split; [done|]. intros c. by apply roundtrip_cons.
  - split; [apply IH2|]. intros c. apply roundtrip_cons; [apply IH2|].
    by intros ?? [= <- <-].
Qed.

(** *** Replacement patterns *)

Lemma get_substitution_plain matched before after repl :
  lacks "$" repl = true → get_substitution matched before after repl = repl.
Proof.
  induction repl as [|c r IH]; [done|]. simpl.
  intros [Hc ?]%andb_true_iff. apply negb_true_iff in Hc. rewrite Hc. f_equal. auto.
Qed.

Lemma get_substitution_app matched before after base repl :
  lacks "$" base = true →
  get_substitution matched before after (base +:+ repl) =
  base +:+ get_substitution matched before after repl.
Proof.
  induction base as [|c r IH]; [done|]. simpl.
  intros [Hc ?]%andb_true_iff. apply negb_true_iff in Hc.
  rewrite !str_app_cons. simpl. rewrite Hc. f_equal. auto.
Qed.

Lemma get_substitution_matched matched before after base tail :
  lacks "$" base = true → lacks "$" tail = true →
  get_substitution matched before after (base +:+ "$&" +:+ tail) =
  base +:+ matched +:+ tail.
Proof.
  intros Hb Ht. rewrite get_substitution_app by done. f_equal.
  rewrite !str_app_cons, str_app_nil_l. simpl. f_equal.
  by apply get_substitution_plain.
Qed.

Lemma replace_tilde_match rest repl :
  lacks "$" repl = true → replace_tilde (String "~" rest) repl = repl +:+ rest.
Proof. intros H. unfold replace_tilde. simpl. by rewrite get_substitution_plain. Qed.

Lemma replace_tilde_no_match url repl :
  (∀ rest, url ≠ String "~" rest) → replace_tilde url repl = url.
Proof.
  destruct url as [|c rest]; [done|]. intros H. unfold replace_tilde.
  destruct (Ascii.eqb_spec c "~") as [->|]; [by destruct (H rest)|done].
Qed.

End lemmas.

#[export] Hint Rewrite escape_app unescape_escape : js.
#[export] Hint Resolve endsWith_app escape_length_ge escape_length_le : js.

(** ** Prefixes *)

(** [s] without its prefix [p], when it has it. *)
Fixpoint strip_prefix (p s : string) : option string :=
  match p, s with
  | EmptyString, _ => Some s
  | String c p', String c' s' => if (c =? c')%char then strip_prefix p' s' else None
  | String _ _, EmptyString => None
  end.

(** [s.startsWith(prefix)] *)
Definition startsWith (s prefix : string) : bool :=
  match strip_prefix prefix s with
  | Some _ => true
  | None => false
  end.

Lemma strip_prefix_app p s : strip_prefix p (p +:+ s) = Some s.
Proof.
  induction p as [|c p IH]; [done|].
  rewrite str_app_cons. simpl. by rewrite Ascii.eqb_refl.
Qed.

Lemma strip_prefix_Some p s t : strip_prefix p s = Some t → s = p +:+ t.
Proof.
  revert s. induction p as [|c p IH]; intros s; [by intros [= ->]|].
  destruct s as [|c' s]; simpl; [done|].
  destruct (Ascii.eqb_spec c c') as [->|]; [|done].
  intros ->%IH. by rewrite str_app_cons.
Qed.

Lemma startsWith_spec s prefix : startsWith s prefix = true ↔ ∃ t, s = prefix +:+ t.
Proof.
  unfold startsWith. split.
  - destruct (strip_prefix prefix s) as [t|] eqn:Ht; [|done].
    exists t. by apply strip_prefix_Some.
  - intros [t ->]. by rewrite strip_prefix_app.
Qed.

(** Case analysis on every comparison of characters in the goal. *)
Ltac case_chars :=
  repeat match goal with
  | |- context [Ascii.eqb ?a ?b] => destruct (Ascii.eqb_spec a b); simplify_eq/=
  end; try done.
