(* ===== verification/Host.v ===== *)
(** * Host: the data exchanged with esbuild and the interfaces of the code the
    plugin only calls

    The records are the objects of esbuild's plugin protocol, with the fields
    plugin.ts reads or writes.  [Libs], [World] and [Process] are the
    interfaces of the libraries: nothing is assumed about what they compute. *)

From S2P Require Import Prelude.

(** ** Data *)

(** esbuild's [Loader], of which the plugin uses ["css"] and ["js"]. *)
Inductive Loader : Type :=
| Loader_css
| Loader_js.

(** The argument of an [onResolve] callback.  The plugin reads [path],
    [importer] and [resolveDir]; the whole object travels on as [pluginData]. *)
Record OnResolveArgs : Type := {
  path : string;
  importer : string;
  resolveDir : string;
}.

(** What the plugin's [onResolve] callback returns (line 113). *)
Record OnResolveResult : Type := {
  res_path : string;
  res_namespace : string;
  res_pluginData : OnResolveArgs;
}.

(** The argument of an [onLoad] callback: esbuild hands back the path, the
    namespace and the [pluginData] of the resolve result. *)
Record OnLoadArgs : Type := {
  load_path : string;
  load_namespace : string;
  pluginData : OnResolveArgs;
}.

(** What an [onLoad] callback returns (lines 154-161); [out_resolveDir] is
    absent in the ["css"] case. *)
Record OnLoadResult : Type := {
  contents : string;
  loader : Loader;
  out_resolveDir : option string;
}.

(** An entry of the cache (line 143). *)
Record CachedResult : Type := {
  filename : string;
  type : string;
  mtimeMs : Z;
  result : OnLoadResult;
}.

(** The cache: resolve directory, then import path. *)
Abbreviation Group := (gmap string CachedResult).
Abbreviation Store := (gmap string (gmap string CachedResult)).

(** The pattern of a routing rule (lines 44-63): an array, of which the first
    two elements are read, or a single value.  [None] is an absent element. *)
Inductive Pattern : Type :=
| PatSingle (p : option string)
| PatPair (p0 p1 : option string).

(** [options.type]: absent, one type for every file, or routing rules. *)
Inductive TypeOption : Type :=
| TypeAbsent
| TypeString (t : string)
| TypeRules (rules : list (string * Pattern)).

(** [options.cache]: falsy, a [Map] the caller made, or another truthy value. *)
Inductive CacheOption : Type :=
| CacheFalsy
| CacheMap (m : Store)
| CacheTruthy.

(** What a Sass importer may answer. *)
Inductive ImporterResult : Type :=
| ImportFile (file : string)
| ImportContents (text : string)
| ImportNull.

Definition Importer : Type := string → string → ImporterResult.

Definition PicomatchOptions : Type := list (string * string).

(** The options of the plugin (the type [Index] of [./index]).  [opt_importer]
    is the one pass-through option of the Sass compiler that the plugin's own
    call also sets. *)
Record Index : Type := {
  opt_basedir : option string;
  opt_cache : CacheOption;
  opt_type : TypeOption;
  opt_includePaths : option (list string);
  opt_picomatch : option PicomatchOptions;
  opt_importer : option Importer;
}.

(** The argument of [sass.renderSync] (lines 91-98). *)
Record SassCall : Type := {
  sass_importer : Importer;
  sass_options : Index;
  sass_file : string;
}.

(** ** Interfaces *)

(** Library functions whose answer depends on their arguments only. *)
Class Libs : Type := {
  (** [path.resolve(resolveDir, path)] *)
  path_resolve : string → string → string;
  (** [path.dirname(p)] *)
  path_dirname : string → string;
  (** [path.posix.dirname(p)] *)
  posix_dirname : string → string;
  (** [picomatch(glob, options)(input)] *)
  picomatch : string → option PicomatchOptions → string → bool;
  (** [moduleRelativeUrl(basedir, moduleDirectory)] of [./utils] *)
  moduleRelativeUrl : string → string → string;
}.

(** Calls whose answer depends on the file system when they are made. *)
Record World : Type := {
  (** [fs.statSync(file).mtimeMs] *)
  statSync : string → completion Z;
  (** [fs.readFileSync(file, "utf-8")] *)
  readFileSync : string → completion string;
  (** [require.resolve(path, {paths})] *)
  require_resolve : string → list string → completion string;
  (** [sass.renderSync(call).css.toString("utf-8")] *)
  sass_renderSync : SassCall → completion string;
}.

(** What the construction of the plugin reads of the process. *)
Record Process : Type := {
  (** [process.cwd()] *)
  process_cwd : string;
  (** [findModuleDirectory(options)] of [./utils]; [None] is a falsy answer *)
  findModuleDirectory : Index → option string;
}.

(** ** Decidable equality of the data *)

#[export] Instance Loader_eq_dec : EqDecision Loader.
Proof. solve_decision. Defined.

#[export] Instance OnResolveArgs_eq_dec : EqDecision OnResolveArgs.
Proof. solve_decision. Defined.

#[export] Instance OnLoadResult_eq_dec : EqDecision OnLoadResult.
Proof. solve_decision. Defined.

#[export] Instance CachedResult_eq_dec : EqDecision CachedResult.
Proof. solve_decision. Defined.

#[export] Instance Pattern_eq_dec : EqDecision Pattern.
Proof. solve_decision. Defined.

(** ** Access to the two-level store *)

(** The entry stored for an import path in the group of a resolve directory. *)
Definition entry_at (store : Store) (dir file : string) : option CachedResult :=
  store !! dir ≫= λ group : Group, group !! file.

Lemma entry_at_insert_group (store : Store) (dir : string) (group : Group) d f :
  entry_at (<[dir := group]> store) d f =
  if decide (dir = d) then group !! f else entry_at store d f.
Proof.
  unfold entry_at. rewrite lookup_insert. by case_decide.
Qed.

Lemma entry_at_insert (store : Store) (group : Group) dir file e d f :
  store !! dir = Some group →
  entry_at (<[dir := <[file := e]> group]> store) d f =
  if decide (dir = d ∧ file = f) then Some e else entry_at store d f.
Proof.
  intros Hg. rewrite entry_at_insert_group. unfold entry_at.
  destruct (decide (dir = d)) as [->|]; [|by rewrite decide_False by (by intros [])].
  rewrite Hg, lookup_insert. simpl.
  destruct (decide (file = f)) as [->|]; [by rewrite decide_True|].
  by rewrite decide_False by (by intros []).
Qed.

Lemma entry_at_empty_group (store : Store) dir d f :
  store !! dir = None → entry_at (<[dir := ∅]> store) d f = entry_at store d f.
Proof.
  intros Hg. rewrite entry_at_insert_group. case_decide; [subst|done].
  unfold entry_at. by rewrite Hg, lookup_empty.
Qed.
