(* ===== verification/Fixture.v ===== *)
(** * Fixture: a small concrete environment

    An instance of [Libs] and a [World] built from a table of files, for the
    witnesses and examples of the development to evaluate the plugin on.  They
    are stand-ins for Node, picomatch and Sass that compute; no theorem about
    the plugin assumes them. *)

From S2P Require Import Prelude JsString Host.

Local Open Scope js_scope.

(** The text before the last slash of [p]; ["."] when there is none. *)
Fixpoint dirname_go (p acc : string) : option string :=
  match p with
  | EmptyString => None
  | String c rest =>
      match dirname_go rest (acc +:+ str_of_char c) with
      | Some d => Some d
      | None => if (c =? "/")%char then Some acc else None
      end
  end.

Definition demo_dirname (p : string) : string :=
  match dirname_go p "" with
  | Some EmptyString => "/"
  | Some d => d
  | None => "."
  end.

(** [dir/p], with a leading [./] of [p] dropped; an absolute [p] is kept. *)
Definition demo_resolve (dir p : string) : string :=
  match strip_prefix "/" p, strip_prefix "./" p with
  | Some _, _ => p
  | None, Some rest => dir +:+ "/" +:+ rest
  | None, None => dir +:+ "/" +:+ p
  end.

(** A glob [**/suffix] holds of the inputs that end in [/suffix] or are
    [suffix]; any other glob holds of itself only. *)
Definition demo_picomatch (glob : string) (_ : option PicomatchOptions) (input : string) : bool :=
  match strip_prefix "**/" glob with
  | Some suffix => String.eqb input suffix || endsWith input ("/" +:+ suffix)
  | None => String.eqb glob input
  end.

#[export] Instance demo_libs : Libs := {|
  path_resolve := demo_resolve;
  path_dirname := demo_dirname;
  posix_dirname := demo_dirname;
  picomatch := demo_picomatch;
  moduleRelativeUrl := λ base dir, dir +:+ "/";
|}.

(** A file system: modification time and text of each file. *)
Abbreviation Files := (gmap string (Z * string)).

Definition demo_stat (files : Files) (file : string) : completion Z :=
  of_option (FileSystemError file) (fst <$> files !! file).

Definition demo_read (files : Files) (file : string) : completion string :=
  of_option (FileSystemError file) (snd <$> files !! file).

(** The first of [dir/node_modules/p], for [dir] in [paths], that is a file. *)
Fixpoint demo_require (files : Files) (p : string) (paths : list string) : completion string :=
  match paths with
  | [] => Throw (ResolutionError p)
  | dir :: rest =>
      let candidate := dir +:+ "/node_modules/" +:+ p in
      if decide (is_Some (files !! candidate)) then Normal candidate
      else demo_require files p rest
  end.

(** A compiler that knows one construct: a file whose text is [@import url]
    compiles to the text of the file its importer names; any other file
    compiles to its own text. *)
Definition demo_sass (files : Files) (call : SassCall) : completion string :=
  text <~ of_option (CompileError (sass_file call)) (snd <$> files !! sass_file call) ;;
  match strip_prefix "@import " text with
  | Some url =>
      match sass_importer call url (sass_file call) with
      | ImportFile f => of_option (CompileError f) (snd <$> files !! f)
      | ImportContents t => Normal t
      | ImportNull => Throw (CompileError url)
      end
  | None => Normal text
  end.

Definition world_of (files : Files) : World := {|
  statSync := demo_stat files;
  readFileSync := demo_read files;
  require_resolve := demo_require files;
  sass_renderSync := demo_sass files;
|}.

(** In the file system of the fixture a file that can be read or compiled
    can be stat'ed. *)
Lemma demo_read_stat files file text :
  demo_read files file = Normal text → is_Normal (demo_stat files file) = true.
Proof. unfold demo_read, demo_stat. by destruct (files !! file). Qed.

Lemma demo_sass_stat files call css :
  demo_sass files call = Normal css → is_Normal (demo_stat files (sass_file call)) = true.
Proof. unfold demo_sass, demo_stat. by destruct (files !! sass_file call). Qed.

Definition demo_process : Process := {|
  process_cwd := "/project";
  findModuleDirectory := λ _, Some "/project/node_modules";
|}.

Definition demo_options : Index := {|
  opt_basedir := Some "/project";
  opt_cache := CacheTruthy;
  opt_type := TypeAbsent;
  opt_includePaths := None;
  opt_picomatch := None;
  opt_importer := None;
|}.

Definition demo_files : Files :=
  {[ "/project/src/a.css" := (10%Z, "body{color:red}");
     "/project/src/b.scss" := (20%Z, "body{color:red}");
     "/project/src/c.scss" := (30%Z, "@import ~foo/bar.scss");
     "/project/node_modules/foo/bar.scss" := (5%Z, "a{b:c}");
     "/project/src/node_modules/pkg/d.scss" := (7%Z, "p{q:$r}") ]}.

(** [files] with the file [file] rewritten at time [mtime]. *)
Definition touch (file : string) (mtime : Z) (text : string) (files : Files) : Files :=
  <[file := (mtime, text)]> files.

Example demo_resolve_examples :
  demo_resolve "/project/src" "./a.css" = "/project/src/a.css" ∧
  demo_resolve "/project/src" "/x/y.css" = "/x/y.css" ∧
  demo_dirname "/project/src/a.css" = "/project/src" ∧
  demo_dirname "a.css" = "." ∧
  demo_picomatch "**/src/a.css" None "/project/src/a.css" = true ∧
  demo_picomatch "**/b.css" None "/project/src/a.css" = false.
Proof. by vm_compute. Qed.

(** Requests and callbacks to run the cache on. *)
Definition request (dir p imp : string) : OnResolveArgs :=
  {| path := p; importer := imp; resolveDir := dir |}.

Definition load_request (dir p imp : string) : OnLoadArgs :=
  {| load_path := p; load_namespace := "sass"; pluginData := request dir p imp |}.

Definition demo_typeOf (args : OnResolveArgs) : string :=
  if String.eqb (importer args) "/project/src/widget.js" then "style" else "css".

Definition demo_pathResolve (args : OnResolveArgs) : completion string :=
  Normal (demo_resolve (resolveDir args) (path args)).

(** The text of the file, tagged with the type it was asked for. *)
Definition demo_transform (files : Files) (file t : string) : completion OnLoadResult :=
  cmap (λ text, {| contents := t +:+ ":" +:+ text; loader := Loader_css;
                   out_resolveDir := None |})
       (demo_read files file).

Definition a_css : OnLoadArgs := load_request "/project/src" "./a.css" "/project/src/main.js".
Definition a_css_from_widget : OnLoadArgs :=
  load_request "/project/src" "./a.css" "/project/src/widget.js".
Definition b_scss : OnLoadArgs := load_request "/project/src" "./b.scss" "/project/src/main.js".
Definition missing_css : OnLoadArgs :=
  load_request "/project/src" "./missing.css" "/project/src/main.js".

(** The files after [a.css] was rewritten. *)
Definition demo_files_edited : Files :=
  touch "/project/src/a.css" 11 "body{color:blue}" demo_files.
