(* ===== verification/Paths.v ===== *)
(** * Paths: what the plugin needs of paths

    plugin.ts computes with paths through [path.resolve], [path.dirname],
    [path.posix.dirname] and the helper [moduleRelativeUrl] only, the fields
    of [Host.Libs].  What it returns is right when these functions fit
    together: the URL that [moduleRelativeUrl] makes leads, from the
    directory it was made for, to the module directory, and the directory of
    a resolved file is the directory it was resolved in.  [PathLaws] states
    this much and no more.  The theorems about the importer and about the
    resolve directory of a module are proved from the laws ([Transform]);
    [Utils] proves the laws of the functions of [Posix]. *)

From S2P Require Import Prelude JsString Host.

Local Open Scope js_scope.

(** ** Definitions *)

(** [path.isAbsolute(p)] on POSIX: the path starts with a slash. *)
Definition is_absolute (p : string) : bool :=
  match p with
  | String c _ => (c =? "/")%char
  | EmptyString => false
  end.

(** A segment that names a file or a directory: not empty, not ["."], not
    [".."], and without a slash. *)
Definition plain (seg : string) : bool :=
  negb (String.eqb seg "") && negb (String.eqb seg ".") && negb (String.eqb seg "..") &&
  lacks "/" seg.

(** The laws of the path functions of [Libs]. *)
Class PathLaws `{Libs} : Prop := {
  (** [path.resolve] returns an absolute path *)
  resolve_is_absolute base p : is_absolute (path_resolve base p) = true;
  (** the directory of an absolute path is absolute *)
  posix_dirname_is_absolute p : is_absolute p = true → is_absolute (posix_dirname p) = true;
  (** from [base], the URL of [moduleRelativeUrl] followed by [rest] is
      [rest] in the directory [dir] *)
  module_url_leads base dir rest :
    is_absolute base = true → is_absolute dir = true →
    path_resolve base (moduleRelativeUrl base dir +:+ rest) = path_resolve dir ("./" +:+ rest);
  (** the file [name] of the directory [p] has [p] as its [dirname] *)
  dirname_of_resolved base p name :
    p ≠ "" → plain name = true →
    path_dirname (path_resolve base (p +:+ "/" +:+ name)) = path_resolve base p;
}.
