(* ===== verification/Posix.v ===== *)
(** * Posix: the functions of Node's [path] on strings

    plugin.ts calls [path.resolve], [path.dirname] and [path.posix.dirname];
    [./utils] calls [path.relative].  They are not code of the repository:
    this file gives them as functions on strings, written from their
    documented behaviour on POSIX, so that the interface [Host.Libs] has an
    instance that computes as Node does and the laws the plugin relies on are
    proved of it, not assumed.

    A path is split at its slashes ([split_slash]), the segments are
    normalised on a stack ([push]: an empty segment and ["."] do nothing,
    [".."] drops the last segment and stays at the root) and rendered again
    ([render]).  [posix_dirname] is the scan from the end of the string that
    Node performs, not a function of the segments: it is defined on every
    string, and agrees with the segments on the paths [posix_resolve]
    returns. *)

From S2P Require Import Prelude JsString Host Paths.

Local Open Scope js_scope.

(** ** Definitions *)

(** The text between the slashes of [s], empty segments included. *)
Fixpoint split_slash (s : string) : list string :=
  match s with
  | EmptyString => [EmptyString]
  | String c rest =>
      if (c =? "/")%char then EmptyString :: split_slash rest
      else match split_slash rest with
           | seg :: segs => String c seg :: segs
           | [] => [String c EmptyString]
           end
  end.

(** One segment met while normalising an absolute path; [stack] holds the
    segments so far, the last one first. *)
Definition push (stack : list string) (seg : string) : list string :=
  if String.eqb seg "" || String.eqb seg "." then stack
  else if String.eqb seg ".." then tail stack
  else seg :: stack.

(** [normalizeString(path, false)]: the segments of the normal form. *)
Definition normalize (segs : list string) : list string := reverse (foldl push [] segs).

(** The absolute path with the segments [segs]. *)
Definition render (segs : list string) : string := "/" +:+ String.concat "/" segs.

(** The segments of [path.resolve(cwd, base, p)]: the arguments are taken
    from the right until one is absolute. *)
Definition resolve_segments (cwd base p : string) : list string :=
  normalize (if is_absolute p then split_slash p
             else if is_absolute base then split_slash base ++ split_slash p
             else split_slash cwd ++ split_slash base ++ split_slash p).

(** [path.resolve(base, p)] in a process whose working directory is [cwd]. *)
Definition posix_resolve (cwd base p : string) : string := render (resolve_segments cwd base p).

(** The characters of a string, last one first, and back. *)
Fixpoint rev_chars (s : string) (acc : list ascii) : list ascii :=
  match s with
  | EmptyString => acc
  | String c rest => rev_chars rest (c :: acc)
  end.

Fixpoint unrev_chars (l : list ascii) (acc : string) : string :=
  match l with
  | [] => acc
  | c :: rest => unrev_chars rest (String c acc)
  end.

(** The scan of [dirname], on the characters after the first, last one first:
    slashes at the end are skipped, then the characters of the last name. *)
Fixpoint skip_slashes (l : list ascii) : list ascii :=
  match l with
  | c :: rest => if (c =? "/")%char then skip_slashes rest else l
  | [] => []
  end.

Fixpoint skip_name (l : list ascii) : list ascii :=
  match l with
  | c :: rest => if (c =? "/")%char then l else skip_name rest
  | [] => []
  end.

(** [path.posix.dirname(p)]. *)
Definition posix_dirname (p : string) : string :=
  match p with
  | EmptyString => "."
  | String c0 rest =>
      match skip_name (skip_slashes (rev_chars rest [])) with
      | [] => if (c0 =? "/")%char then "/" else "."
      | _ :: before =>
          if (c0 =? "/")%char && bool_decide (before = []) then "//"
          else String c0 (unrev_chars before EmptyString)
      end
  end.

(** How far a path is from the fixed points of [dirname]: the measure by
    which a walk up the directories ends. *)
Definition walk_measure (p : string) : nat :=
  if decide (p = "/" ∨ p = ".") then 0 else S (String.length p).

(** The segments two lists do not share at their heads. *)
Fixpoint strip_common (xs ys : list string) : list string * list string :=
  match xs, ys with
  | x :: xs', y :: ys' => if String.eqb x y then strip_common xs' ys' else (xs, ys)
  | _, _ => (xs, ys)
  end.

(** [path.relative(from, to)]: up from [from] to the last directory the two
    share, then down to [to]. *)
Definition posix_relative (cwd from to : string) : string :=
  let (up, down) := strip_common (resolve_segments cwd cwd from) (resolve_segments cwd cwd to) in
  String.concat "/" (replicate (length up) ".." ++ down).

Example posix_examples :
  posix_resolve "/w" "/project/src" "./a.css" = "/project/src/a.css" ∧
  posix_resolve "/w" "/project/src" "../lib//b.scss" = "/project/lib/b.scss" ∧
  posix_resolve "/w" "/project/src" "/x/./y/" = "/x/y" ∧
  posix_resolve "/w" "src" "a.css" = "/w/src/a.css" ∧
  posix_resolve "/w" "/a" "../../.." = "/" ∧
  posix_dirname "/project/src/a.css" = "/project/src" ∧
  posix_dirname "/a" = "/" ∧
  posix_dirname "/a/b/" = "/a" ∧
  posix_dirname "a" = "." ∧
  posix_dirname "a//b" = "a/" ∧
  posix_dirname "//a" = "//" ∧
  posix_dirname "" = "." ∧
  posix_relative "/w" "/project/src/ui" "/project/node_modules" = "../../node_modules" ∧
  posix_relative "/w" "/project" "/project/node_modules" = "node_modules" ∧
  posix_relative "/w" "/project" "/project" = "".
Proof. by vm_compute. Qed.

(** ** Lemmas: splitting and joining *)

Implicit Types (s seg : string) (segs stack : list string).

Lemma split_slash_cons s : ∃ seg segs, split_slash s = seg :: segs.
Proof. destruct s as [|c s]; simpl; [eauto|]. case_chars; [eauto|]. destruct (split_slash s); eauto. Qed.

Lemma split_slash_String c s :
  c ≠ "/"%char →
  ∃ seg segs, split_slash s = seg :: segs ∧ split_slash (String c s) = String c seg :: segs.
Proof.
  intros Hc. destruct (split_slash_cons s) as (seg & segs & Hs). exists seg, segs.
  simpl. rewrite Hs. by case_chars.
Qed.

(** A slash ends a segment and starts the next one. *)
Lemma split_app_slash s1 s2 :
  split_slash (s1 +:+ "/" +:+ s2) = split_slash s1 ++ split_slash s2.
Proof.
  induction s1 as [|c s1 IH]; [done|]. rewrite str_app_cons. simpl. rewrite IH.
  case_chars. by destruct (split_slash_cons s1) as (seg & segs & ->).
Qed.

Lemma split_slash_plain seg : lacks "/" seg = true → split_slash seg = [seg].
Proof.
  induction seg as [|c seg IH]; [done|]. simpl. intros [Hc Hs]%andb_true_iff.
  rewrite IH by done. by case_chars.
Qed.

Lemma split_slash_lacks s : Forall (λ seg, lacks "/" seg = true) (split_slash s).
Proof.
  induction s as [|c s IH]; simpl; [by repeat constructor|].
  destruct (Ascii.eqb_spec c "/") as [->|Hc]; [by constructor|].
  destruct (split_slash_cons s) as (seg & segs & Hs). rewrite Hs in *.
  inversion IH; subst. constructor; [|done]. simpl. apply andb_true_iff. split; [|done].
  by apply negb_true_iff, Ascii.eqb_neq.
Qed.

(** Joining what was split gives the string back. *)
Lemma concat_split_slash s : String.concat "/" (split_slash s) = s.
Proof.
  induction s as [|c s IH]; [done|]. simpl.
  destruct (Ascii.eqb_spec c "/") as [->|Hc].
  - destruct (split_slash_cons s) as (seg & segs & Hs). rewrite Hs in *.
    change (String.concat "/" ("" :: seg :: segs))
      with ("" +:+ "/" +:+ String.concat "/" (seg :: segs)).
    by rewrite IH.
  - destruct (split_slash_cons s) as (seg & segs & Hs). rewrite Hs in *. subst s.
    destruct segs; [done|]. cbn [String.concat]. by rewrite str_app_cons.
Qed.

(** Splitting what was joined gives the segments back. *)
Lemma split_slash_concat segs :
  segs ≠ [] → Forall (λ seg, lacks "/" seg = true) segs →
  split_slash (String.concat "/" segs) = segs.
Proof.
  induction segs as [|seg [|seg' segs] IH]; intros Hne Hall; [done|..].
  - inversion Hall; subst. by apply split_slash_plain.
  - inversion Hall; subst.
    change (String.concat "/" (seg :: seg' :: segs))
      with (seg +:+ "/" +:+ String.concat "/" (seg' :: segs)).
    by rewrite split_app_slash, split_slash_plain, IH.
Qed.

(** ** Lemmas: normal forms *)

Local Abbreviation plains := (Forall (λ seg, plain seg = true)).
Local Abbreviation slashless := (Forall (λ seg, lacks "/" seg = true)).

Lemma plain_lacks seg : plain seg = true → lacks "/" seg = true.
Proof. unfold plain. by intros [_ ?]%andb_true_iff. Qed.

Lemma plains_slashless segs : plains segs → slashless segs.
Proof. intros Hs. eapply Forall_impl; [done|]. apply plain_lacks. Qed.

Lemma push_plain stack seg : plain seg = true → push stack seg = seg :: stack.
Proof.
  unfold plain, push. intros [[[H1 H2]%andb_true_iff H3]%andb_true_iff _]%andb_true_iff.
  apply negb_true_iff in H1, H2, H3. by rewrite H1, H2, H3.
Qed.

Lemma push_up stack : push stack ".." = tail stack.
Proof. done. Qed.

(** What [push] adds is plain. *)
Lemma push_plains stack seg : lacks "/" seg = true → plains stack → plains (push stack seg).
Proof.
  intros Hs Hst. unfold push.
  destruct (String.eqb seg "") eqn:H1, (String.eqb seg ".") eqn:H2; simpl; try done.
  destruct (String.eqb seg "..") eqn:H3; [by destruct Hst|].
  constructor; [|done]. unfold plain. by rewrite H1, H2, H3, Hs.
Qed.

Lemma foldl_push_plains stack segs :
  slashless segs → plains stack → plains (foldl push stack segs).
Proof.
  revert stack. induction segs as [|seg segs IH]; intros stack Hs Hst; [done|].
  inversion Hs; subst. simpl. by apply IH, push_plains.
Qed.

(** Plain segments are pushed as they are, and [..] pops. *)
Lemma foldl_push_plain stack segs :
  plains segs → foldl push stack segs = reverse segs ++ stack.
Proof.
  revert stack. induction segs as [|seg segs IH]; intros stack Hs; [done|].
  inversion Hs; subst. simpl. rewrite push_plain, IH, reverse_cons by done.
  by rewrite <-app_assoc.
Qed.

Lemma foldl_push_ups stack k : foldl push stack (replicate k "..") = drop k stack.
Proof.
  revert stack. induction k as [|k IH]; intros stack; [done|]. simpl.
  rewrite push_up, IH. destruct stack; simpl; by rewrite ?drop_nil.
Qed.

Lemma normalize_plains segs : slashless segs → plains (normalize segs).
Proof. intros Hs. unfold normalize. by apply Forall_reverse, foldl_push_plains. Qed.

Lemma normalize_plain segs : plains segs → normalize segs = segs.
Proof. intros Hs. unfold normalize. by rewrite foldl_push_plain, app_nil_r, reverse_involutive. Qed.

(** The stack after the segments of a rendered path. *)
Lemma foldl_push_render segs :
  plains segs → foldl push [] (split_slash (render segs)) = reverse segs.
Proof.
  intros Hs. unfold render.
  replace ("/" +:+ String.concat "/" segs) with ("" +:+ "/" +:+ String.concat "/" segs) by done.
  rewrite split_app_slash. simpl. destruct segs as [|seg segs]; [done|].
  rewrite split_slash_concat by (by auto using plains_slashless).
  by rewrite foldl_push_plain, app_nil_r.
Qed.

Lemma render_absolute segs : is_absolute (render segs) = true.
Proof. done. Qed.

Lemma render_inj segs1 segs2 :
  plains segs1 → plains segs2 → render segs1 = render segs2 → segs1 = segs2.
Proof.
  intros H1 H2 Heq. apply (f_equal (λ p, reverse (foldl push [] (split_slash p)))) in Heq.
  by rewrite !foldl_push_render, !reverse_involutive in Heq.
Qed.

(** ** Lemmas: [resolve] *)

Lemma resolve_segments_plains cwd base p : plains (resolve_segments cwd base p).
Proof.
  unfold resolve_segments. apply normalize_plains.
  repeat case_match; auto using Forall_app_2, split_slash_lacks.
Qed.

Lemma resolve_segments_render cwd base segs :
  plains segs → resolve_segments cwd base (render segs) = segs.
Proof.
  intros Hs. unfold resolve_segments, normalize.
  by rewrite render_absolute, foldl_push_render, reverse_involutive.
Qed.

(** A relative path is followed from the normal form of its base. *)
Lemma resolve_segments_relative cwd base p :
  is_absolute cwd = true → is_absolute p = false →
  resolve_segments cwd base p =
  reverse (foldl push (reverse (resolve_segments cwd cwd base)) (split_slash p)).
Proof.
  intros Hcwd Hp. unfold resolve_segments, normalize. rewrite Hp, Hcwd.
  destruct (is_absolute base); by rewrite reverse_involutive, ?app_assoc, foldl_app.
Qed.

Lemma foldl_push_concat stack segs :
  slashless segs → foldl push stack (split_slash (String.concat "/" segs)) = foldl push stack segs.
Proof. intros Hs. destruct segs; [done|]. by rewrite split_slash_concat. Qed.

Lemma strip_common_spec xs ys :
  ∃ common, xs = common ++ (strip_common xs ys).1 ∧ ys = common ++ (strip_common xs ys).2.
Proof.
  revert ys. induction xs as [|x xs IH]; intros [|y ys]; simpl; try by exists [].
  destruct (String.eqb_spec x y) as [->|]; [|by exists []].
  destruct (IH ys) as (common & H1 & H2). exists (y :: common). simpl. by rewrite <-H1, <-H2.
Qed.

(** The stack after the way from [from] to [to]. *)
Lemma foldl_push_relative cwd from to :
  foldl push (reverse (resolve_segments cwd cwd from)) (split_slash (posix_relative cwd from to)) =
  reverse (resolve_segments cwd cwd to).
Proof.
  unfold posix_relative.
  pose proof (resolve_segments_plains cwd cwd to) as Hto.
  destruct (strip_common_spec (resolve_segments cwd cwd from) (resolve_segments cwd cwd to))
    as (common & Hf & Ht).
  destruct (strip_common _ _) as [up down]. simpl in *. rewrite Hf, Ht in *.
  apply Forall_app in Hto as [_ Hdown].
  rewrite foldl_push_concat
    by (apply Forall_app_2; [by apply Forall_replicate|by apply plains_slashless]).
  rewrite foldl_app, foldl_push_ups, foldl_push_plain by done.
  rewrite !reverse_app. f_equal. apply drop_app_length'. by rewrite length_reverse.
Qed.

Lemma relative_not_absolute cwd from to : is_absolute (posix_relative cwd from to) = false.
Proof.
  unfold posix_relative. pose proof (resolve_segments_plains cwd cwd to) as Hto.
  destruct (strip_common_spec (resolve_segments cwd cwd from) (resolve_segments cwd cwd to))
    as (common & _ & Ht).
  destruct (strip_common _ _) as [up down]. simpl in *. rewrite Ht in Hto.
  apply Forall_app in Hto as [_ Hdown].
  destruct up as [|? up]; simpl; [|by destruct (replicate _ _ ++ _)].
  destruct down as [|seg down]; [done|]. inversion Hdown as [|?? Hseg _]; subst.
  assert (is_absolute seg = false) as Hs.
  { destruct seg as [|c seg]; [done|]. apply plain_lacks in Hseg. simpl in *.
    by destruct (Ascii.eqb_spec c "/"). }
  destruct down; [done|]. cbn [String.concat]. by destruct seg.
Qed.

(** ** Lemmas: [dirname] *)

Lemma rev_chars_spec s acc : rev_chars s acc = reverse (String.list_ascii_of_string s) ++ acc.
Proof.
  revert acc. induction s as [|c s IH]; intros acc; [done|]. simpl.
  by rewrite IH, reverse_cons, <-app_assoc.
Qed.

Lemma unrev_chars_spec l acc : unrev_chars l acc = String.string_of_list_ascii (reverse l) +:+ acc.
Proof.
  revert acc. induction l as [|c l IH]; intros acc; [done|]. simpl.
  rewrite IH, reverse_cons. clear IH. induction (reverse l) as [|c' l' IH]; [done|].
  simpl. by rewrite !str_app_cons, IH.
Qed.

Lemma list_ascii_app s t :
  String.list_ascii_of_string (s +:+ t) = String.list_ascii_of_string s ++ String.list_ascii_of_string t.
Proof. induction s as [|c s IH]; [done|]. rewrite str_app_cons. simpl. by rewrite IH. Qed.

Lemma lacks_chars c seg : lacks c seg = true → Forall (λ c', c' ≠ c) (String.list_ascii_of_string seg).
Proof.
  induction seg as [|c' seg IH]; simpl; [done|]. intros [Hc Hs]%andb_true_iff.
  constructor; [|by apply IH]. by apply negb_true_iff, Ascii.eqb_neq in Hc.
Qed.

Lemma skip_name_app l acc : Forall (λ c, c ≠ "/"%char) l → skip_name (l ++ acc) = skip_name acc.
Proof.
  induction 1 as [|c l Hc _ IH]; [done|]. simpl. by destruct (Ascii.eqb_spec c "/").
Qed.

Lemma skip_slashes_name l acc :
  l ≠ [] → Forall (λ c, c ≠ "/"%char) l → skip_slashes (l ++ acc) = l ++ acc.
Proof. intros Hne Hl. destruct Hl as [|c l Hc _]; [done|]. simpl. by destruct (Ascii.eqb_spec c "/"). Qed.

Lemma plain_chars name :
  plain name = true →
  reverse (String.list_ascii_of_string name) ≠ [] ∧
  Forall (λ c, c ≠ "/"%char) (reverse (String.list_ascii_of_string name)).
Proof.
  intros Hp. split.
  - destruct name; [done|]. simpl. rewrite reverse_cons. by destruct (reverse _).
  - by apply Forall_reverse, lacks_chars, plain_lacks.
Qed.

Lemma concat_snoc segs name :
  segs ≠ [] → String.concat "/" (segs ++ [name]) = String.concat "/" segs +:+ "/" +:+ name.
Proof.
  induction segs as [|seg [|seg' segs] IH]; intros Hne; [done..|].
  change (String.concat "/" ((seg :: seg' :: segs) ++ [name]))
    with (seg +:+ "/" +:+ String.concat "/" ((seg' :: segs) ++ [name])).
  rewrite IH by done. cbn [String.concat]. by rewrite !str_app_assoc.
Qed.

Lemma concat_plains_nonempty seg segs : plains (seg :: segs) → String.concat "/" (seg :: segs) ≠ "".
Proof.
  intros Hs. inversion Hs as [|?? Hseg _]; subst. destruct seg as [|c seg]; [done|].
  destruct segs; [done|]. cbn [String.concat]. by rewrite str_app_cons.
Qed.

(** The directory of a rendered path is the path without its last segment. *)
Lemma posix_dirname_render segs name :
  plains segs → plain name = true → posix_dirname (render (segs ++ [name])) = render segs.
Proof.
  intros Hs Hn. destruct (plain_chars name Hn) as [Hne Hchars]. unfold render.
  destruct segs as [|seg segs].
  - simpl. rewrite str_app_cons, str_app_nil_l. cbn [posix_dirname].
    rewrite rev_chars_spec, app_nil_r, <-(app_nil_r (reverse _)), skip_slashes_name by done.
    by rewrite skip_name_app.
  - rewrite concat_snoc by done. rewrite str_app_cons, str_app_nil_l. cbn [posix_dirname].
    rewrite rev_chars_spec, app_nil_r, !list_ascii_app, !reverse_app. simpl.
    rewrite reverse_singleton, <-!app_assoc. simpl.
    rewrite skip_slashes_name, skip_name_app by done. simpl.
    rewrite bool_decide_false.
    + by rewrite unrev_chars_spec, reverse_involutive, String.string_of_list_ascii_of_string,
        str_app_nil_r, str_app_cons, str_app_nil_l.
    + intros Hnil%(f_equal reverse). rewrite reverse_involutive in Hnil.
      apply (f_equal String.string_of_list_ascii) in Hnil.
      rewrite String.string_of_list_ascii_of_string in Hnil.
      by apply (concat_plains_nonempty seg segs).
Qed.

Lemma posix_dirname_absolute p : is_absolute p = true → is_absolute (posix_dirname p) = true.
Proof.
  destruct p as [|c p]; [done|]. simpl.
  destruct (Ascii.eqb_spec c "/") as [->|]; [|done]. intros _. by repeat case_match.
Qed.

(** ** Properties *)

(** [path.resolve] returns a normal form: an absolute path whose segments are
    plain, which [path.resolve] returns as it is. *)
Lemma posix_resolve_normal cwd base p :
  ∃ segs, posix_resolve cwd base p = render segs ∧ plains segs ∧
          ∀ base', posix_resolve cwd base' (posix_resolve cwd base p) = posix_resolve cwd base p.
Proof.
  exists (resolve_segments cwd base p). pose proof (resolve_segments_plains cwd base p) as Hs.
  split_and!; [done..|]. intros base'. unfold posix_resolve.
  by rewrite resolve_segments_render.
Qed.

(** An absolute path is resolved without its base. *)
Lemma posix_resolve_absolute cwd base base' p :
  is_absolute p = true → posix_resolve cwd base p = posix_resolve cwd base' p.
Proof. intros Hp. unfold posix_resolve, resolve_segments. by rewrite Hp. Qed.

(** The way [path.relative] gives from one path to another leads there:
    resolved from [from], the relative path from [from] to [to] is [to] in
    normal form, whatever dots, double slashes and relative parts the two
    paths have. *)
Theorem relative_roundtrip cwd from to :
  is_absolute cwd = true →
  posix_resolve cwd from (posix_relative cwd from to) = posix_resolve cwd cwd to.
Proof.
  intros Hcwd. unfold posix_resolve. f_equal.
  rewrite resolve_segments_relative by auto using relative_not_absolute.
  by rewrite foldl_push_relative, reverse_involutive.
Qed.

Lemma relative_roundtrip_witness :
  posix_resolve "/w" "/project/packages/ui/src" "../../../node_modules" =
  posix_resolve "/w" "/w" "/project/node_modules".
Proof. exact (relative_roundtrip "/w" "/project/packages/ui/src" "/project/node_modules" eq_refl). Defined.

(** ** Lemmas: a file in a directory *)

Lemma normalize_snoc segs name : plain name = true → normalize (segs ++ [name]) = normalize segs ++ [name].
Proof. intros Hn. unfold normalize. by rewrite foldl_snoc, push_plain, reverse_cons. Qed.

(** To resolve [p/name] is to resolve [p] and to go to [name] from there. *)
Lemma resolve_segments_snoc cwd base p name :
  p ≠ "" → plain name = true →
  resolve_segments cwd base (p +:+ "/" +:+ name) = resolve_segments cwd base p ++ [name].
Proof.
  intros Hp Hn. unfold resolve_segments.
  replace (is_absolute (p +:+ "/" +:+ name)) with (is_absolute p) by by destruct p.
  rewrite split_app_slash, (split_slash_plain name) by by apply plain_lacks.
  repeat case_match; rewrite ?app_assoc; by apply normalize_snoc.
Qed.

(** ** Lemmas: the length of [dirname] *)

Lemma skip_name_length l : (length (skip_name l) ≤ length l)%nat.
Proof. induction l as [|c l IH]; simpl; [done|]. case_match; simpl; lia. Qed.

Lemma rev_chars_length s acc : length (rev_chars s acc) = (String.length s + length acc)%nat.
Proof. revert acc. induction s as [|c s IH]; intros acc; simpl; [done|]. rewrite IH. simpl. lia. Qed.

Lemma unrev_chars_length l acc :
  String.length (unrev_chars l acc) = (length l + String.length acc)%nat.
Proof. revert acc. induction l as [|c l IH]; intros acc; simpl; [done|]. rewrite IH. simpl. lia. Qed.

Lemma skip_name_slashes_length l :
  skip_name (skip_slashes l) = [] ∨ (length (skip_name (skip_slashes l)) < length l)%nat.
Proof.
  induction l as [|c l IH]; [by left|]. simpl. destruct (c =? "/")%char eqn:Hc.
  - destruct IH as [->|IH]; [by left|right; lia].
  - right. simpl. rewrite Hc. pose proof (skip_name_length l). lia.
Qed.

(** The directory of a path is the root, the current directory, or shorter
    than the path. *)
Lemma posix_dirname_shorter p :
  posix_dirname p = "/" ∨ posix_dirname p = "." ∨
  (String.length (posix_dirname p) < String.length p)%nat.
Proof.
  destruct p as [|c0 rest]; [auto|]. cbn [posix_dirname].
  destruct (skip_name_slashes_length (rev_chars rest [])) as [->|Hlen]; [case_match; auto|].
  rewrite rev_chars_length in Hlen. simpl in Hlen.
  destruct (skip_name _) as [|c before]; [case_match; auto|]. simpl in Hlen.
  right. right. case_match; simpl; rewrite ?unrev_chars_length; simpl; lia.
Qed.

(** A step up the directories that moves at all decreases the measure. *)
Lemma walk_measure_dirname p :
  posix_dirname p ≠ p → (walk_measure (posix_dirname p) < walk_measure p)%nat.
Proof.
  intros Hne. unfold walk_measure at 2. case_decide as Hp; [by destruct Hp as [->| ->]|].
  unfold walk_measure. case_decide; [lia|].
  destruct (posix_dirname_shorter p) as [?|[?|?]]; [tauto..|lia].
Qed.
