(* ===== verification/Utils.v ===== *)
(** * Utils: the helpers of ./utils and the path functions of Node

    plugin.ts calls two helpers of ./utils with paths: [findModuleDirectory]
    (line 84), which finds the module directory once, and [moduleRelativeUrl]
    (line 93), which makes the URL that the importer puts in the place of a
    tilde.  The helpers are not among the sources; they are modelled from
    what the specification says of them: the module directory is the
    [node_modules] of the nearest directory, from [options.basedir] upwards,
    that has one, and the URL is the relative path from the directory of the
    importing file to the module directory, as a prefix of the rest of the
    import.

    [node_libs] is the instance of [Host.Libs] made of them and of the
    functions of [Posix], [node_process] the [Host.Process]; the file proves
    that this instance has the laws of [Paths.PathLaws], and what the walk up
    the directories visits and finds. *)

From Equations Require Import Equations.
From S2P Require Import Prelude JsString Host Paths Posix.

Local Open Scope js_scope.

(** ** Definitions *)

(** The directories from [dir] upwards, nearest first: [dir], its directory,
    and so on until [dirname] does not move any more (at ["/"], or at ["."]
    for a relative path). *)
Equations? ancestors (dir : string) : list string by wf (walk_measure dir) lt :=
  ancestors dir with decide (Posix.posix_dirname dir = dir) := {
    | left _ := [dir]
    | right _ := dir :: ancestors (Posix.posix_dirname dir) }.
Proof. by apply walk_measure_dirname. Qed.

(** [path.resolve(dir, "node_modules")]: where the modules of [dir] are. *)
Definition module_root (cwd dir : string) : string := posix_resolve cwd dir "node_modules".

(** [findModuleDirectory(options)]: the first [node_modules] that exists,
    from [options.basedir] upwards; [exist] is [fs.existsSync]. *)
Definition find_module_directory (exist : string → bool) (cwd basedir : string) : option string :=
  snd <$> list_find (λ p, exist p = true) (module_root cwd <$> ancestors basedir).

(** [moduleRelativeUrl(basedir, moduleDirectory)]: the way from [basedir] to
    the module directory, to be followed by the rest of the import. *)
Definition module_relative_url (cwd basedir moduleDirectory : string) : string :=
  "./" +:+ posix_relative cwd basedir moduleDirectory +:+ "/".

(** The path functions of Node and the helpers, as the libraries of the
    plugin; [pm] is picomatch. *)
Definition node_libs (cwd : string)
    (pm : string → option PicomatchOptions → string → bool) : Libs := {|
  path_resolve := posix_resolve cwd;
  path_dirname := Posix.posix_dirname;
  Host.posix_dirname := Posix.posix_dirname;
  picomatch := pm;
  moduleRelativeUrl := module_relative_url cwd;
|}.

(** The process: its working directory and its file system. *)
Definition node_process (exist : string → bool) (cwd : string) : Process := {|
  process_cwd := cwd;
  findModuleDirectory options :=
    find_module_directory exist cwd (default cwd (opt_basedir options));
|}.

(** A file system in which the listed paths exist. *)
Definition existing (paths : list string) (p : string) : bool := bool_decide (p ∈ paths).

Example ancestors_examples :
  ancestors "/project/packages/ui" = ["/project/packages/ui"; "/project/packages"; "/project"; "/"] ∧
  ancestors "src/styles" = ["src/styles"; "src"; "."] ∧
  ancestors "/" = ["/"] ∧
  find_module_directory (existing ["/project/node_modules"; "/node_modules"]) "/w"
    "/project/packages/ui" = Some "/project/node_modules" ∧
  find_module_directory (existing ["/elsewhere/node_modules"]) "/w" "/project" = None ∧
  module_relative_url "/w" "/project/src/styles" "/project/node_modules" =
    "./../../node_modules/".
Proof. by vm_compute. Qed.

(** ** Lemmas: the walk up the directories *)

Lemma ancestors_step dir :
  ancestors dir =
  if decide (Posix.posix_dirname dir = dir) then [dir]
  else dir :: ancestors (Posix.posix_dirname dir).
Proof.
  set (rest := ancestors (Posix.posix_dirname dir)). simp ancestors.
  by destruct (decide _).
Qed.

Lemma ancestors_root : ancestors "/" = ["/"].
Proof. by rewrite ancestors_step. Qed.

(** The walk goes by [dirname]: its [n]-th directory is [n] steps up. *)
Lemma ancestors_lookup dir n a :
  ancestors dir !! n = Some a → a = Nat.iter n Posix.posix_dirname dir.
Proof.
  revert dir a. induction n as [|n IH]; intros dir a; rewrite ancestors_step.
  - case_decide; simpl; congruence.
  - case_decide; [done|]. simpl. intros ->%IH. symmetry.
    exact (Nat.iter_succ_r n _ Posix.posix_dirname dir).
Qed.

(** The walk ends where [dirname] does not move. *)
Lemma ancestors_last dir : ∃ top, last (ancestors dir) = Some top ∧ Posix.posix_dirname top = top.
Proof.
  funelim (ancestors dir); [by eexists|].
  destruct H as (top & Hlast & Htop). exists top. split; [|done].
  rewrite <-Hlast. by destruct (ancestors (Posix.posix_dirname dir)).
Qed.

(** The walk is no longer than the path. *)
Lemma ancestors_length dir : (length (ancestors dir) ≤ S (walk_measure dir))%nat.
Proof.
  funelim (ancestors dir); simpl; [lia|].
  pose proof (walk_measure_dirname dir n). lia.
Qed.

(** Of a path in normal form the walk visits every prefix, the longest
    first. *)
Lemma ancestors_render_snoc segs name :
  Forall (λ seg, plain seg = true) segs → plain name = true →
  ancestors (render (segs ++ [name])) = render (segs ++ [name]) :: ancestors (render segs).
Proof.
  intros Hs Hn. rewrite ancestors_step, posix_dirname_render by done.
  case_decide as Heq; [|done]. apply render_inj in Heq; [|done|by apply Forall_app_2; auto].
  apply (f_equal length) in Heq. rewrite length_app in Heq. simpl in Heq. lia.
Qed.

(** Every step up is a directory of the walk. *)
Lemma ancestors_elem dir n : Nat.iter n Posix.posix_dirname dir ∈ ancestors dir.
Proof.
  revert dir. induction n as [|n IH]; intros dir.
  - rewrite ancestors_step. case_decide; set_solver.
  - rewrite (Nat.iter_succ_r n _ Posix.posix_dirname dir).
    destruct (decide (Posix.posix_dirname dir = dir)) as [Heq|Hne]; [rewrite Heq; apply IH|].
    rewrite (ancestors_step dir), decide_False by done. right. apply IH.
Qed.

Lemma ancestors_render segs :
  Forall (λ seg, plain seg = true) segs →
  ancestors (render segs) = (λ k, render (take k segs)) <$> reverse (seq 0 (S (length segs))).
Proof.
  induction segs as [|name segs IH] using rev_ind; [intros _; apply ancestors_root|].
  intros [Hs Hn%Forall_inv]%Forall_app. rewrite ancestors_render_snoc, IH by done.
  rewrite length_app, Nat.add_1_r, (seq_S (S _)), reverse_snoc, fmap_cons.
  f_equal; [by rewrite take_ge by (rewrite length_app; simpl; lia)|].
  apply list_fmap_ext. intros i k Hk%list_elem_of_lookup_2%elem_of_reverse%elem_of_seq.
  by rewrite take_app_le by lia.
Qed.

(** What the search finds is a directory of the walk. *)
Lemma find_module_directory_lookup exist cwd basedir md :
  find_module_directory exist cwd basedir = Some md ↔
  ∃ n a, ancestors basedir !! n = Some a ∧ md = module_root cwd a ∧ exist md = true ∧
         ∀ m b, ancestors basedir !! m = Some b → m < n → exist (module_root cwd b) = false.
Proof.
  unfold find_module_directory. rewrite fmap_Some. split.
  - intros ([n md'] & (Hn & Hmd & Hmin)%list_find_Some & ->). simpl.
    apply list_lookup_fmap_Some in Hn as (a & -> & Ha). exists n, a. split_and!; [done..|].
    intros m b Hb Hm. apply not_true_is_false.
    apply (Hmin m (module_root cwd b)); [by rewrite list_lookup_fmap, Hb|done].
  - intros (n & a & Ha & -> & Hex & Hmin). exists (n, module_root cwd a). split; [|done].
    apply list_find_Some. split_and!; [by rewrite list_lookup_fmap, Ha|done|].
    intros m y (b & -> & Hb)%list_lookup_fmap_Some Hm. by rewrite (Hmin m b).
Qed.

(** ** Lemmas: the laws of the path functions *)

Section laws.
Context (cwd : string) (pm : string → option PicomatchOptions → string → bool).
Context (Hcwd : is_absolute cwd = true).

(** To resolve [./rest] is to walk the segments of [rest] from the base. *)
Lemma resolve_dot_slash base rest :
  resolve_segments cwd base ("./" +:+ rest) =
  reverse (foldl push (reverse (resolve_segments cwd cwd base)) (split_slash rest)).
Proof.
  rewrite resolve_segments_relative by done.
  change ("./" +:+ rest) with ("." +:+ "/" +:+ rest). by rewrite split_app_slash.
Qed.

(** From [base], the URL of the helper followed by [rest] is [rest] in the
    module directory. *)
Lemma module_url_resolves base dir rest :
  posix_resolve cwd base (module_relative_url cwd base dir +:+ rest) =
  posix_resolve cwd dir ("./" +:+ rest).
Proof.
  unfold posix_resolve, module_relative_url. f_equal.
  rewrite !str_app_assoc, !resolve_dot_slash, split_app_slash, foldl_app.
  by rewrite foldl_push_relative.
Qed.

(** The directory of a file resolved in a directory is that directory. *)
Lemma dirname_resolved base p name :
  p ≠ "" → plain name = true →
  Posix.posix_dirname (posix_resolve cwd base (p +:+ "/" +:+ name)) = posix_resolve cwd base p.
Proof.
  intros Hp Hn. unfold posix_resolve. rewrite resolve_segments_snoc by done.
  apply posix_dirname_render; [apply resolve_segments_plains|done].
Qed.

(** What [findModuleDirectory] answers is in normal form. *)
Lemma module_root_normal dir : posix_resolve cwd cwd (module_root cwd dir) = module_root cwd dir.
Proof.
  unfold module_root, posix_resolve.
  by rewrite resolve_segments_render by apply resolve_segments_plains.
Qed.

(** A path of plain segments names different files in different
    directories. *)
Lemma resolve_in_dir_inj dir1 dir2 rest :
  Forall (λ seg, plain seg = true) (split_slash rest) →
  posix_resolve cwd dir1 ("./" +:+ rest) = posix_resolve cwd dir2 ("./" +:+ rest) →
  posix_resolve cwd cwd dir1 = posix_resolve cwd cwd dir2.
Proof.
  intros Hrest Heq%render_inj; [|apply resolve_segments_plains..].
  rewrite !resolve_dot_slash, !foldl_push_plain, !reverse_app, !reverse_involutive in Heq by done.
  apply app_inv_tail in Heq. unfold posix_resolve. by rewrite Heq.
Qed.

#[global] Instance node_path_laws : PathLaws (H := node_libs cwd pm).
Proof.
  split; simpl.
  - done.
  - apply posix_dirname_absolute.
  - intros. apply module_url_resolves.
  - intros. by apply dirname_resolved.
Qed.

End laws.

(** ** Properties *)

(** The search fails exactly when no directory, however far up, has a
    [node_modules]. *)
Lemma find_module_directory_None exist cwd basedir :
  find_module_directory exist cwd basedir = None ↔
  ∀ n, exist (module_root cwd (Nat.iter n Posix.posix_dirname basedir)) = false.
Proof.
  unfold find_module_directory. rewrite fmap_None, list_find_None, Forall_fmap, Forall_forall.
  split.
  - intros Hall n. apply not_true_is_false, (Hall _ (ancestors_elem basedir n)).
  - intros Hall a [n ->%ancestors_lookup]%list_elem_of_lookup_1. simpl. by rewrite Hall.
Qed.

(** The search answers with the nearest [node_modules]: the one fewest steps
    up from the base directory among those that exist. *)
Theorem find_module_directory_nearest exist cwd basedir md :
  find_module_directory exist cwd basedir = Some md ↔
  ∃ n, md = module_root cwd (Nat.iter n Posix.posix_dirname basedir) ∧ exist md = true ∧
       ∀ m, m < n → exist (module_root cwd (Nat.iter m Posix.posix_dirname basedir)) = false.
Proof.
  rewrite find_module_directory_lookup. split.
  - intros (n & a & Ha & -> & Hex & Hmin). exists n.
    rewrite <-(ancestors_lookup _ _ _ Ha). split_and!; [done..|]. intros m Hm.
    destruct (lookup_lt_is_Some_2 (ancestors basedir) m) as [b Hb];
      [apply lookup_lt_Some in Ha; lia|].
    rewrite <-(ancestors_lookup _ _ _ Hb). by apply (Hmin m).
  - intros (n & -> & Hex & Hmin).
    destruct (list_elem_of_lookup_1 _ _ (ancestors_elem basedir n)) as [i Hi].
    pose proof (ancestors_lookup _ _ _ Hi) as Heq.
    destruct (decide (i ≤ n)) as [Hle|Hgt].
    + exists i, (Nat.iter n Posix.posix_dirname basedir). split_and!; [done..|].
      intros m b ->%ancestors_lookup Hm. apply Hmin. lia.
    + exists n, (Nat.iter n Posix.posix_dirname basedir).
      destruct (lookup_lt_is_Some_2 (ancestors basedir) n) as [b Hb];
        [apply lookup_lt_Some in Hi; lia|].
      rewrite <-(ancestors_lookup _ _ _ Hb) in *. split_and!; [done..|].
      intros m c ->%ancestors_lookup Hm. by apply Hmin.
Qed.

Lemma find_module_directory_nearest_witness :
  find_module_directory (existing ["/project/node_modules"; "/node_modules"]) "/w"
    "/project/packages/ui" = Some "/project/node_modules".
Proof.
  apply find_module_directory_nearest. exists 2. split_and!; [done..|].
  intros [|[|m]] Hm; [done..|lia].
Defined.

(** The walk up the directories ends: it is a list, no longer than the path
    it starts from is, and its last directory is one that [dirname] keeps. *)
Theorem ancestors_terminate dir :
  (length (ancestors dir) ≤ String.length dir + 2)%nat ∧
  ∃ top, last (ancestors dir) = Some top ∧ Posix.posix_dirname top = top.
Proof.
  split; [|apply ancestors_last].
  pose proof (ancestors_length dir). unfold walk_measure in *. case_decide; lia.
Qed.
