(* ===== verification/NodeFs.v ===== *)
(** * NodeFs: a file system, and Node's [fs] and [require.resolve] on it

    plugin.ts reads the file system through [statSync] and [readFileSync]
    (lines 131, 142 and 153), through [require.resolve] (line 80), through the
    compiler, and, when the plugin is made, through [findModuleDirectory].
    None of them is code of the repository.  This file gives a file system
    as a finite map from the paths of its files to their modification time
    and text, and the three calls as functions of it, so that the interface
    [Host.World] has an instance in which the calls agree with each other: a
    file that can be read can be stat'ed, and a module is found where the
    file system has it.  The compiler stays a parameter.

    The lookup of modules is the part of Node's algorithm a style sheet
    needs: an absolute request is that file; a request that starts with
    [./] or [../] is tried in each of the start paths; any other request is
    tried in the [node_modules] of each start path and of the directories
    above it, nearest first, directories called [node_modules] left out.
    A candidate is accepted when it is a file.  The extensions Node would
    add, [package.json], directories as modules, symbolic links and the
    global folders are left out. *)

From S2P Require Import Prelude JsString Host Paths Posix Utils.

Local Open Scope js_scope.

(** ** Definitions *)

(** The files by their path, absolute and in normal form, each with its
    modification time and its text.  The directories are the ones the files
    are in. *)
Abbreviation FileSystem := (gmap string (Z * string)).

Section fs.
Context (cwd : string).

(** The path the operating system finds [p] at. *)
Definition locate (p : string) : string := posix_resolve cwd cwd p.

Definition is_file (fs : FileSystem) (p : string) : bool :=
  bool_decide (is_Some (fs !! locate p)).

(** A directory is a path above a file. *)
Definition is_directory (fs : FileSystem) (p : string) : bool :=
  bool_decide (Exists (λ file, locate p ∈ tail (ancestors file)) (elements (dom fs))).

(** [fs.existsSync(p)] *)
Definition exists_sync (fs : FileSystem) (p : string) : bool :=
  is_file fs p || is_directory fs p.

(** [fs.statSync(p).mtimeMs], for a file. *)
Definition stat_sync (fs : FileSystem) (p : string) : completion Z :=
  of_option (FileSystemError p) (fst <$> fs !! locate p).

(** [fs.readFileSync(p, "utf-8")] *)
Definition read_file_sync (fs : FileSystem) (p : string) : completion string :=
  of_option (FileSystemError p) (snd <$> fs !! locate p).

(** [fs.writeFileSync(p, text)] at the time [mtime]. *)
Definition write_file (p : string) (mtime : Z) (text : string) (fs : FileSystem) : FileSystem :=
  <[locate p := (mtime, text)]> fs.

(** The last segment of [dir] is [name]. *)
Definition named (name dir : string) : bool :=
  bool_decide (last (resolve_segments cwd cwd dir) = Some name).

(** The [node_modules] directories that a lookup from [start] visits: those
    of [start] and of the directories above it, nearest first, none inside
    a directory that is itself called [node_modules]. *)
Definition module_dirs (start : string) : list string :=
  module_root cwd <$> filter (λ dir, named "node_modules" dir = false) (ancestors (locate start)).

(** The files a request may stand for, in the order they are tried. *)
Definition candidates (request : string) (paths : list string) : list string :=
  if is_absolute request then [locate request]
  else if startsWith request "./" || startsWith request "../"
       then (λ start, posix_resolve cwd start request) <$> paths
       else (λ dir, posix_resolve cwd dir request) <$> (paths ≫= module_dirs).

(** The first of the paths that is a file. *)
Definition first_file (fs : FileSystem) (l : list string) : option string :=
  snd <$> list_find (λ p, is_Some (fs !! p)) l.

(** [require.resolve(request, {paths})] *)
Definition require_resolve_node (fs : FileSystem) (request : string) (paths : list string)
    : completion string :=
  of_option (ResolutionError request) (first_file fs (candidates request paths)).

(** The calls of the plugin on the file system [fs]; [sass] is the compiler,
    which reads the same file system. *)
Definition node_world (sass : FileSystem → SassCall → completion string) (fs : FileSystem)
    : World := {|
  statSync := stat_sync fs;
  readFileSync := read_file_sync fs;
  require_resolve := require_resolve_node fs;
  sass_renderSync := sass fs;
|}.

End fs.

(** A project with modules at two levels and a style sheet in a package. *)
Definition project_fs : FileSystem :=
  {[ "/project/node_modules/bootstrap/scss/bootstrap.scss" := (1%Z, "b{}");
     "/project/node_modules/normalize.css" := (2%Z, "html{}");
     "/project/packages/ui/node_modules/bootstrap/scss/bootstrap.scss" := (3%Z, "ui{}");
     "/project/packages/ui/src/app.scss" := (4%Z, "@import ~bootstrap/scss/bootstrap.scss");
     "/project/packages/ui/src/theme.css" := (5%Z, "body{color:red}");
     "/shared/styles/mixins.scss" := (6%Z, "m{}") ]}.

Example node_fs_examples :
  exists_sync "/w" project_fs "/project/node_modules" = true ∧
  exists_sync "/w" project_fs "/project/packages/node_modules" = false ∧
  stat_sync "/w" project_fs "/project/packages/ui/src/../src/theme.css" = Normal 5%Z ∧
  read_file_sync "/w" project_fs "/project/missing.css" =
    Throw (FileSystemError "/project/missing.css") ∧
  module_dirs "/w" "/project/packages/ui/node_modules/bootstrap" =
    ["/project/packages/ui/node_modules/bootstrap/node_modules";
     "/project/packages/ui/node_modules"; "/project/packages/node_modules";
     "/project/node_modules"; "/node_modules"] ∧
  require_resolve_node "/w" project_fs "bootstrap/scss/bootstrap.scss"
    ["/project/packages/ui/src"] =
    Normal "/project/packages/ui/node_modules/bootstrap/scss/bootstrap.scss" ∧
  require_resolve_node "/w" project_fs "normalize.css" ["/project/packages/ui/src"] =
    Normal "/project/node_modules/normalize.css" ∧
  require_resolve_node "/w" project_fs "mixins.scss" ["/project/packages/ui/src"] =
    Throw (ResolutionError "mixins.scss") ∧
  require_resolve_node "/w" project_fs "/shared/styles/mixins.scss" [] =
    Normal "/shared/styles/mixins.scss".
Proof. by vm_compute. Qed.

(** ** Lemmas *)

Section fs_lemmas.
Context (cwd : string).
Implicit Types (fs : FileSystem) (p f request : string) (l paths : list string).

(** A resolved path is where the operating system finds it. *)
Lemma locate_resolved base p : locate cwd (posix_resolve cwd base p) = posix_resolve cwd base p.
Proof. destruct (posix_resolve_normal cwd base p) as (segs & _ & _ & Hn). apply Hn. Qed.

Lemma stat_sync_Normal fs p mtime :
  stat_sync cwd fs p = Normal mtime ↔ ∃ text, fs !! locate cwd p = Some (mtime, text).
Proof.
  unfold stat_sync. destruct (fs !! locate cwd p) as [[m text]|]; simpl; [|naive_solver].
  split; [intros [= ->]; eauto|by intros (? & [= ->])].
Qed.

Lemma read_file_sync_Normal fs p text :
  read_file_sync cwd fs p = Normal text ↔ ∃ mtime, fs !! locate cwd p = Some (mtime, text).
Proof.
  unfold read_file_sync. destruct (fs !! locate cwd p) as [[m t]|]; simpl; [|naive_solver].
  split; [intros [= ->]; eauto|by intros (? & [= _ ->])].
Qed.

(** A file that can be read can be stat'ed. *)
Lemma read_stat fs p text :
  read_file_sync cwd fs p = Normal text → is_Normal (stat_sync cwd fs p) = true.
Proof. intros [mtime Hf]%read_file_sync_Normal. unfold stat_sync. by rewrite Hf. Qed.

(** A write is seen at its path and at no other. *)
Lemma lookup_write_file fs p mtime text f :
  write_file cwd p mtime text fs !! f =
  if decide (locate cwd p = f) then Some (mtime, text) else fs !! f.
Proof.
  unfold write_file. case_decide as Hp; [by rewrite Hp, lookup_insert_eq|].
  by rewrite lookup_insert_ne.
Qed.

Lemma stat_write_file_other fs p mtime text f :
  locate cwd p ≠ locate cwd f →
  stat_sync cwd (write_file cwd p mtime text fs) f = stat_sync cwd fs f.
Proof. intros Hp. unfold stat_sync. by rewrite lookup_write_file, decide_False. Qed.

(** The directory of a file exists. *)
Lemma exists_sync_parent fs p name :
  p ≠ "" → plain name = true →
  is_Some (fs !! locate cwd (p +:+ "/" +:+ name)) → exists_sync cwd fs p = true.
Proof.
  intros Hp Hn Hf. unfold exists_sync, is_directory. apply orb_true_iff. right.
  apply bool_decide_eq_true, Exists_exists. exists (locate cwd (p +:+ "/" +:+ name)).
  split; [by apply elem_of_elements, elem_of_dom|].
  unfold locate, posix_resolve. rewrite resolve_segments_snoc by done.
  rewrite ancestors_render_snoc by (done || apply resolve_segments_plains). simpl.
  apply (ancestors_elem _ 0).
Qed.

(** *** The first file of a list *)

Lemma first_file_Some fs l f :
  first_file fs l = Some f ↔
  ∃ i, l !! i = Some f ∧ is_Some (fs !! f) ∧ ∀ j g, l !! j = Some g → j < i → fs !! g = None.
Proof.
  unfold first_file. rewrite fmap_Some. split.
  - intros ([i f'] & (Hi & Hf & Hmin)%list_find_Some & ->). exists i. split_and!; [done..|].
    intros j g Hj Hlt. apply eq_None_not_Some. by eapply Hmin.
  - intros (i & Hi & Hf & Hmin). exists (i, f). split; [|done].
    apply list_find_Some. split_and!; [done..|]. intros j g Hj Hlt.
    rewrite (Hmin j g Hj Hlt). by intros [].
Qed.

Lemma first_file_None fs l : first_file fs l = None ↔ Forall (λ p, fs !! p = None) l.
Proof.
  unfold first_file. rewrite fmap_None, list_find_None. apply Forall_proper; [|done].
  intros p. symmetry. apply eq_None_not_Some.
Qed.

(** The files of the first list go before those of the second. *)
Lemma first_file_app fs l1 l2 :
  first_file fs (l1 ++ l2) = from_option Some (first_file fs l2) (first_file fs l1).
Proof.
  unfold first_file. destruct (list_find _ l1) as [[i f]|] eqn:H1; simpl.
  - by rewrite (list_find_app_l _ _ _ _ _ H1).
  - rewrite (list_find_app_r _ _ _ H1). by destruct (list_find _ l2) as [[]|].
Qed.

(** What the first file is does not depend on the files outside the list. *)
Lemma first_file_ext fs fs' l :
  Forall (λ p, is_Some (fs !! p) ↔ is_Some (fs' !! p)) l → first_file fs l = first_file fs' l.
Proof.
  induction 1 as [|p l Hp _ IH]; [done|].
  change (p :: l) with ([p] ++ l). rewrite !first_file_app, IH. unfold first_file. simpl.
  destruct (decide (is_Some (fs !! p))) as [Hs|Hn], (decide (is_Some (fs' !! p))); naive_solver.
Qed.

(** *** The candidates of a request *)

Lemma candidates_located request paths :
  Forall (λ f, locate cwd f = f) (candidates cwd request paths).
Proof.
  unfold candidates. repeat case_match;
    [by repeat constructor; apply locate_resolved|apply Forall_fmap, Forall_true..];
    intros ?; apply locate_resolved.
Qed.

Lemma candidates_app request paths1 paths2 :
  is_absolute request = false →
  candidates cwd request (paths1 ++ paths2) =
  candidates cwd request paths1 ++ candidates cwd request paths2.
Proof.
  intros Ha. unfold candidates. rewrite Ha.
  case_match; by rewrite ?bind_app, fmap_app.
Qed.

(** What [require.resolve] answers is a candidate and a file, and it is
    found where it is. *)
Lemma require_resolve_node_Normal fs request paths f :
  require_resolve_node cwd fs request paths = Normal f ↔
  first_file fs (candidates cwd request paths) = Some f.
Proof. unfold require_resolve_node. destruct (first_file _ _); simpl; naive_solver. Qed.

Lemma require_resolve_node_file fs request paths f :
  require_resolve_node cwd fs request paths = Normal f →
  is_Some (fs !! f) ∧ locate cwd f = f.
Proof.
  intros (i & Hi & Hf & _)%require_resolve_node_Normal%first_file_Some. split; [done|].
  pose proof (candidates_located request paths) as Hl.
  by apply (Forall_lookup_1 _ _ _ _ Hl Hi).
Qed.

Lemma require_resolve_node_Throw fs request paths e :
  require_resolve_node cwd fs request paths = Throw e ↔
  e = ResolutionError request ∧ Forall (λ p, fs !! p = None) (candidates cwd request paths).
Proof.
  rewrite <-first_file_None. unfold require_resolve_node.
  destruct (first_file _ _); simpl; naive_solver.
Qed.

(** *** Where the candidates of a module are *)

(** To resolve a path of plain segments is to append them. *)
Lemma resolve_segments_plain base p :
  is_absolute cwd = true → is_absolute p = false →
  Forall (λ seg, plain seg = true) (split_slash p) →
  resolve_segments cwd base p = resolve_segments cwd cwd base ++ split_slash p.
Proof.
  intros Hcwd Hp Hs. rewrite resolve_segments_relative, foldl_push_plain by done.
  by rewrite reverse_app, !reverse_involutive.
Qed.

Lemma segments_resolved base p :
  resolve_segments cwd cwd (posix_resolve cwd base p) = resolve_segments cwd base p.
Proof. apply resolve_segments_render, resolve_segments_plains. Qed.

(** Every candidate of a module lies in a directory called [node_modules]. *)
Lemma candidates_in_node_modules request paths file :
  is_absolute cwd = true → is_absolute request = false →
  (startsWith request "./" || startsWith request "../") = false →
  Forall (λ seg, plain seg = true) (split_slash request) →
  file ∈ candidates cwd request paths →
  "node_modules" ∈ resolve_segments cwd cwd file.
Proof.
  intros Hcwd Ha Hrel Hs. unfold candidates. rewrite Ha, Hrel.
  intros (dir & -> & (start & Hd & _)%list_elem_of_bind)%list_elem_of_fmap.
  apply list_elem_of_fmap in Hd as (a & -> & _).
  rewrite segments_resolved, resolve_segments_plain by done.
  unfold module_root.
  rewrite segments_resolved, (resolve_segments_plain a "node_modules")
    by (try done; by repeat constructor).
  set_solver.
Qed.

End fs_lemmas.
