(* ===== verification/ModuleBuilder.v ===== *)
(** * ModuleBuilder: the JavaScript modules that wrap the CSS text

    [cssResultModule], [styleModule] and [makeModule] of plugin.ts lines 8-23.
    The two templates are written as the text they evaluate to; the lemmas
    [cssResult_source] and [style_source] check that text against the source
    characters of the templates with [read_template]. *)

From S2P Require Import Prelude JsString.

(** ** Definitions *)

(** The text of the module up to the backtick that opens the CSS literal. *)
Definition cssResult_open : string :=
  "import {css} from " +:+ DQUOTE +:+ "lit-element" +:+ DQUOTE +:+ ";" +:+ LF +:+
  "export default css`".

Definition style_open : string :=
  "document.head" +:+ LF +:+
  "    .appendChild(document.createElement(" +:+ DQUOTE +:+ "style" +:+ DQUOTE +:+ "))" +:+ LF +:+
  "    .appendChild(document.createTextNode(`".

(** Lines 8-12. *)
Definition cssResultModule (cssText : string) : string :=
  cssResult_open +:+ LF +:+ escape cssText +:+ "`;" +:+ LF.

(** Lines 14-19. *)
Definition styleModule (cssText : string) : string :=
  style_open +:+ LF +:+ escape cssText +:+ "`));" +:+ LF.

(** Lines 21-23. *)
Definition makeModule (contents type : string) : string :=
  if String.eqb type "style" then styleModule contents else cssResultModule contents.

(** The header that opens the literal of the module of a type, and what
    follows the literal. *)
Definition module_open (type : string) : string :=
  if String.eqb type "style" then style_open else cssResult_open.

Definition module_close (type : string) : string :=
  if String.eqb type "style" then "));" +:+ LF else ";" +:+ LF.

(** The source characters of the two templates of lines 8-19, between the
    opening backtick and the substitution, and after it. *)
Definition cssResult_raw_head : string :=
  "\" +:+ LF +:+ "import {css} from " +:+ DQUOTE +:+ "lit-element" +:+ DQUOTE +:+ ";" +:+ LF +:+
  "export default css\`" +:+ LF.

Definition style_raw_head : string :=
  "\" +:+ LF +:+ "document.head" +:+ LF +:+
  "    .appendChild(document.createElement(" +:+ DQUOTE +:+ "style" +:+ DQUOTE +:+ "))" +:+ LF +:+
  "    .appendChild(document.createTextNode(\`" +:+ LF.

(** ** The templates against their source *)

Lemma cssResult_source cssText :
  read_template (cssResult_raw_head +:+ "`") = Some (cssResult_open +:+ LF, EmptyString) ∧
  read_template ("\`;" +:+ LF +:+ "`") = Some ("`;" +:+ LF, EmptyString) ∧
  cssResultModule cssText = (cssResult_open +:+ LF) +:+ escape cssText +:+ ("`;" +:+ LF).
Proof. split_and!; [done..|]. unfold cssResultModule. by rewrite !str_app_assoc. Qed.

Lemma style_source cssText :
  read_template (style_raw_head +:+ "`") = Some (style_open +:+ LF, EmptyString) ∧
  read_template ("\`));" +:+ LF +:+ "`") = Some ("`));" +:+ LF, EmptyString) ∧
  styleModule cssText = (style_open +:+ LF) +:+ escape cssText +:+ ("`));" +:+ LF).
Proof. split_and!; [done..|]. unfold styleModule. by rewrite !str_app_assoc. Qed.

(** ** Lemmas *)

Section lemmas.
Implicit Types (cssText contents type : string).

Lemma makeModule_style contents : makeModule contents "style" = styleModule contents.
Proof. done. Qed.

Lemma makeModule_other contents type :
  type ≠ "style" → makeModule contents type = cssResultModule contents.
Proof. intros H. unfold makeModule. by destruct (String.eqb_spec type "style"). Qed.

(** Every module is its header, a line feed, the escaped text, a backtick and
    its trailer. *)
Lemma makeModule_shape contents type :
  makeModule contents type =
  module_open type +:+ String char_lf (escape contents +:+ String "`" (module_close type)).
Proof.
  unfold makeModule, module_open, module_close.
  destruct (String.eqb type "style"); unfold styleModule, cssResultModule; done.
Qed.

Lemma read_template_body contents rest :
  read_template (String char_lf (escape contents +:+ String "`" rest)) =
  Some (String char_lf (normalize_eol contents), rest).
Proof. rewrite read_template_plain by done. by rewrite read_template_escape. Qed.

Lemma makeModule_read contents type :
  strip_prefix (module_open type) (makeModule contents type) ≫= read_template =
  read_template (String char_lf (escape contents +:+ String "`" (module_close type))).
Proof. by rewrite makeModule_shape, strip_prefix_app. Qed.


Lemma makeModule_inj contents1 contents2 type :
  makeModule contents1 type = makeModule contents2 type → contents1 = contents2.
Proof.
  rewrite !makeModule_shape. intros H%str_app_inv_head. injection H as H.
  by apply str_app_inv_tail, escape_inj in H.
Qed.

End lemmas.

(** ** Properties *)


(** C6.  In the module of any type, the literal that carries the CSS text is
    well formed whatever the text contains: read as a template literal from
    the backtick that opens it, it ends at the backtick the template wrote,
    and its value is a line feed followed by the text with its line ends
    normalised. *)
Theorem makeModule_roundtrip contents type :
  strip_prefix (module_open type) (makeModule contents type) ≫= read_template =
  Some (String char_lf (normalize_eol contents), module_close type).
Proof. rewrite makeModule_read. apply read_template_body. Qed.

(** For a text with no carriage return the value of the literal is the
    text itself after one line feed. *)
Lemma makeModule_roundtrip_exact contents type :
  lacks char_cr contents = true →
  strip_prefix (module_open type) (makeModule contents type) ≫= read_template =
  Some (String char_lf contents, module_close type).
Proof.
  intros Hcr. by rewrite makeModule_read, read_template_body, normalize_eol_id.
Qed.


(** For a given type, two texts give the same module only when they are
    the same text. *)
Lemma makeModule_injective contents1 contents2 type :
  makeModule contents1 type = makeModule contents2 type ↔ contents1 = contents2.
Proof. split; [apply makeModule_inj|by intros ->]. Qed.


Lemma makeModule_roundtrip_exact_witness :
  strip_prefix (module_open "style") (makeModule "a{b:`$c\`}" "style") ≫= read_template =
  Some (String char_lf "a{b:`$c\`}", module_close "style").
Proof. by apply (makeModule_roundtrip_exact "a{b:`$c\`}" "style"). Defined.
