(* ===== verification/Matcher.v ===== *)
(** * Matcher: which output type a resolve request gets

    The constant [type], the array [matchers] and the function [typeOf] of
    plugin.ts lines 40-73.  The options are the ones of the plugin after its
    defaults were filled in (lines 31-36). *)

From S2P Require Import Prelude JsString Host Fixture.

(** ** Definitions *)

Section matcher.
Context `{Libs} (options : Index).

(** Line 40, the constant [type]: the type given as a string, or ["css"]. *)
Definition default_type : string :=
  match opt_type options with
  | TypeString t => t
  | _ => "css"
  end.

(** ["**/" + p]; an absent [p] is [undefined], which [+] prints. *)
Definition glob (p : option string) : string :=
  "**/" +:+ default "undefined" p.

(** The predicate [matchers] pairs with the type of a rule (lines 44-63). *)
Definition isMatch (pattern : Pattern) : OnResolveArgs → bool :=
  match pattern with
  | PatPair p0 p1 =>
      let importerMatcher := picomatch (glob p0) (opt_picomatch options) in
      if truthy_opt p1 then
        let pathMatcher := picomatch (glob p1) (opt_picomatch options) in
        λ args, importerMatcher (importer args) &&
                pathMatcher (path_resolve (resolveDir args) (path args))
      else
        λ args, importerMatcher (importer args)
  | PatSingle p =>
      if truthy_opt p then
        let pathMatcher := picomatch (glob p) (opt_picomatch options) in
        λ args, pathMatcher (path_resolve (resolveDir args) (path args))
      else
        λ _, true
  end.

(** Lines 42-64: [false] when [options.type] is not an array. *)
Definition matchers : option (list (string * (OnResolveArgs → bool))) :=
  match opt_type options with
  | TypeRules rules => Some (map (λ rule, (rule.1, isMatch rule.2)) rules)
  | _ => None
  end.

(** The loop of lines 68-71: the type of the first predicate that holds, and
    the constant [type] when none does. *)
Fixpoint first_type (ms : list (string * (OnResolveArgs → bool)))
    (args : OnResolveArgs) : string :=
  match ms with
  | [] => default_type
  | (type, is_match) :: rest => if is_match args then type else first_type rest args
  end.

(** Lines 66-73. *)
Definition typeOf (args : OnResolveArgs) : string :=
  match matchers with
  | Some ms => first_type ms args
  | None => default_type
  end.

(** ** The routing table of the specification

    A rule has no predicate, a glob for the resolved path, or a glob for the
    importer with an optional one for the resolved path. *)
Inductive PredicateSpec : Type :=
| Always
| PathGlob (g : string)
| ImporterGlob (gi : string) (gp : option string).

Definition predicate_of (pattern : Pattern) : PredicateSpec :=
  match pattern with
  | PatSingle p => if truthy_opt p then PathGlob (glob p) else Always
  | PatPair p0 p1 =>
      ImporterGlob (glob p0) (if truthy_opt p1 then Some (glob p1) else None)
  end.

Definition holds (spec : PredicateSpec) (args : OnResolveArgs) : bool :=
  let resolved := path_resolve (resolveDir args) (path args) in
  match spec with
  | Always => true
  | PathGlob g => picomatch g (opt_picomatch options) resolved
  | ImporterGlob gi gp =>
      picomatch gi (opt_picomatch options) (importer args) &&
      from_option (λ g, picomatch g (opt_picomatch options) resolved) true gp
  end.

(** First match wins; ["css"] when no rule matches. *)
Definition classify (rules : list (string * PredicateSpec)) (args : OnResolveArgs) : string :=
  match List.find (λ rule, holds rule.2 args) rules with
  | Some rule => rule.1
  | None => "css"
  end.

(** A rule whose predicate reads the importer. *)
Definition reads_importer (pattern : Pattern) : bool :=
  match pattern with
  | PatSingle _ => false
  | PatPair _ _ => true
  end.

Definition rules_of (t : TypeOption) : list (string * Pattern) :=
  match t with
  | TypeRules rules => rules
  | _ => []
  end.

(** ** Lemmas *)

Lemma isMatch_holds pattern args : isMatch pattern args = holds (predicate_of pattern) args.
Proof. destruct pattern as [p|p0 p1]; simpl; [by destruct (truthy_opt p)|].
  destruct (truthy_opt p1); simpl; [done|by rewrite andb_true_r]. Qed.

Lemma typeOf_rules rules args :
  opt_type options = TypeRules rules →
  typeOf args = first_type (map (λ rule, (rule.1, isMatch rule.2)) rules) args.
Proof. intros Hr. unfold typeOf, matchers. by rewrite Hr. Qed.

Lemma default_type_rules rules : opt_type options = TypeRules rules → default_type = "css".
Proof. intros Hr. unfold default_type. by rewrite Hr. Qed.

Lemma first_type_app ms1 ms2 args :
  Forall (λ m, m.2 args = false) ms1 →
  first_type (ms1 ++ ms2) args = first_type ms2 args.
Proof. induction 1 as [|[t m] ms Hm _ IH]; simpl in *; [done|by rewrite Hm]. Qed.

Lemma first_type_hit t (m : OnResolveArgs → bool) ms args :
  m args = true → first_type ((t, m) :: ms) args = t.
Proof. intros Hm. simpl. by rewrite Hm. Qed.

Lemma first_type_none ms args :
  Forall (λ m, m.2 args = false) ms → first_type ms args = default_type.
Proof. intros Hms. rewrite <-(app_nil_r ms). by rewrite first_type_app. Qed.

Lemma first_type_elem ms args :
  first_type ms args = default_type ∨ first_type ms args ∈ ms.*1.
Proof.
  induction ms as [|[t m] ms IH]; simpl; [by left|].
  destruct (m args); [right; apply list_elem_of_here|].
  destruct IH; [by left|right; by apply list_elem_of_further].
Qed.

Lemma first_type_find ms args :
  first_type ms args = from_option fst default_type (List.find (λ m, m.2 args) ms).
Proof. induction ms as [|[t m] ms IH]; simpl; [done|]. by destruct (m args). Qed.

Lemma first_type_classify rules args :
  default_type = "css" →
  first_type (map (λ rule, (rule.1, isMatch rule.2)) rules) args =
  classify (map (λ rule, (rule.1, predicate_of rule.2)) rules) args.
Proof.
  intros Hd. unfold classify. induction rules as [|[t pattern] rules IH]; simpl; [done|].
  rewrite isMatch_holds. by destruct (holds _ _).
Qed.

Lemma first_type_ext ms args1 args2 :
  Forall (λ m, m.2 args1 = m.2 args2) ms → first_type ms args1 = first_type ms args2.
Proof. induction 1 as [|[t m] ms Hm _ IH]; simpl in *; [done|]. by rewrite Hm, IH. Qed.

Lemma isMatch_same_request pattern args1 args2 :
  importer args1 = importer args2 →
  path_resolve (resolveDir args1) (path args1) = path_resolve (resolveDir args2) (path args2) →
  isMatch pattern args1 = isMatch pattern args2.
Proof.
  intros Hi Hp. destruct pattern as [p|p0 p1]; simpl.
  - destruct (truthy_opt p); by rewrite ?Hp.
  - destruct (truthy_opt p1); by rewrite ?Hp, ?Hi.
Qed.

Lemma isMatch_same_file pattern args1 args2 :
  reads_importer pattern = false →
  path_resolve (resolveDir args1) (path args1) = path_resolve (resolveDir args2) (path args2) →
  isMatch pattern args1 = isMatch pattern args2.
Proof.
  intros Hr Hp. destruct pattern as [p|p0 p1]; [|done]. simpl.
  destruct (truthy_opt p); by rewrite ?Hp.
Qed.

(** ** Properties *)

(** C7.  Rules are tried in the order of the option and the first one whose
    predicate holds gives the type, whatever the rules after it are. *)
Theorem typeOf_first_match rules1 t pattern rules2 args :
  opt_type options = TypeRules (rules1 ++ (t, pattern) :: rules2) →
  Forall (λ rule, isMatch rule.2 args = false) rules1 →
  isMatch pattern args = true →
  typeOf args = t.
Proof.
  intros Hr H1 Hm. rewrite (typeOf_rules _ _ Hr), map_app, first_type_app.
  - by apply first_type_hit.
  - by apply Forall_map.
Qed.

(** When no rule holds of a request, its type is "css". *)
Lemma typeOf_no_match rules args :
  opt_type options = TypeRules rules →
  Forall (λ rule, isMatch rule.2 args = false) rules →
  typeOf args = "css".
Proof.
  intros Hr Hall. rewrite (typeOf_rules _ _ Hr), first_type_none.
  - by apply default_type_rules in Hr.
  - by apply Forall_map.
Qed.

(** C8.  [typeOf] implements the routing table of the specification: with
    rules, it is [classify] on the table the patterns of the rules stand
    for. *)
Theorem typeOf_classify rules args :
  opt_type options = TypeRules rules →
  typeOf args = classify (map (λ rule, (rule.1, predicate_of rule.2)) rules) args.
Proof.
  intros Hr. rewrite (typeOf_rules _ _ Hr). apply first_type_classify.
  by apply default_type_rules in Hr.
Qed.

(** When no rule has an importer pattern, the type of a request depends
    on the file it resolves to only: two requests for the same file get the
    same type, whoever imports it. *)
Lemma typeOf_ignores_importer args1 args2 :
  forallb (λ rule, negb (reads_importer rule.2)) (rules_of (opt_type options)) = true →
  path_resolve (resolveDir args1) (path args1) = path_resolve (resolveDir args2) (path args2) →
  typeOf args1 = typeOf args2.
Proof.
  intros Hall Hp. unfold typeOf, matchers.
  destruct (opt_type options) as [| |rules]; [done..|]. simpl in Hall.
  apply first_type_ext, Forall_map, Forall_forall. intros rule Hin. simpl.
  apply isMatch_same_file; [|done].
  rewrite forallb_forall in Hall. apply list_elem_of_In, Hall in Hin.
  by destruct (reads_importer rule.2).
Qed.

(** The type of a request is always the type of one of the rules, or
    the constant of line 40. *)
Lemma typeOf_range args :
  typeOf args = default_type ∨ typeOf args ∈ (rules_of (opt_type options)).*1.
Proof.
  unfold typeOf, matchers. destruct (opt_type options) as [| |rules]; [by left..|].
  destruct (first_type_elem (map (λ rule, (rule.1, isMatch rule.2)) rules) args) as [?|Hin];
    [by left|right].
  simpl. by rewrite <-list_fmap_compose in Hin.
Qed.

End matcher.

(** ** Witnesses *)

Definition demo_rules : list (string * Pattern) :=
  [("style", PatPair (Some "widget.js") None);
   ("lit", PatSingle (Some "src/b.scss"));
   ("css", PatSingle None)].

Definition rules_options (rules : list (string * Pattern)) : Index :=
  {| opt_basedir := Some "/project"; opt_cache := CacheTruthy; opt_type := TypeRules rules;
     opt_includePaths := None; opt_picomatch := Some [("unixify", "true")];
     opt_importer := None |}.

Lemma typeOf_first_match_witness :
  typeOf (rules_options demo_rules) (request "/project/src" "./b.scss" "/project/src/main.js")
  = "lit".
Proof.
  apply (typeOf_first_match (rules_options demo_rules)
           [("style", PatPair (Some "widget.js") None)] "lit" (PatSingle (Some "src/b.scss"))
           [("css", PatSingle None)]); [done| |done].
  by repeat constructor.
Defined.

Lemma typeOf_no_match_witness :
  typeOf (rules_options [("style", PatPair (Some "widget.js") None)])
    (request "/project/src" "./b.scss" "/project/src/main.js") = "css".
Proof.
  apply (typeOf_no_match (rules_options [("style", PatPair (Some "widget.js") None)])
           [("style", PatPair (Some "widget.js") None)]); [done|].
  by repeat constructor.
Defined.

Lemma typeOf_classify_witness :
  typeOf (rules_options demo_rules) (request "/project/src" "./a.css" "/project/src/widget.js") =
  classify (rules_options demo_rules)
    [("style", ImporterGlob "**/widget.js" None); ("lit", PathGlob "**/src/b.scss");
     ("css", Always)]
    (request "/project/src" "./a.css" "/project/src/widget.js").
Proof. by apply (typeOf_classify (rules_options demo_rules) demo_rules). Defined.

Lemma typeOf_ignores_importer_witness :
  typeOf (rules_options [("lit", PatSingle (Some "src/b.scss"))])
    (request "/project/src" "./b.scss" "/project/src/main.js") =
  typeOf (rules_options [("lit", PatSingle (Some "src/b.scss"))])
    (request "/project" "./src/b.scss" "/project/src/widget.js").
Proof.
  by apply (typeOf_ignores_importer (rules_options [("lit", PatSingle (Some "src/b.scss"))])).
Defined.
