(* ===== verification/Resolver.v ===== *)
(** * Resolver: from a resolve request to a file name

    [pathResolve] and [requireResolve] of plugin.ts lines 75-82. *)

From S2P Require Import Prelude Host.

(** ** Definitions *)

(** Lines 75-77. *)
Definition pathResolve `{Libs} (args : OnResolveArgs) : string :=
  path_resolve (resolveDir args) (path args).

(** The array [paths] of line 80: the resolve directory, then the include
    paths when the option is there. *)
Definition lookup_paths (options : Index) (args : OnResolveArgs) : list string :=
  match opt_includePaths options with
  | Some includePaths => resolveDir args :: includePaths
  | None => [resolveDir args]
  end.

(** Lines 79-82. *)
Definition requireResolve (options : Index) (w : World) (args : OnResolveArgs)
    : completion string :=
  require_resolve w (path args) (lookup_paths options args).

(** ** Lemmas *)

Lemma lookup_paths_head options args :
  head (lookup_paths options args) = Some (resolveDir args).
Proof. unfold lookup_paths. by destruct (opt_includePaths options). Qed.

Lemma lookup_paths_tail options args :
  tail (lookup_paths options args) = default [] (opt_includePaths options).
Proof. unfold lookup_paths. by destruct (opt_includePaths options). Qed.

Lemma lookup_paths_length options args :
  length (lookup_paths options args) = S (length (default [] (opt_includePaths options))).
Proof. unfold lookup_paths. by destruct (opt_includePaths options). Qed.

(** ** Properties *)

(** A module path is looked up from the resolve directory first and then
    from the include paths of the options, in their order; without the option
    the resolve directory is the only place. *)
Lemma requireResolve_paths options w args :
  requireResolve options w args =
  require_resolve w (path args) (resolveDir args :: default [] (opt_includePaths options)).
Proof. unfold requireResolve, lookup_paths. by destruct (opt_includePaths options). Qed.
