(* ===== verification/Transform.v ===== *)
(** * Transform: from a file and an output type to an [OnLoadResult]

    [renderSync] with its [importer] (plugin.ts lines 90-100) and [transform]
    (lines 152-162).  [moduleDirectory] is the value found at line 84. *)

From S2P Require Import Prelude JsString Posix Utils Host Fixture Paths ModuleBuilder.

Local Open Scope js_scope.

(** ** Definitions *)

Section transform.
Context `{Libs} (options : Index) (moduleDirectory : string) (w : World).

(** Lines 92-95, the [importer] the plugin hands to Sass: a leading tilde of
    the URL becomes the module directory relative to the importing file. *)
Definition plugin_importer (url prev : string) : ImporterResult :=
  let relativeBaseUrl := moduleRelativeUrl (posix_dirname prev) moduleDirectory in
  ImportFile (replace_tilde url relativeBaseUrl).

(** The object of lines 91-98: the spread of [options] comes after the
    plugin's [importer] and before [file], so an [importer] of the options
    replaces the plugin's and [file] is always the argument. *)
Definition sass_call (file : string) : SassCall := {|
  sass_importer := default plugin_importer (opt_importer options);
  sass_options := options;
  sass_file := file;
|}.

(** Lines 90-100. *)
Definition renderSync (file : string) : completion string :=
  sass_renderSync w (sass_call file).

(** Line 153. *)
Definition read_contents (path : string) : completion string :=
  if endsWith path ".css" then readFileSync w path else renderSync path.

(** Lines 154-161. *)
Definition package (path type contents : string) : OnLoadResult :=
  if String.eqb type "css" then
    {| contents := contents; loader := Loader_css; out_resolveDir := None |}
  else
    {| contents := makeModule contents type; loader := Loader_js;
       out_resolveDir := Some (path_dirname path) |}.

(** Lines 152-162. *)
Definition transform (path type : string) : completion OnLoadResult :=
  contents <~ read_contents path ;;
  Normal (package path type contents).

(** What the type and the file of a result promise about its shape. *)
Definition shaped (path type : string) (r : OnLoadResult) : Prop :=
  if String.eqb type "css" then loader r = Loader_css ∧ out_resolveDir r = None
  else loader r = Loader_js ∧ out_resolveDir r = Some (path_dirname path) ∧
       ∃ text, contents r = makeModule text type.

(** ** Lemmas *)

Implicit Types (path type : string).

Lemma package_css path text : package path "css" text =
  {| contents := text; loader := Loader_css; out_resolveDir := None |}.
Proof. done. Qed.

Lemma package_js path type text :
  type ≠ "css" →
  package path type text =
  {| contents := makeModule text type; loader := Loader_js;
     out_resolveDir := Some (path_dirname path) |}.
Proof. intros Ht. unfold package. by destruct (String.eqb_spec type "css"). Qed.

Lemma package_shaped path type text : shaped path type (package path type text).
Proof.
  unfold shaped, package. destruct (String.eqb type "css"); simpl; eauto.
Qed.

Lemma transform_Normal path type r :
  transform path type = Normal r ↔
  ∃ text, read_contents path = Normal text ∧ r = package path type text.
Proof.
  unfold transform. destruct (read_contents path) as [text|e]; simpl; split.
  - intros [= <-]. eauto.
  - by intros (? & [= <-] & ->).
  - done.
  - by intros (? & [=] & _).
Qed.

Lemma transform_Throw path type e :
  transform path type = Throw e ↔ read_contents path = Throw e.
Proof.
  unfold transform. destruct (read_contents path); simpl; split; congruence.
Qed.

Lemma transform_shaped path type r : transform path type = Normal r → shaped path type r.
Proof. intros (text & _ & ->)%transform_Normal. apply package_shaped. Qed.

Lemma read_contents_css path :
  endsWith path ".css" = true → read_contents path = readFileSync w path.
Proof. intros Hp. unfold read_contents. by rewrite Hp. Qed.

Lemma read_contents_sass path :
  endsWith path ".css" = false → read_contents path = sass_renderSync w (sass_call path).
Proof. intros Hp. unfold read_contents. by rewrite Hp. Qed.

Lemma plugin_importer_tilde rest prev :
  lacks "$" (moduleRelativeUrl (posix_dirname prev) moduleDirectory) = true →
  plugin_importer (String "~" rest) prev =
  ImportFile (moduleRelativeUrl (posix_dirname prev) moduleDirectory +:+ rest).
Proof. intros Hb. unfold plugin_importer. by rewrite replace_tilde_match. Qed.

Lemma plugin_importer_other url prev :
  (∀ rest, url ≠ String "~" rest) → plugin_importer url prev = ImportFile url.
Proof. intros Hu. unfold plugin_importer. by rewrite replace_tilde_no_match. Qed.

(** ** Properties *)

(** With the type "css" the transform hands the text of the file, read or
    compiled, through unchanged, for the loader "css" and with no resolve
    directory; an exception of the read or of the compiler is the transform's. *)
Lemma transform_css path :
  transform path "css" =
  cmap (λ text, {| contents := text; loader := Loader_css; out_resolveDir := None |})
       (read_contents path).
Proof. done. Qed.

(** C10.  With any other type the result is a JavaScript module resolved from
    the directory of the file, and the literal of that module evaluates to the
    text of the file after a line feed, with its line ends normalised. *)
Theorem transform_module path type r :
  type ≠ "css" → transform path type = Normal r →
  loader r = Loader_js ∧ out_resolveDir r = Some (path_dirname path) ∧
  ∃ text, read_contents path = Normal text ∧
          strip_prefix (module_open type) (contents r) ≫= read_template =
          Some (String char_lf (normalize_eol text), module_close type).
Proof.
  intros Ht (text & Hread & ->)%transform_Normal. rewrite package_js by done. simpl.
  split_and!; [done..|]. exists text. split; [done|].
  rewrite makeModule_read. apply read_template_body.
Qed.

(** The transform throws exactly when reading or compiling the file
    throws, and throws the same exception. *)
Lemma transform_throws path type e :
  transform path type = Throw e ↔ read_contents path = Throw e.
Proof. apply transform_Throw. Qed.

(** The plugin's importer rewrites a URL that starts with a tilde to the
    module directory, relative to the directory of the importing file,
    followed by the rest of the URL, when that directory has no dollar sign;
    it returns any other URL as it is. *)
Lemma plugin_importer_rewrites url prev :
  lacks "$" (moduleRelativeUrl (posix_dirname prev) moduleDirectory) = true →
  plugin_importer url prev =
  ImportFile match url with
             | String "~" rest => moduleRelativeUrl (posix_dirname prev) moduleDirectory +:+ rest
             | _ => url
             end.
Proof.
  intros Hb. destruct url as [|c rest]; [done|].
  destruct (Ascii.eqb_spec c "~") as [->|Hc]; [by apply plugin_importer_tilde|].
  rewrite plugin_importer_other by congruence. f_equal.
  destruct c as [[] [] [] [] [] [] [] []]; done.
Qed.

(** C37.  A module directory with the two characters dollar and ampersand in
    its relative URL gets a tilde in their place: the replacement string of
    [String.replace] is a pattern, in which they stand for the matched text. *)
Theorem plugin_importer_dollar base tail rest prev :
  moduleRelativeUrl (posix_dirname prev) moduleDirectory = base +:+ "$&" +:+ tail →
  lacks "$" base = true → lacks "$" tail = true →
  plugin_importer (String "~" rest) prev = ImportFile ((base +:+ "~" +:+ tail) +:+ rest).
Proof.
  intros Hu Hb Ht. unfold plugin_importer, replace_tilde. rewrite Hu. simpl.
  by rewrite get_substitution_matched.
Qed.

(** A file whose name ends in ".css", with the type "css", is loaded as
    it is read: the contents are the text of the file, and an exception of the
    read is the transform's. *)
Lemma transform_css_passthrough path :
  endsWith path ".css" = true →
  transform path "css" =
  cmap (λ text, {| contents := text; loader := Loader_css; out_resolveDir := None |})
       (readFileSync w path).
Proof. intros Hp. unfold transform. by rewrite read_contents_css. Qed.

End transform.

Section transform_worlds.
Context `{Libs}.


(** A file whose name ends in ".css" is read, never compiled: the
    transform is the same in two worlds in which the file reads alike,
    whatever their compilers, options and module directories. *)
Lemma transform_css_file options options' moduleDirectory moduleDirectory' w w' path type :
  endsWith path ".css" = true →
  readFileSync w path = readFileSync w' path →
  transform options moduleDirectory w path type =
  transform options' moduleDirectory' w' path type.
Proof.
  intros Hp Hr. unfold transform. by rewrite !read_contents_css, Hr.
Qed.

End transform_worlds.

Section transform_paths.
Context `{PathLaws}.


End transform_paths.

(** ** Witnesses *)

Definition demo_transform_real (files : Files) : string → string → completion OnLoadResult :=
  transform demo_options "/project/node_modules" (world_of files).

Lemma transform_module_witness :
  loader (package "/project/src/b.scss" "style" "body{color:red}") = Loader_js ∧
  out_resolveDir (package "/project/src/b.scss" "style" "body{color:red}") =
    Some (path_dirname "/project/src/b.scss") ∧
  ∃ text,
    read_contents demo_options "/project/node_modules" (world_of demo_files)
      "/project/src/b.scss" = Normal text ∧
    strip_prefix (module_open "style")
      (contents (package "/project/src/b.scss" "style" "body{color:red}")) ≫= read_template =
    Some (String char_lf (normalize_eol text), module_close "style").
Proof.
  by apply (transform_module demo_options "/project/node_modules" (world_of demo_files)
              "/project/src/b.scss" "style").
Defined.

Lemma plugin_importer_rewrites_witness :
  plugin_importer "/project/node_modules" "~foo/bar.scss" "/project/src/c.scss" =
  ImportFile "/project/node_modules/foo/bar.scss".
Proof.
  exact (plugin_importer_rewrites "/project/node_modules" "~foo/bar.scss"
           "/project/src/c.scss" eq_refl).
Defined.


Lemma plugin_importer_dollar_witness :
  plugin_importer "/home/$&/node_modules" "~foo/bar.scss" "/project/src/c.scss" =
  ImportFile "/home/~/node_modules/foo/bar.scss".
Proof.
  exact (plugin_importer_dollar "/home/$&/node_modules" "/home/" "/node_modules/"
           "foo/bar.scss" "/project/src/c.scss" eq_refl eq_refl eq_refl).
Defined.

Lemma transform_css_passthrough_witness :
  demo_transform_real demo_files "/project/src/a.css" "css" =
  Normal {| contents := "body{color:red}"; loader := Loader_css; out_resolveDir := None |}.
Proof.
  exact (transform_css_passthrough demo_options "/project/node_modules" (world_of demo_files)
           "/project/src/a.css" eq_refl).
Defined.



Lemma transform_css_file_witness :
  demo_transform_real demo_files "/project/src/a.css" "style" =
  transform demo_options "/elsewhere" (world_of demo_files) "/project/src/a.css" "style".
Proof.
  by apply (transform_css_file demo_options demo_options "/project/node_modules" "/elsewhere"
              (world_of demo_files) (world_of demo_files) "/project/src/a.css" "style").
Defined.
