(* ===== verification/Cache.v ===== *)
(** * Cache: memoised loads

    The two versions of [cached] of plugin.ts lines 116-150, in one section.
    The callbacks of the source are the variables of the section: [resolve]
    and [transform] are the arguments of [cached] and [typeOf] is the closure
    variable it reads, each as it answers in the world [w] of the call;
    [statSync] is the world's.

    The definitions come first: the callback with and without a cache and the
    views of the store the lemmas speak of.  The lemmas follow: the callback
    case by case ([cached_unfold]), its three normal paths, and what a load
    does to the entries of the store; then the properties of one load and
    their instances on the fixture. *)

From S2P Require Import Prelude Host Fixture.

Local Open Scope js_scope.
Local Open Scope Z_scope.

(** Splits a goal about the equation of [cached_unfold] into the cases of the
    callback. *)
Ltac cached_cases := cbv zeta in *; repeat case_match; simplify_eq/=.

(** ** Definitions *)

(** Every entry of the store satisfies [P]. *)
Definition store_all (P : CachedResult → Prop) (store : Store) : Prop :=
  ∀ dir file entry, entry_at store dir file = Some entry → P entry.

(** The key of a request: line 123 and line 128. *)
Definition key_of (largs : OnLoadArgs) : string * string :=
  (resolveDir (pluginData largs), path (pluginData largs)).

(** Two entries for the same file, type and modification time. *)
Definition same_identity (entry entry' : CachedResult) : Prop :=
  filename entry' = filename entry ∧ type entry' = type entry ∧
  mtimeMs entry' = mtimeMs entry.

Section cached.
Context (w : World)
        (typeOf : OnResolveArgs → string)
        (resolve : OnResolveArgs → completion string)
        (transform : string → string → completion OnLoadResult).

(** Lines 123-127: the group of a resolve directory, made and stored when the
    cache has none. *)
Definition get_group (dir : string) : M Store Group :=
  cache <- get ;;
  match cache !! dir with
  | Some group => ret group
  | None => put (<[dir := ∅]> cache) ;;; ret ∅
  end.

(** [group.set(file, entry)] on the group the cache holds for [dir]. *)
Definition group_set (dir file : string) (entry : CachedResult) : M Store unit :=
  modify (λ cache : Store, <[dir := <[file := entry]> (default ∅ (cache !! dir))]> cache).

(** [cached.result = r] (line 135). *)
Definition set_result (entry : CachedResult) (r : OnLoadResult) : CachedResult :=
  {| filename := filename entry; type := type entry; mtimeMs := mtimeMs entry; result := r |}.

(** Lines 122-145: the load callback when there is a cache. *)
Definition cached (largs : OnLoadArgs) : M Store OnLoadResult :=
  let args := pluginData largs in
  group <- get_group (resolveDir args) ;;
  match group !! path args with
  | Some entry =>
      mtime <- lift (statSync w (filename entry)) ;;
      if mtime <=? mtimeMs entry then ret (result entry)
      else
        r <- lift (transform (filename entry) (type entry)) ;;
        group_set (resolveDir args) (path args) (set_result entry r) ;;;
        ret (result entry)
  | None =>
      file <- lift (resolve args) ;;
      let t := typeOf args in
      r <- lift (transform file t) ;;
      mtime <- lift (statSync w file) ;;
      group_set (resolveDir args) (path args)
        {| filename := file; type := t; mtimeMs := mtime; result := r |} ;;;
      ret r
  end.

(** Lines 147-149: the load callback when there is no cache. *)
Definition uncached (largs : OnLoadArgs) : completion OnLoadResult :=
  let args := pluginData largs in
  file <~ resolve args ;;
  transform file (typeOf args).

(** The entry the cache holds for a request. *)
Definition entry_of (store : Store) (largs : OnLoadArgs) : option CachedResult :=
  entry_at store (resolveDir (pluginData largs)) (path (pluginData largs)).

(** The store with [entry] stored for the request. *)
Definition store_entry (store : Store) (largs : OnLoadArgs) (entry : CachedResult) : Store :=
  let args := pluginData largs in
  <[resolveDir args := <[path args := entry]> (default ∅ (store !! resolveDir args))]> store.

(** The store with the group of the request in it. *)
Definition with_group (store : Store) (largs : OnLoadArgs) : Store :=
  let dir := resolveDir (pluginData largs) in
  match store !! dir with
  | Some _ => store
  | None => <[dir := ∅]> store
  end.

(** The file of the entry has a modification time later than the entry's. *)
Definition stale (entry : CachedResult) : Prop :=
  ∃ mtime, statSync w (filename entry) = Normal mtime ∧ mtimeMs entry < mtime.

Definition fresh (entry : CachedResult) : Prop :=
  ∃ mtime, statSync w (filename entry) = Normal mtime ∧ mtime ≤ mtimeMs entry.

(** ** Lemmas: the store *)

Implicit Types (store : Store) (largs : OnLoadArgs) (entry : CachedResult).

#[export] Instance same_identity_equivalence : Equivalence same_identity.
Proof.
  unfold same_identity. split.
  - by intros e.
  - by intros e1 e2 (-> & -> & ->).
  - by intros e1 e2 e3 (<- & <- & <-) (<- & <- & <-).
Qed.

(** Staleness and freshness look at the file and the modification time of an
    entry only. *)
#[export] Instance stale_proper : Proper (same_identity ==> iff) stale.
Proof. intros e1 e2 (Hf & _ & Hm). unfold stale. by rewrite Hf, Hm. Qed.

#[export] Instance fresh_proper : Proper (same_identity ==> iff) fresh.
Proof. intros e1 e2 (Hf & _ & Hm). unfold fresh. by rewrite Hf, Hm. Qed.

Lemma run_get_group dir store :
  run (get_group dir) store =
  (Normal (default ∅ (store !! dir)),
   match store !! dir with Some _ => store | None => <[dir := ∅]> store end).
Proof. unfold get_group. unfold_M. by destruct (store !! dir). Qed.

Lemma entry_at_with_group store largs d f :
  entry_at (with_group store largs) d f = entry_at store d f.
Proof.
  unfold with_group. cbv zeta.
  destruct (store !! _) eqn:Hg; [done|]. by apply entry_at_empty_group.
Qed.

Lemma entry_at_store_entry store largs entry d f :
  entry_at (store_entry store largs entry) d f =
  if decide (resolveDir (pluginData largs) = d ∧ path (pluginData largs) = f)
  then Some entry else entry_at store d f.
Proof.
  unfold store_entry. cbv zeta. rewrite entry_at_insert_group.
  destruct (decide (resolveDir (pluginData largs) = d)) as [<-|];
    [|by rewrite decide_False by (by intros [])].
  rewrite lookup_insert.
  destruct (decide (path (pluginData largs) = f)) as [<-|]; [by rewrite decide_True|].
  rewrite decide_False by (by intros []). unfold entry_at. by destruct (store !! _).
Qed.

Lemma entry_of_store_entry store largs entry :
  entry_of (store_entry store largs entry) largs = Some entry.
Proof. unfold entry_of. by rewrite entry_at_store_entry, decide_True. Qed.

Lemma store_entry_with_group store largs entry :
  store_entry (with_group store largs) largs entry = store_entry store largs entry.
Proof.
  unfold store_entry, with_group. cbv zeta.
  destruct (store !! _) eqn:Hg; rewrite ?Hg; [done|].
  by rewrite lookup_insert_eq, insert_insert_eq.
Qed.

Lemma with_group_entry store largs entry :
  entry_of store largs = Some entry → with_group store largs = store.
Proof. unfold entry_of, entry_at, with_group. cbv zeta. by destruct (store !! _). Qed.

Lemma entry_of_with_group store largs :
  entry_of (with_group store largs) largs = entry_of store largs.
Proof. apply entry_at_with_group. Qed.

(** The callback, one case at a time. *)
Lemma cached_unfold largs store :
  run (cached largs) store =
  let args := pluginData largs in
  let store1 := with_group store largs in
  match entry_of store largs with
  | Some entry =>
      match statSync w (filename entry) with
      | Throw e => (Throw e, store1)
      | Normal mtime =>
          if mtime <=? mtimeMs entry then (Normal (result entry), store1)
          else
            match transform (filename entry) (type entry) with
            | Throw e => (Throw e, store1)
            | Normal r => (Normal (result entry), store_entry store largs (set_result entry r))
            end
      end
  | None =>
      match resolve args with
      | Throw e => (Throw e, store1)
      | Normal file =>
          match transform file (typeOf args) with
          | Throw e => (Throw e, store1)
          | Normal r =>
              match statSync w file with
              | Throw e => (Throw e, store1)
              | Normal mtime =>
                  (Normal r, store_entry store largs
                     {| filename := file; type := typeOf args; mtimeMs := mtime; result := r |})
              end
          end
      end
  end.
Proof.
  unfold cached. rewrite run_bind, run_get_group. cbv zeta.
  fold (with_group store largs).
  assert (default ∅ (store !! resolveDir (pluginData largs)) !! path (pluginData largs)
          = entry_of store largs) as ->.
  { unfold entry_of, entry_at. by destruct (store !! _). }
  destruct (entry_of store largs) as [entry|].
  - rewrite run_bind, run_lift. destruct (statSync _ _) as [mtime|]; [|done].
    destruct (mtime <=? _); [done|].
    rewrite run_bind, run_lift. destruct (transform _ _); [|done].
    unfold group_set. unfold_M. by rewrite <-store_entry_with_group.
  - rewrite run_bind, run_lift. destruct (resolve _) as [file|]; [|done].
    rewrite run_bind, run_lift. destruct (transform _ _); [|done].
    rewrite run_bind, run_lift. destruct (statSync _ _); [|done].
    unfold group_set. unfold_M. by rewrite <-store_entry_with_group.
Qed.

(** ** Lemmas: one load *)

Lemma stale_not_fresh entry : stale entry → ¬ fresh entry.
Proof. intros (m & Hm & ?) (m' & Hm' & ?). rewrite Hm in Hm'. injection Hm' as <-. lia. Qed.

Lemma stale_set_result entry r : stale (set_result entry r) ↔ stale entry.
Proof. done. Qed.

Lemma set_result_identity entry r : same_identity entry (set_result entry r).
Proof. done. Qed.

Lemma store_entry_twice store largs entry entry' :
  store_entry (store_entry store largs entry) largs entry' = store_entry store largs entry'.
Proof.
  unfold store_entry. cbv zeta. rewrite lookup_insert_eq. simpl.
  by rewrite !insert_insert_eq.
Qed.

Lemma store_entry_same store largs entry :
  entry_of store largs = Some entry → store_entry store largs entry = store.
Proof.
  unfold entry_of, entry_at, store_entry. cbv zeta.
  destruct (store !! _) as [group|] eqn:Hg; [|done]. simpl. intros He.
  by rewrite (insert_id group), insert_id.
Qed.

(** *** The three normal paths *)

Lemma cached_miss_run largs store file r mtime :
  entry_of store largs = None →
  resolve (pluginData largs) = Normal file →
  transform file (typeOf (pluginData largs)) = Normal r →
  statSync w file = Normal mtime →
  run (cached largs) store =
  (Normal r, store_entry store largs
     {| filename := file; type := typeOf (pluginData largs); mtimeMs := mtime;
        result := r |}).
Proof. intros He Hf Hr Hm. rewrite cached_unfold. cbv zeta. by rewrite He, Hf, Hr, Hm. Qed.

Lemma cached_fresh_run largs store entry :
  entry_of store largs = Some entry → fresh entry →
  run (cached largs) store = (Normal (result entry), store).
Proof.
  intros He (m & Hm & Hle). rewrite cached_unfold. cbv zeta.
  rewrite He, Hm, (with_group_entry _ _ _ He).
  destruct (Z.leb_spec m (mtimeMs entry)); [done|lia].
Qed.

Lemma cached_stale_run largs store entry r :
  entry_of store largs = Some entry → stale entry →
  transform (filename entry) (type entry) = Normal r →
  run (cached largs) store =
  (Normal (result entry), store_entry store largs (set_result entry r)).
Proof.
  intros He (m & Hm & Hlt) Hr. rewrite cached_unfold. cbv zeta. rewrite He, Hm, Hr.
  destruct (Z.leb_spec m (mtimeMs entry)); [lia|done].
Qed.

(** *** What a load does to the store *)

Lemma cached_store_cases largs store :
  (run (cached largs) store).2 = with_group store largs ∨
  ∃ entry, (run (cached largs) store).2 = store_entry store largs entry ∧
           is_Normal (run (cached largs) store).1 = true ∧
           (∀ old, entry_of store largs = Some old → same_identity old entry) ∧
           ∃ r, transform (filename entry) (type entry) = Normal r ∧ result entry = r.
Proof.
  rewrite !cached_unfold. cached_cases; eauto; right; eexists; (split; [done|]); (split; [done|]);
    (split; [intros; by simplify_eq|]); eauto.
Qed.

Lemma cached_throw_store largs store e :
  (run (cached largs) store).1 = Throw e →
  (run (cached largs) store).2 = with_group store largs.
Proof. rewrite !cached_unfold. cached_cases; done. Qed.

Lemma cached_frame_entry largs store d f :
  ¬ (resolveDir (pluginData largs) = d ∧ path (pluginData largs) = f) →
  entry_at (run (cached largs) store).2 d f = entry_at store d f.
Proof.
  intros Hne. destruct (cached_store_cases largs store) as [->|(entry & -> & _)].
  - apply entry_at_with_group.
  - by rewrite entry_at_store_entry, decide_False.
Qed.

Lemma cached_keeps_identity largs store d f entry :
  entry_at store d f = Some entry →
  ∃ entry', entry_at (run (cached largs) store).2 d f = Some entry' ∧
            same_identity entry entry'.
Proof.
  intros He. destruct (cached_store_cases largs store) as [->|(new & -> & _ & Hid & _)].
  - exists entry. by rewrite entry_at_with_group.
  - rewrite entry_at_store_entry. case_decide as Hk; [|by exists entry].
    destruct Hk as [<- <-]. exists new. split; [done|]. by apply Hid.
Qed.

Lemma cached_store_all (P : CachedResult → Prop) largs store :
  (∀ entry r, transform (filename entry) (type entry) = Normal r → result entry = r →
              P entry) →
  store_all P store → store_all P (run (cached largs) store).2.
Proof.
  intros HP Hs d f entry.
  destruct (cached_store_cases largs store) as [->|(new & -> & _ & _ & r & Hr & Hnew)].
  - rewrite entry_at_with_group. apply Hs.
  - rewrite entry_at_store_entry. case_decide; [|apply Hs]. intros [= <-]. eauto.
Qed.

(** *** Repeated loads and the callback without a cache *)

Lemma cached_repeat largs store r store' :
  (∀ entry, entry_of store largs = Some entry → ¬ stale entry) →
  run (cached largs) store = (Normal r, store') →
  run (cached largs) store' = (Normal r, store').
Proof.
  intros Hns Hrun. destruct (entry_of store largs) as [entry|] eqn:He.
  - rewrite cached_unfold in Hrun. cbv zeta in Hrun. rewrite He in Hrun.
    destruct (statSync w _) as [mtime|] eqn:Hm; [|done].
    destruct (Z.leb_spec mtime (mtimeMs entry)) as [Hle|Hlt].
    + rewrite (with_group_entry _ _ _ He) in Hrun. injection Hrun as <- <-.
      apply cached_fresh_run; [done|]. by exists mtime.
    + destruct (Hns entry eq_refl). by exists mtime.
  - rewrite cached_unfold in Hrun. cbv zeta in Hrun. rewrite He in Hrun.
    destruct (resolve _) as [file|]; [|done].
    destruct (transform _ _) as [r'|]; [|done].
    destruct (statSync w file) as [mtime|] eqn:Hm; [|done]. injection Hrun as <- <-.
    rewrite (cached_fresh_run _ _ _ (entry_of_store_entry _ _ _)); [done|].
    exists mtime. simpl. split; [done|lia].
Qed.

Lemma cached_miss_result largs store :
  entry_of store largs = None →
  (∀ file, resolve (pluginData largs) = Normal file → is_Normal (statSync w file) = true) →
  (run (cached largs) store).1 = uncached largs.
Proof.
  intros He Hstat. rewrite cached_unfold. cbv zeta. rewrite He. unfold uncached.
  destruct (resolve _) as [file|] eqn:Hf; simpl; [|done].
  destruct (transform _ _); [|done].
  specialize (Hstat file eq_refl). by destruct (statSync w file).
Qed.

(** What a load returns and what it leaves under its key depend on the
    entry under its key only. *)
Lemma cached_local largs store1 store2 :
  entry_of store1 largs = entry_of store2 largs →
  (run (cached largs) store1).1 = (run (cached largs) store2).1 ∧
  entry_of (run (cached largs) store1).2 largs = entry_of (run (cached largs) store2).2 largs.
Proof.
  intros He. rewrite !cached_unfold. cbv zeta. rewrite He.
  destruct (entry_of store2 largs) as [entry|] eqn:He2; repeat case_match; simpl;
    rewrite ?entry_of_with_group, ?entry_of_store_entry; split; congruence.
Qed.

Lemma cached_other_key largs largs' store :
  key_of largs ≠ key_of largs' →
  entry_of (run (cached largs) store).2 largs' = entry_of store largs'.
Proof. intros Hne. apply cached_frame_entry. intros [Hd Hf]. apply Hne. unfold key_of. congruence. Qed.

(** What a miss stores is what it returns. *)
Lemma cached_miss_stored largs store r store' :
  entry_of store largs = None →
  run (cached largs) store = (Normal r, store') →
  ∃ entry, entry_of store' largs = Some entry ∧ result entry = r.
Proof.
  intros He. rewrite cached_unfold. cbv zeta. rewrite He. intros Hrun.
  repeat case_match; simplify_eq. eexists. by rewrite entry_of_store_entry.
Qed.

(** ** Properties of one load *)


(** C1.  A load that finds its entry stale recomputes the result from the
    recorded file and type and stores it, but returns the result that was
    stored before; the recomputed result is what the next load in the same
    world returns, and that load finds the entry stale again. *)
Theorem cached_stale_lags largs store entry r :
  entry_of store largs = Some entry → stale entry →
  transform (filename entry) (type entry) = Normal r →
  ∃ store',
    run (cached largs) store = (Normal (result entry), store') ∧
    entry_of store' largs = Some (set_result entry r) ∧
    stale (set_result entry r) ∧
    run (cached largs) store' = (Normal r, store').
Proof.
  intros He Hst Hr. exists (store_entry store largs (set_result entry r)).
  split; [by apply cached_stale_run|]. split; [apply entry_of_store_entry|].
  split; [done|]. erewrite cached_stale_run; [|apply entry_of_store_entry|done..].
  by rewrite store_entry_twice.
Qed.

(** C2.  A load that finds its entry fresh returns the stored result and
    leaves the cache as it is, whatever the resolver, the matcher and the
    transform would answer. *)
Theorem cached_fresh_hit largs store entry :
  entry_of store largs = Some entry → fresh entry →
  run (cached largs) store = (Normal (result entry), store).
Proof. apply cached_fresh_run. Qed.

(** C3.  A load that finds no entry resolves the file, classifies the
    request, transforms the file, reads its modification time and stores the
    four under the key of the request; it returns the transform's result. *)
Theorem cached_miss_fills largs store file r mtime :
  entry_of store largs = None →
  resolve (pluginData largs) = Normal file →
  transform file (typeOf (pluginData largs)) = Normal r →
  statSync w file = Normal mtime →
  (run (cached largs) store).1 = Normal r ∧
  entry_of (run (cached largs) store).2 largs =
    Some {| filename := file; type := typeOf (pluginData largs); mtimeMs := mtime;
            result := r |}.
Proof.
  intros He Hf Hr Hm. rewrite (cached_miss_run _ _ file r mtime) by done.
  split; [done|]. apply entry_of_store_entry.
Qed.

(** C4.  A load that throws, at whatever call, leaves every entry of the
    cache as it was: at most an empty group was added. *)
Theorem cached_throw_keeps_entries largs store e :
  (run (cached largs) store).1 = Throw e →
  ∀ dir file, entry_at (run (cached largs) store).2 dir file = entry_at store dir file.
Proof.
  intros Ht dir file. rewrite (cached_throw_store _ _ _ Ht).
  apply entry_at_with_group.
Qed.

(** C32.  The key of the cache is the resolve directory and the path: once an
    entry is stored, a request for the same two from another importer gets
    what the first request would get, whatever type its own importer calls
    for. *)
Theorem cached_hit_ignores_importer largs largs' store entry :
  resolveDir (pluginData largs') = resolveDir (pluginData largs) →
  path (pluginData largs') = path (pluginData largs) →
  entry_of store largs = Some entry →
  run (cached largs') store = run (cached largs) store.
Proof.
  intros Hd Hp He. rewrite !cached_unfold. cbv zeta.
  unfold entry_of, with_group, store_entry in *. cbv zeta. by rewrite Hd, Hp, He.
Qed.

End cached.

(** A load calls its resolver on its own request only. *)
Lemma cached_resolve_ext w typeOf resolve resolve' transform largs store :
  resolve (pluginData largs) = resolve' (pluginData largs) →
  run (cached w typeOf resolve transform largs) store =
  run (cached w typeOf resolve' transform largs) store.
Proof. intros Hr. rewrite !cached_unfold. cbv zeta. by rewrite Hr. Qed.

#[export] Hint Rewrite entry_at_with_group entry_at_store_entry entry_of_store_entry
  entry_of_with_group : js.

(** ** Witnesses

    The cache of the fixture: [a.css] is loaded in the world of [demo_files],
    then the file is rewritten. *)

Definition demo_cached (files : Files) : OnLoadArgs → M Store OnLoadResult :=
  cached (world_of files) demo_typeOf demo_pathResolve (demo_transform files).

Definition demo_uncached (files : Files) : OnLoadArgs → completion OnLoadResult :=
  uncached demo_typeOf demo_pathResolve (demo_transform files).

Definition demo_result (t text : string) : OnLoadResult :=
  {| contents := t +:+ ":" +:+ text; loader := Loader_css; out_resolveDir := None |}.

Definition demo_entry : CachedResult :=
  {| filename := "/project/src/a.css"; type := "css"; mtimeMs := 10;
     result := demo_result "css" "body{color:red}" |}.

(** The cache after [a.css] was loaded once. *)
Definition demo_store : Store := (run (demo_cached demo_files a_css) ∅).2.

Lemma demo_store_entry : entry_of demo_store a_css = Some demo_entry.
Proof. by vm_compute. Qed.

Lemma cached_stale_lags_witness :
  ∃ store',
    run (demo_cached demo_files_edited a_css) demo_store =
      (Normal (demo_result "css" "body{color:red}"), store') ∧
    entry_of store' a_css =
      Some (set_result demo_entry (demo_result "css" "body{color:blue}")) ∧
    stale (world_of demo_files_edited)
      (set_result demo_entry (demo_result "css" "body{color:blue}")) ∧
    run (demo_cached demo_files_edited a_css) store' =
      (Normal (demo_result "css" "body{color:blue}"), store').
Proof.
  apply (cached_stale_lags (world_of demo_files_edited) demo_typeOf demo_pathResolve
           (demo_transform demo_files_edited) a_css demo_store demo_entry).
  - by vm_compute.
  - exists 11. by vm_compute.
  - by vm_compute.
Defined.

Lemma cached_fresh_hit_witness :
  run (demo_cached demo_files a_css) demo_store = (Normal (result demo_entry), demo_store).
Proof.
  apply (cached_fresh_hit (world_of demo_files) demo_typeOf demo_pathResolve
           (demo_transform demo_files) a_css demo_store demo_entry).
  - by vm_compute.
  - exists 10. by vm_compute.
Defined.

Lemma cached_miss_fills_witness :
  (run (demo_cached demo_files a_css) ∅).1 = Normal (demo_result "css" "body{color:red}") ∧
  entry_of (run (demo_cached demo_files a_css) ∅).2 a_css = Some demo_entry.
Proof.
  apply (cached_miss_fills (world_of demo_files) demo_typeOf demo_pathResolve
           (demo_transform demo_files) a_css ∅ "/project/src/a.css"
           (demo_result "css" "body{color:red}") 10); by vm_compute.
Defined.

Lemma cached_throw_keeps_entries_witness :
  entry_at (run (demo_cached demo_files missing_css) demo_store).2 "/project/src" "./a.css" =
  entry_at demo_store "/project/src" "./a.css".
Proof.
  apply (cached_throw_keeps_entries (world_of demo_files) demo_typeOf demo_pathResolve
           (demo_transform demo_files) missing_css demo_store
           (FileSystemError "/project/src/missing.css")).
  by vm_compute.
Defined.

Lemma cached_hit_ignores_importer_witness :
  run (demo_cached demo_files a_css_from_widget) demo_store =
    run (demo_cached demo_files a_css) demo_store ∧
  (run (demo_cached demo_files a_css_from_widget) demo_store).1 =
    Normal (demo_result "css" "body{color:red}") ∧
  demo_uncached demo_files a_css_from_widget = Normal (demo_result "style" "body{color:red}").
Proof.
  split; [|by vm_compute].
  by apply (cached_hit_ignores_importer (world_of demo_files) demo_typeOf demo_pathResolve
              (demo_transform demo_files) a_css a_css_from_widget demo_store demo_entry).
Defined.
