(* ===== verification/CacheEquiv.v ===== *)
(** * CacheEquiv: caches that hold the same entries

    The load callback of [Cache] reads the cache through [group.get] on the
    group of a directory only, so it cannot tell a directory with an empty
    group from a directory with none: [cache.set(dir, new Map())] of
    plugin.ts line 126 changes the store and no entry.  [same_entries] is the
    equivalence of stores that this induces.  It is coarser than equality,
    and the operations of the cache respect it: the instances below let
    [rewrite] replace a store by one with the same entries under [entry_at],
    [entry_of], [store_entry], [with_group], [store_all] and under a run of
    [cached]. *)

From S2P Require Import Prelude Host Fixture Cache.

Local Open Scope js_scope.
Local Open Scope Z_scope.

(** ** Definitions *)

(** The two stores hold the same entry, or none, under every key. *)
Definition same_entries (store1 store2 : Store) : Prop :=
  ∀ dir file, entry_at store1 dir file = entry_at store2 dir file.

(** The same completion, and caches with the same entries. *)
Definition same_outcome {A} : relation (completion A * Store) :=
  prod_relation (=) same_entries.

Infix "≈" := same_entries (at level 70) : js_scope.

(** ** The equivalence and what respects it *)

Implicit Types (store : Store) (largs : OnLoadArgs) (entry : CachedResult).

#[export] Instance same_entries_equivalence : Equivalence same_entries.
Proof.
  split.
  - by intros s d f.
  - by intros s1 s2 H d f.
  - intros s1 s2 s3 H12 H23 d f. by rewrite H12.
Qed.

#[export] Instance same_outcome_equivalence {A} : Equivalence (@same_outcome A).
Proof. apply _. Qed.

#[export] Instance entry_at_proper : Proper (same_entries ==> (=) ==> (=) ==> (=)) entry_at.
Proof. intros s1 s2 H d ? <- f ? <-. apply H. Qed.

#[export] Instance entry_of_proper : Proper (same_entries ==> (=) ==> (=)) entry_of.
Proof. intros s1 s2 H largs ? <-. apply H. Qed.

#[export] Instance store_entry_proper :
  Proper (same_entries ==> (=) ==> (=) ==> same_entries) store_entry.
Proof.
  intros s1 s2 H largs ? <- entry ? <- d f. rewrite !entry_at_store_entry.
  case_decide; [done|apply H].
Qed.

#[export] Instance with_group_proper : Proper (same_entries ==> (=) ==> same_entries) with_group.
Proof. intros s1 s2 H largs ? <- d f. rewrite !entry_at_with_group. apply H. Qed.

#[export] Instance store_all_proper P : Proper (same_entries ==> iff) (store_all P).
Proof. intros s1 s2 H. unfold store_all. by setoid_rewrite H. Qed.

Lemma with_group_same store largs : with_group store largs ≈ store.
Proof. intros d f. apply entry_at_with_group. Qed.

Lemma same_entries_empty_group store dir : store !! dir = None → <[dir := ∅]> store ≈ store.
Proof. intros Hd d f. by apply entry_at_empty_group. Qed.

(** A store and the store without its empty groups. *)
Lemma same_entries_filter store :
  filter (λ kv : string * Group, kv.2 ≠ ∅) store ≈ store.
Proof.
  intros d f. unfold entry_at.
  destruct (store !! d) as [group|] eqn:Hd.
  - destruct (decide (group = ∅)) as [->|Hne].
    + rewrite map_lookup_filter_None_2; [simpl; by rewrite lookup_empty|].
      right. intros g Hg. simplify_eq. by intros [].
    + by rewrite (map_lookup_filter_Some_2 _ _ _ group).
  - by rewrite map_lookup_filter_None_2 by (by left).
Qed.

Section cached.
Context (w : World)
        (typeOf : OnResolveArgs → string)
        (resolve : OnResolveArgs → completion string)
        (transform : string → string → completion OnLoadResult).

(** The callback answers alike on caches with the same entries, and leaves
    caches with the same entries. *)
#[export] Instance cached_proper largs :
  Proper (same_entries ==> same_outcome) (run (cached w typeOf resolve transform largs)).
Proof.
  intros s1 s2 H. rewrite !cached_unfold. cbv zeta. rewrite <-H.
  repeat case_match; split; simpl; by rewrite ?H.
Qed.

(** A load that throws leaves the entries as they were. *)
Lemma cached_throw_same largs store e :
  (run (cached w typeOf resolve transform largs) store).1 = Throw e →
  (run (cached w typeOf resolve transform largs) store).2 ≈ store.
Proof. intros Ht. rewrite (cached_throw_store _ _ _ _ _ _ _ Ht). apply with_group_same. Qed.

End cached.
