(* ===== verification/CacheHeap.v ===== *)
(** * CacheHeap: the cache as JavaScript objects

    [Cache] keeps the cache as a value: a map of maps of entries.  The code
    keeps objects: [cache] is a [Map] from directories to group objects, a
    group is a [Map] from paths to entry objects, and line 135 assigns to a
    field of an entry object.  Two keys may hold the same object, which a
    map of values cannot say.  Here the objects live in a heap, at locations,
    and [cached_h] is the callback of plugin.ts lines 122-145 once more, with
    every read and write of an object and every call of a callback written
    out: the calls are logged in the order they are made.

    [view] reads the heap as a store of [Cache].  The lemmas relate the two
    models: the completions agree on every heap, the stores agree when no
    object is shared ([separated]), which every heap the plugin builds by
    itself is, and they differ when a caller hands in a cache that shares a
    group between two directories. *)

From S2P Require Import Prelude Host Fixture Cache CacheEquiv.

Local Open Scope js_scope.
Local Open Scope Z_scope.

(** ** Definitions *)

(** The address of an object. *)
Definition loc : Type := positive.

(** A call of a callback or of the file system (lines 131, 135 and 139-142). *)
Inductive Call : Type :=
| CallStat (file : string)
| CallResolve (args : OnResolveArgs)
| CallTypeOf (args : OnResolveArgs)
| CallTransform (file type : string).

#[export] Instance Call_eq_dec : EqDecision Call.
Proof. solve_decision. Defined.

(** The objects of the cache and the calls made so far, oldest first. *)
Record Heap : Type := {
  cache_map : gmap string loc;
  groups : gmap loc (gmap string loc);
  entries : gmap loc CachedResult;
  calls : list Call;
}.

Definition empty_heap : Heap :=
  {| cache_map := ∅; groups := ∅; entries := ∅; calls := [] |}.

Definition set_cache_map (f : gmap string loc → gmap string loc) (h : Heap) : Heap :=
  {| cache_map := f (cache_map h); groups := groups h; entries := entries h;
     calls := calls h |}.

Definition set_groups (f : gmap loc (gmap string loc) → gmap loc (gmap string loc))
    (h : Heap) : Heap :=
  {| cache_map := cache_map h; groups := f (groups h); entries := entries h;
     calls := calls h |}.

Definition set_entries (f : gmap loc CachedResult → gmap loc CachedResult) (h : Heap) : Heap :=
  {| cache_map := cache_map h; groups := groups h; entries := f (entries h);
     calls := calls h |}.

Definition log (c : Call) (h : Heap) : Heap :=
  {| cache_map := cache_map h; groups := groups h; entries := entries h;
     calls := calls h ++ [c] |}.

(** A location that holds no object of [objects]. *)
Definition unused {A} (objects : gmap loc A) : loc := stdpp.base.fresh (dom objects).

(** *** Operations on the objects *)

(** [cache.get(dir)] *)
Definition cache_get (dir : string) : M Heap (option loc) :=
  h <- get ;; ret (cache_map h !! dir).

(** [new Map()]: an empty group at a location the heap does not use. *)
Definition new_map : M Heap loc :=
  h <- get ;;
  let group := unused (groups h) in
  put (set_groups (insert group ∅) h) ;;; ret group.

(** [cache.set(dir, group)] *)
Definition cache_set (dir : string) (group : loc) : M Heap unit :=
  modify (set_cache_map (insert dir group)).

(** [group.get(file)]: the entry object and its fields as they are now. *)
Definition map_get (group : loc) (file : string) : M Heap (option (loc * CachedResult)) :=
  h <- get ;;
  ret (cached ← groups h !! group ≫= (.!! file);
       fields ← entries h !! cached; Some (cached, fields)).

(** [group.set(file, cached)] *)
Definition map_set (group : loc) (file : string) (cached : loc) : M Heap unit :=
  modify (set_groups (alter (insert file cached) group)).

(** The object literal of line 143, at a location the heap does not use. *)
Definition new_entry (fields : CachedResult) : M Heap loc :=
  h <- get ;;
  let cached := unused (entries h) in
  put (set_entries (insert cached fields) h) ;;; ret cached.

(** The fields of the object [cached] now; [fields] are the ones last read. *)
Definition read (cached : loc) (fields : CachedResult) : M Heap CachedResult :=
  h <- get ;; ret (default fields (entries h !! cached)).

(** [cached.result = r] *)
Definition write_result (cached : loc) (r : OnLoadResult) : M Heap unit :=
  modify (set_entries (alter (λ fields, set_result fields r) cached)).

(** A call that is logged when it is made, whether it returns or throws. *)
Definition call {A} (c : Call) (answer : completion A) : M Heap A :=
  modify (log c) ;;; lift answer.

Section cached_h.
Context (w : World)
        (typeOf : OnResolveArgs → string)
        (resolve : OnResolveArgs → completion string)
        (transform : string → string → completion OnLoadResult).

(** Lines 123-127. *)
Definition get_group_h (dir : string) : M Heap loc :=
  found <- cache_get dir ;;
  match found with
  | Some group => ret group
  | None => group <- new_map ;; cache_set dir group ;;; ret group
  end.

(** Lines 122-145.  [fields] is the destructuring of line 130; lines 133 and
    135 read the object again, line 136 returns what line 130 read. *)
Definition cached_h (largs : OnLoadArgs) : M Heap OnLoadResult :=
  let args := pluginData largs in
  group <- get_group_h (resolveDir args) ;;
  found <- map_get group (path args) ;;
  match found with
  | Some (cached, fields) =>
      mtime <- call (CallStat (filename fields)) (statSync w (filename fields)) ;;
      if mtime <=? mtimeMs fields then
        now <- read cached fields ;; ret (result now)
      else
        now <- read cached fields ;;
        r <- call (CallTransform (filename fields) (type now))
               (transform (filename fields) (type now)) ;;
        write_result cached r ;;;
        ret (result fields)
  | None =>
      file <- call (CallResolve args) (resolve args) ;;
      t <- call (CallTypeOf args) (Normal (typeOf args)) ;;
      r <- call (CallTransform file t) (transform file t) ;;
      mtime <- call (CallStat file) (statSync w file) ;;
      cached <- new_entry {| filename := file; type := t; mtimeMs := mtime; result := r |} ;;
      map_set group (path args) cached ;;;
      ret r
  end.

End cached_h.

(** *** The heap as a store *)

(** The entries a group object holds. *)
Definition group_view (h : Heap) (group : loc) : Group :=
  omap (λ cached, entries h !! cached) (default ∅ (groups h !! group)).

(** The store of [Cache] that the heap stands for. *)
Definition view (h : Heap) : Store := group_view h <$> cache_map h.

(** Every location a map holds is the location of an object. *)
Definition closed (h : Heap) : Prop :=
  (∀ dir group, cache_map h !! dir = Some group → is_Some (groups h !! group)) ∧
  (∀ group files file cached,
     groups h !! group = Some files → files !! file = Some cached →
     is_Some (entries h !! cached)).

(** No object is held under two keys. *)
Definition unshared (h : Heap) : Prop :=
  (∀ dir1 dir2 group,
     cache_map h !! dir1 = Some group → cache_map h !! dir2 = Some group → dir1 = dir2) ∧
  (∀ group1 group2 files1 files2 file1 file2 cached,
     groups h !! group1 = Some files1 → files1 !! file1 = Some cached →
     groups h !! group2 = Some files2 → files2 !! file2 = Some cached →
     group1 = group2 ∧ file1 = file2).

Definition separated (h : Heap) : Prop := closed h ∧ unshared h.

(** *** The heap after each step of the callback *)

(** The entry object under a key, with its fields: lines 123 and 128. *)
Definition object_at (h : Heap) (dir file : string) : option (loc * CachedResult) :=
  group ← cache_map h !! dir;
  cached ← groups h !! group ≫= (.!! file);
  fields ← entries h !! cached; Some (cached, fields).

(** The group object of a directory, once lines 123-127 have run. *)
Definition group_of (h : Heap) (dir : string) : loc :=
  default (unused (groups h)) (cache_map h !! dir).

(** The heap after lines 123-127. *)
Definition with_group_h (h : Heap) (dir : string) : Heap :=
  match cache_map h !! dir with
  | Some _ => h
  | None => set_cache_map (insert dir (unused (groups h)))
              (set_groups (insert (unused (groups h)) ∅) h)
  end.

(** The heap after line 135. *)
Definition update_object (cached : loc) (r : OnLoadResult) (h : Heap) : Heap :=
  set_entries (alter (λ fields, set_result fields r) cached) h.

(** The heap after line 143. *)
Definition add_object (group : loc) (file : string) (fields : CachedResult) (h : Heap) : Heap :=
  set_groups (alter (insert file (unused (entries h))) group)
    (set_entries (insert (unused (entries h)) fields) h).

(** ** Lemmas: the callback, one case at a time *)

Implicit Types (h : Heap) (largs : OnLoadArgs) (fields : CachedResult) (ev : Call).

Lemma run_get_group_h dir h :
  run (get_group_h dir) h = (Normal (group_of h dir), with_group_h h dir).
Proof.
  unfold get_group_h, cache_get, new_map, cache_set, group_of, with_group_h. unfold_M.
  by destruct (cache_map h !! dir).
Qed.

Lemma run_call {A} ev (answer : completion A) h : run (call ev answer) h = (answer, log ev h).
Proof. done. Qed.

Lemma run_read cached fields h :
  run (read cached fields) h = (Normal (default fields (entries h !! cached)), h).
Proof. done. Qed.

Lemma run_map_get group file h :
  run (map_get group file) h =
  (Normal (cached ← groups h !! group ≫= (.!! file);
           fields ← entries h !! cached; Some (cached, fields)), h).
Proof. done. Qed.

Lemma map_get_with_group h dir file :
  (run (map_get (group_of h dir) file) (with_group_h h dir)).1 = Normal (object_at h dir file).
Proof.
  rewrite run_map_get. unfold group_of, with_group_h, object_at. simpl.
  destruct (cache_map h !! dir); simpl; [done|]. by rewrite lookup_insert_eq.
Qed.

Lemma entries_with_group_h h dir : entries (with_group_h h dir) = entries h.
Proof. unfold with_group_h. by destruct (cache_map h !! dir). Qed.

Lemma calls_with_group_h h dir : calls (with_group_h h dir) = calls h.
Proof. unfold with_group_h. by destruct (cache_map h !! dir). Qed.

Lemma object_at_entries h dir file cached fields :
  object_at h dir file = Some (cached, fields) → entries h !! cached = Some fields.
Proof. unfold object_at. intros. by simplify_option_eq. Qed.

Section cached_h.
Context (w : World)
        (typeOf : OnResolveArgs → string)
        (resolve : OnResolveArgs → completion string)
        (transform : string → string → completion OnLoadResult).

Lemma cached_h_unfold largs h :
  run (cached_h w typeOf resolve transform largs) h =
  let args := pluginData largs in
  let h1 := with_group_h h (resolveDir args) in
  match object_at h (resolveDir args) (path args) with
  | Some (cached, fields) =>
      let h2 := log (CallStat (filename fields)) h1 in
      match statSync w (filename fields) with
      | Throw e => (Throw e, h2)
      | Normal mtime =>
          if mtime <=? mtimeMs fields then (Normal (result fields), h2)
          else
            let h3 := log (CallTransform (filename fields) (type fields)) h2 in
            match transform (filename fields) (type fields) with
            | Throw e => (Throw e, h3)
            | Normal r => (Normal (result fields), update_object cached r h3)
            end
      end
  | None =>
      let h2 := log (CallResolve args) h1 in
      match resolve args with
      | Throw e => (Throw e, h2)
      | Normal file =>
          let h3 := log (CallTransform file (typeOf args)) (log (CallTypeOf args) h2) in
          match transform file (typeOf args) with
          | Throw e => (Throw e, h3)
          | Normal r =>
              let h4 := log (CallStat file) h3 in
              match statSync w file with
              | Throw e => (Throw e, h4)
              | Normal mtime =>
                  (Normal r,
                   add_object (group_of h (resolveDir args)) (path args)
                     {| filename := file; type := typeOf args; mtimeMs := mtime; result := r |}
                     h4)
              end
          end
      end
  end.
Proof.
  unfold cached_h. cbv zeta. rewrite run_bind, run_get_group_h. cbv iota.
  rewrite run_bind. pose proof (map_get_with_group h (resolveDir (pluginData largs))
                                  (path (pluginData largs))) as Hget.
  rewrite run_map_get in *. simpl in Hget. injection Hget as ->.
  destruct (object_at h _ _) as [[cached fields]|] eqn:Hat.
  - apply object_at_entries in Hat.
    rewrite run_bind, run_call. destruct (statSync _ _) as [mtime|]; [|done].
    destruct (mtime <=? _); rewrite run_bind, run_read; cbn [entries log];
      rewrite entries_with_group_h, Hat; [done|].
    cbn [default]. rewrite run_bind, run_call. by destruct (transform _ _).
  - rewrite run_bind, run_call. destruct (resolve _) as [file|]; [|done].
    rewrite run_bind, run_call, run_bind, run_call. destruct (transform _ _); [|done].
    rewrite run_bind, run_call. by destruct (statSync _ _).
Qed.

End cached_h.

(** ** Lemmas: the heap as a store *)

Lemma entry_at_view h d f : entry_at (view h) d f = snd <$> object_at h d f.
Proof.
  unfold entry_at, view, object_at, group_view. rewrite lookup_fmap.
  destruct (cache_map h !! d) as [group|]; simpl; [|done].
  rewrite lookup_omap. destruct (groups h !! group) as [files|]; simpl; [|done].
  destruct (files !! f) as [cached|]; simpl; [|done]. by destruct (entries h !! cached).
Qed.

Lemma entry_of_view h largs :
  entry_of (view h) largs =
  snd <$> object_at h (resolveDir (pluginData largs)) (path (pluginData largs)).
Proof. apply entry_at_view. Qed.

(** Stores are compared entry by entry, heaps object by object. *)
Lemma view_same h1 h2 : (∀ d f, object_at h1 d f = object_at h2 d f) → view h1 ≈ view h2.
Proof. intros H d f. by rewrite !entry_at_view, H. Qed.

Lemma view_log ev h : view (log ev h) = view h.
Proof. done. Qed.

Lemma object_at_with_group_h h dir d f :
  object_at (with_group_h h dir) d f = object_at h d f.
Proof.
  unfold with_group_h. destruct (cache_map h !! dir) eqn:Hdir; [done|].
  pose proof (is_fresh (dom (groups h))) as Hfresh. rewrite not_elem_of_dom in Hfresh.
  unfold object_at, unused. simpl. rewrite lookup_insert.
  case_decide as Hd; simplify_eq/=.
  - by rewrite Hdir, lookup_insert_eq.
  - destruct (cache_map h !! d) as [group|]; simpl; [|done].
    rewrite lookup_insert. case_decide; simplify_eq/=; [by rewrite Hfresh|done].
Qed.

Lemma view_with_group_h h dir : view (with_group_h h dir) ≈ view h.
Proof. apply view_same, object_at_with_group_h. Qed.

Lemma cache_map_with_group_h h dir :
  cache_map (with_group_h h dir) !! dir = Some (group_of h dir).
Proof.
  unfold with_group_h, group_of.
  destruct (cache_map h !! dir) eqn:Hdir; simpl; [done|]. by rewrite lookup_insert_eq.
Qed.

Lemma object_at_update cached r h d f :
  object_at (update_object cached r h) d f =
  (λ o, (o.1, if decide (o.1 = cached) then set_result o.2 r else o.2)) <$> object_at h d f.
Proof.
  unfold object_at, update_object. simpl.
  destruct (cache_map h !! d) as [group|]; simpl; [|done].
  destruct (groups h !! group ≫= _) as [cached'|]; simpl; [|done].
  rewrite lookup_alter. case_decide; simplify_eq/=; destruct (entries h !! _); simpl; try done.
  - by rewrite decide_True.
  - by rewrite decide_False.
Qed.

(** ** Lemmas: objects held once *)

Lemma lookup_unused {A} (objects : gmap loc A) : objects !! unused objects = None.
Proof. apply not_elem_of_dom, is_fresh. Qed.

Lemma lookup_insert_unused {A} (objects : gmap loc A) l x :
  is_Some (objects !! l) → <[unused objects := x]> objects !! l = objects !! l.
Proof.
  intros [y Hl]. apply lookup_insert_ne. intros <-. by rewrite lookup_unused in Hl.
Qed.

Lemma separated_log ev h : separated h → separated (log ev h).
Proof. done. Qed.

Lemma object_at_inj h d1 f1 d2 f2 cached fields1 fields2 :
  unshared h →
  object_at h d1 f1 = Some (cached, fields1) → object_at h d2 f2 = Some (cached, fields2) →
  d1 = d2 ∧ f1 = f2.
Proof.
  intros [Hg He] H1 H2. unfold object_at in *.
  destruct (cache_map h !! d1) as [g1|] eqn:Hd1, (cache_map h !! d2) as [g2|] eqn:Hd2;
    simplify_eq/=.
  destruct (groups h !! g1) as [files1|] eqn:Hg1, (groups h !! g2) as [files2|] eqn:Hg2;
    simplify_eq/=.
  destruct (files1 !! f1) as [c1|] eqn:Hf1, (files2 !! f2) as [c2|] eqn:Hf2; simplify_eq/=.
  destruct (entries h !! c1) eqn:?, (entries h !! c2) eqn:?; simplify_eq/=.
  destruct (He _ _ _ _ _ _ _ Hg1 Hf1 Hg2 Hf2) as [-> ->]. eauto.
Qed.

(** What a group holds after line 143. *)
Lemma groups_add_inv h group file fields g files' f c :
  groups (add_object group file fields h) !! g = Some files' → files' !! f = Some c →
  (g = group ∧ f = file ∧ c = unused (entries h)) ∨
  (∃ files, groups h !! g = Some files ∧ files !! f = Some c).
Proof.
  unfold add_object. simpl. rewrite lookup_alter. case_decide as Hg; [|eauto].
  subst g. destruct (groups h !! group) as [files|]; [|done]. simpl.
  intros [= <-]. rewrite lookup_insert. case_decide; naive_solver.
Qed.

Lemma separated_with_group_h h dir : separated h → separated (with_group_h h dir).
Proof.
  unfold with_group_h. destruct (cache_map h !! dir) eqn:Hdir; [done|].
  pose proof (lookup_unused (groups h)) as Hfresh.
  intros [[Hc1 Hc2] [Hu1 Hu2]]. split; split; simpl.
  - intros d g. rewrite lookup_insert. case_decide; intros; simplify_eq.
    + by rewrite lookup_insert_eq.
    + rewrite lookup_insert_unused; eauto.
  - intros g files f c. rewrite lookup_insert. case_decide; intros; simplify_eq; eauto.
  - intros d1 d2 g. rewrite !lookup_insert.
    repeat case_decide; intros; simplify_eq; eauto;
      match goal with H : cache_map h !! _ = Some _ |- _ => apply Hc1 in H as [? H] end;
      congruence.
  - intros g1 g2 files1 files2 f1 f2 c. rewrite !lookup_insert.
    repeat case_decide; intros; simplify_eq; eauto.
Qed.

Lemma separated_update cached r h : separated h → separated (update_object cached r h).
Proof.
  intros [[Hc1 Hc2] Hu]. split; [split|done]; [done|].
  intros g files f c Hg Hf. simpl. rewrite lookup_alter.
  destruct (Hc2 _ _ _ _ Hg Hf) as [x Hx]. case_decide; subst; rewrite Hx; by eexists.
Qed.

Lemma separated_add h group file fields :
  separated h → separated (add_object group file fields h).
Proof.
  intros [[Hc1 Hc2] [Hu1 Hu2]]. split; split.
  - intros d g Hd. simpl. rewrite lookup_alter.
    destruct (Hc1 _ _ Hd) as [x Hx]. case_decide; subst; rewrite Hx; by eexists.
  - intros g files' f c Hg Hf.
    destruct (groups_add_inv _ _ _ _ _ _ _ _ Hg Hf) as [(-> & -> & ->)|(files & ? & ?)]; simpl.
    + by rewrite lookup_insert_eq.
    + rewrite lookup_insert_unused; eauto.
  - done.
  - intros g1 g2 files1 files2 f1 f2 c Hg1 Hf1 Hg2 Hf2.
    destruct (groups_add_inv _ _ _ _ _ _ _ _ Hg1 Hf1) as [(-> & -> & ->)|(? & Hg1' & Hf1')],
             (groups_add_inv _ _ _ _ _ _ _ _ Hg2 Hf2) as [(-> & -> & ?)|(? & Hg2' & Hf2')];
      eauto;
      repeat match goal with
      | Hg : groups h !! _ = Some ?files, Hf : ?files !! _ = Some _ |- _ =>
          destruct (Hc2 _ _ _ _ Hg Hf) as [? Hin]; clear Hf
      end; subst; by rewrite lookup_unused in Hin.
Qed.

#[export] Hint Resolve separated_log separated_with_group_h separated_update separated_add : js.

(** ** Lemmas: the stores of the two models *)

Lemma view_update h largs cached fields r :
  unshared h →
  object_at h (resolveDir (pluginData largs)) (path (pluginData largs)) = Some (cached, fields) →
  view (update_object cached r h) ≈ store_entry (view h) largs (set_result fields r).
Proof.
  intros Hu Hat d f.
  rewrite entry_at_view, object_at_update, entry_at_store_entry, entry_at_view.
  case_decide as Hk.
  - destruct Hk as [<- <-]. rewrite Hat. simpl. by rewrite decide_True.
  - destruct (object_at h d f) as [[cached' fields']|] eqn:Hat'; simpl; [|done].
    case_decide; [|done]. simplify_eq/=. destruct Hk. eapply object_at_inj; eauto.
Qed.

Lemma object_at_add h dir group file fields d f :
  separated h → cache_map h !! dir = Some group →
  object_at (add_object group file fields h) d f =
  if decide (dir = d ∧ file = f) then Some (unused (entries h), fields) else object_at h d f.
Proof.
  intros [[Hc1 Hc2] [Hu1 Hu2]] Hdir. unfold object_at, add_object. simpl.
  destruct (cache_map h !! d) as [g|] eqn:Hd; simpl;
    [|by rewrite decide_False by (intros [<- _]; congruence)].
  destruct (Hc1 _ _ Hd) as [files Hg]. rewrite lookup_alter, Hg. simpl.
  assert (∀ l, files !! f = Some l → <[unused (entries h) := fields]> (entries h) !! l
                                     = entries h !! l) as Hold
    by (intros; apply lookup_insert_unused; eauto).
  destruct (decide (group = g)) as [<-|Hgne]; rewrite ?Hg; simpl.
  - rewrite (Hu1 _ _ _ Hd Hdir), lookup_insert.
    destruct (decide (file = f)) as [<-|]; simpl.
    + by rewrite decide_True, lookup_insert_eq.
    + rewrite decide_False by (by intros []).
      destruct (files !! f) eqn:Hf; simpl; [by rewrite Hold|done].
  - rewrite decide_False by (intros [<- _]; congruence).
    destruct (files !! f) eqn:Hf; simpl; [by rewrite Hold|done].
Qed.

Lemma view_add h largs fields :
  separated h →
  view (add_object (group_of h (resolveDir (pluginData largs))) (path (pluginData largs)) fields
          (with_group_h h (resolveDir (pluginData largs))))
  ≈ store_entry (view h) largs fields.
Proof.
  intros Hsep d f. rewrite entry_at_view, entry_at_store_entry, entry_at_view.
  rewrite (object_at_add _ (resolveDir (pluginData largs)))
    by auto using separated_with_group_h, cache_map_with_group_h.
  case_decide; [done|]. by rewrite object_at_with_group_h.
Qed.

(** ** Theorems: one load on the heap *)

Section refinement.
Context (w : World)
        (typeOf : OnResolveArgs → string)
        (resolve : OnResolveArgs → completion string)
        (transform : string → string → completion OnLoadResult).

(** C12. The callback on objects and the callback on values complete alike,
    on every heap: what a load returns or throws depends on the entries the
    cache holds, never on which objects hold them. *)
Theorem cached_h_result largs h :
  (run (cached_h w typeOf resolve transform largs) h).1 =
  (run (cached w typeOf resolve transform largs) (view h)).1.
Proof.
  rewrite cached_h_unfold, cached_unfold, entry_of_view. cbv zeta.
  destruct (object_at h _ _) as [[cached fields]|]; simpl; by repeat case_match.
Qed.

Lemma cached_h_view largs h :
  separated h →
  view (run (cached_h w typeOf resolve transform largs) h).2 ≈
  (run (cached w typeOf resolve transform largs) (view h)).2.
Proof.
  intros Hsep. rewrite cached_h_unfold, cached_unfold, entry_of_view. cbv zeta.
  destruct (object_at h _ _) as [[cached fields]|] eqn:Hat; simpl;
    repeat case_match; simpl;
    rewrite ?view_log, ?view_with_group_h, ?with_group_same; try done.
  - rewrite (view_update _ largs _ fields), !view_log, view_with_group_h; [done|..].
    + by apply separated_with_group_h.
    + by rewrite <-Hat, <-(object_at_with_group_h h (resolveDir (pluginData largs))).
  - by apply (view_add h largs).
Qed.

Lemma cached_h_separated largs h :
  separated h → separated (run (cached_h w typeOf resolve transform largs) h).2.
Proof.
  intros Hsep. rewrite cached_h_unfold. cbv zeta.
  destruct (object_at h _ _) as [[cached fields]|]; repeat case_match; simpl;
    auto 10 with js.
Qed.

End refinement.

(** ** Theorems: the calls of one load *)

Section calls.
Context (w : World)
        (typeOf : OnResolveArgs → string)
        (resolve : OnResolveArgs → completion string)
        (transform : string → string → completion OnLoadResult).

Lemma with_group_h_hit h dir file o : object_at h dir file = Some o → with_group_h h dir = h.
Proof. unfold object_at, with_group_h. by destruct (cache_map h !! dir). Qed.

(** A load of a fresh entry reads the modification time of the stored
    file and does nothing else: it calls neither the resolver nor the matcher
    nor the transformer, and it leaves every object of the cache as it is. *)
Lemma fresh_hit_stats_only largs h cached fields :
  object_at h (resolveDir (pluginData largs)) (path (pluginData largs)) = Some (cached, fields) →
  fresh w fields →
  run (cached_h w typeOf resolve transform largs) h =
  (Normal (result fields), log (CallStat (filename fields)) h).
Proof.
  intros Hat (mtime & Hstat & Hle). rewrite cached_h_unfold. cbv zeta.
  apply Z.leb_le in Hle. by rewrite Hat, Hstat, (with_group_h_hit _ _ _ _ Hat), Hle.
Qed.

(** C13. A load that finds an entry never resolves the path and never asks
    for the type again: it stats the stored file and, when the file is newer
    than the entry, transforms the stored file with the stored type. *)
Theorem hit_calls largs h cached fields :
  object_at h (resolveDir (pluginData largs)) (path (pluginData largs)) = Some (cached, fields) →
  calls (run (cached_h w typeOf resolve transform largs) h).2 =
  calls h ++ CallStat (filename fields) ::
    match statSync w (filename fields) with
    | Normal mtime =>
        if mtime <=? mtimeMs fields then []
        else [CallTransform (filename fields) (type fields)]
    | Throw _ => []
    end.
Proof.
  intros Hat. rewrite cached_h_unfold. cbv zeta.
  rewrite Hat, (with_group_h_hit _ _ _ _ Hat).
  repeat case_match; simpl; by rewrite <-?app_assoc.
Qed.

(** A load that finds no entry calls the resolver, the matcher, the
    transformer and the file system in this order, and stops at the first
    that throws: the modification time it stores is read after the file was
    transformed. *)
Lemma miss_calls largs h :
  object_at h (resolveDir (pluginData largs)) (path (pluginData largs)) = None →
  calls (run (cached_h w typeOf resolve transform largs) h).2 =
  calls h ++ CallResolve (pluginData largs) ::
    match resolve (pluginData largs) with
    | Normal file =>
        CallTypeOf (pluginData largs) :: CallTransform file (typeOf (pluginData largs)) ::
        match transform file (typeOf (pluginData largs)) with
        | Normal _ => [CallStat file]
        | Throw _ => []
        end
    | Throw _ => []
    end.
Proof.
  intros Hat. rewrite cached_h_unfold. cbv zeta. rewrite Hat.
  repeat case_match; simpl; by rewrite ?calls_with_group_h, <-?app_assoc.
Qed.

Lemma object_at_add_shared h dir group file fields :
  cache_map h !! dir = Some group → is_Some (groups h !! group) →
  object_at (add_object group file fields h) dir file = Some (unused (entries h), fields).
Proof.
  intros Hdir [files Hg]. unfold object_at, add_object. simpl.
  rewrite Hdir. simpl. rewrite lookup_alter, decide_True, Hg by done. simpl.
  rewrite lookup_insert_eq. simpl. by rewrite lookup_insert_eq.
Qed.

Lemma object_at_shared h dir1 dir2 group file :
  cache_map h !! dir1 = Some group → cache_map h !! dir2 = Some group →
  object_at h dir1 file = object_at h dir2 file.
Proof. unfold object_at. intros H1 H2. by rewrite H1, H2. Qed.

(** C16. On a heap where two directories hold one group object, a load that
    fills the cache for a path of the first directory fills it for the same
    path of the second, which the cache as a value leaves empty. *)
Theorem shared_group_leaks largs dir2 group h r :
  cache_map h !! resolveDir (pluginData largs) = Some group →
  cache_map h !! dir2 = Some group →
  is_Some (groups h !! group) →
  dir2 ≠ resolveDir (pluginData largs) →
  object_at h (resolveDir (pluginData largs)) (path (pluginData largs)) = None →
  (run (cached_h w typeOf resolve transform largs) h).1 = Normal r →
  (∃ fields,
     entry_at (view (run (cached_h w typeOf resolve transform largs) h).2)
       dir2 (path (pluginData largs)) = Some fields ∧ result fields = r) ∧
  entry_at (run (cached w typeOf resolve transform largs) (view h)).2
    dir2 (path (pluginData largs)) = None.
Proof.
  intros Hd1 Hd2 Hg Hne Hat Hr. split.
  - rewrite cached_h_unfold in *. cbv zeta in *. rewrite Hat in *.
    unfold with_group_h, group_of in *. rewrite Hd1 in *.
    repeat case_match; simplify_eq/=.
    eexists. rewrite entry_at_view.
    by erewrite (object_at_add_shared (log _ (log _ (log _ (log _ h))))).
  - rewrite cached_frame_entry by (intros [? _]; congruence).
    by rewrite entry_at_view, <-(object_at_shared _ _ _ _ _ Hd1 Hd2), Hat.
Qed.

Lemma cached_h_calls_bound largs h :
  (length (calls (run (cached_h w typeOf resolve transform largs) h).2)
   ≤ length (calls h) + 4)%nat.
Proof.
  rewrite cached_h_unfold. cbv zeta.
  repeat case_match; simpl; rewrite ?length_app, ?calls_with_group_h; simpl; lia.
Qed.

End calls.

(** ** Witnesses *)

Definition demo_cached_h (files : Files) : OnLoadArgs → M Heap OnLoadResult :=
  cached_h (world_of files) demo_typeOf demo_pathResolve (demo_transform files).

(** The heap after [a.css] was loaded once into the empty cache. *)
Definition demo_heap : Heap := (run (demo_cached_h demo_files a_css) empty_heap).2.

(** A cache whose two directories hold one group object. *)
Definition shared_heap : Heap :=
  {| cache_map := {[ "/project/src" := 1%positive; "/project/lib" := 1%positive ]};
     groups := {[ 1%positive := ∅ ]}; entries := ∅; calls := [] |}.

Lemma demo_heap_object :
  object_at demo_heap "/project/src" "./a.css" = Some (1%positive, demo_entry).
Proof. by vm_compute. Qed.

Example demo_heap_examples :
  view demo_heap = demo_store ∧
  calls demo_heap =
    [CallResolve (pluginData a_css); CallTypeOf (pluginData a_css);
     CallTransform "/project/src/a.css" "css"; CallStat "/project/src/a.css"] ∧
  (run (demo_cached_h demo_files_edited a_css) demo_heap).1 =
    Normal (demo_result "css" "body{color:red}") ∧
  object_at (run (demo_cached_h demo_files_edited a_css) demo_heap).2 "/project/src" "./a.css" =
    Some (1%positive, set_result demo_entry (demo_result "css" "body{color:blue}")).
Proof. by vm_compute. Qed.

Lemma fresh_hit_stats_only_witness :
  run (demo_cached_h demo_files a_css) demo_heap =
  (Normal (demo_result "css" "body{color:red}"), log (CallStat "/project/src/a.css") demo_heap).
Proof.
  apply (fresh_hit_stats_only (world_of demo_files) demo_typeOf demo_pathResolve
           (demo_transform demo_files) a_css demo_heap 1%positive demo_entry);
    [by vm_compute|by exists 10].
Defined.

Lemma hit_calls_witness :
  calls (run (demo_cached_h demo_files_edited a_css) demo_heap).2 =
  calls demo_heap ++
    [CallStat "/project/src/a.css"; CallTransform "/project/src/a.css" "css"].
Proof.
  exact (hit_calls (world_of demo_files_edited) demo_typeOf demo_pathResolve
           (demo_transform demo_files_edited) a_css demo_heap 1%positive demo_entry
           demo_heap_object).
Defined.

Lemma miss_calls_witness :
  calls (run (demo_cached_h demo_files missing_css) demo_heap).2 =
  calls demo_heap ++
    [CallResolve (pluginData missing_css); CallTypeOf (pluginData missing_css);
     CallTransform "/project/src/missing.css" "css"].
Proof.
  exact (miss_calls (world_of demo_files) demo_typeOf demo_pathResolve
           (demo_transform demo_files) missing_css demo_heap eq_refl).
Defined.

Lemma shared_group_leaks_witness :
  (∃ fields,
     entry_at (view (run (demo_cached_h demo_files a_css) shared_heap).2)
       "/project/lib" "./a.css" = Some fields ∧
     result fields = demo_result "css" "body{color:red}") ∧
  entry_at (run (demo_cached demo_files a_css) (view shared_heap)).2
    "/project/lib" "./a.css" = None.
Proof.
  apply (shared_group_leaks (world_of demo_files) demo_typeOf demo_pathResolve
           (demo_transform demo_files) a_css "/project/lib" 1%positive shared_heap);
    [done|done|by eexists|done|by vm_compute|by vm_compute].
Defined.
