(* ===== verification/CacheLoads.v ===== *)
(** * CacheLoads: sequences of loads in a changing world

    The host calls the load callback of [Cache] again and again while files
    change between the calls.  [load] is one call in the world of the call,
    [step] the relation between the caches before and after a call, and
    [run_loads] a sequence of calls.  The lemmas, by induction on the steps,
    say what holds of the cache along every sequence: what is kept (the
    identity of an entry, staleness), what a load that throws leaves behind,
    that loads of different keys neither see nor order each other, and what
    a write to a file during its first load does to the loads after it. *)

From S2P Require Import Prelude Host Fixture Cache CacheEquiv.

Local Open Scope js_scope.
Local Open Scope Z_scope.

(** ** Definitions *)

Section loads.
Context (typeOf : OnResolveArgs → string)
        (resolve : World → OnResolveArgs → completion string)
        (transform : World → string → string → completion OnLoadResult).

(** One call of the load callback, in the world of the call. *)
Definition load (w : World) (largs : OnLoadArgs) : M Store OnLoadResult :=
  cached w typeOf (resolve w) (transform w) largs.

(** The cache after one more load, of any request in any world. *)
Inductive step : Store → Store → Prop :=
| step_load w largs store : step store (run (load w largs) store).2.

(** The completions of a sequence of loads and the cache they leave. *)
Fixpoint run_loads (requests : list (World * OnLoadArgs)) (store : Store)
    : list (completion OnLoadResult) * Store :=
  match requests with
  | [] => ([], store)
  | (w, largs) :: rest =>
      let (c, store1) := run (load w largs) store in
      let (cs, store2) := run_loads rest store1 in
      (c :: cs, store2)
  end.

(** The type and the file of a request depend on its key only. *)
Definition key_stable (w : World) : Prop :=
  ∀ largs1 largs2, key_of largs1 = key_of largs2 →
    typeOf (pluginData largs1) = typeOf (pluginData largs2) ∧
    resolve w (pluginData largs1) = resolve w (pluginData largs2).

(** A file that was transformed has a modification time. *)
Definition stat_follows (w : World) : Prop :=
  ∀ largs file r,
    resolve w (pluginData largs) = Normal file →
    transform w file (typeOf (pluginData largs)) = Normal r →
    is_Normal (statSync w file) = true.

(** Every entry is fresh in the world and holds what a load without a cache
    returns there. *)
Definition settled (w : World) (store : Store) : Prop :=
  ∀ largs entry, entry_of store largs = Some entry →
    fresh w entry ∧ uncached typeOf (resolve w) (transform w) largs = Normal (result entry).

(** ** Lemmas *)

Implicit Types (store : Store) (largs : OnLoadArgs) (entry : CachedResult) (w : World).

Lemma step_keeps_identity store store' d f entry :
  step store store' → entry_at store d f = Some entry →
  ∃ entry', entry_at store' d f = Some entry' ∧ same_identity entry entry'.
Proof. intros [w largs s] He. by apply cached_keeps_identity. Qed.

Lemma steps_keep_identity store store' d f entry :
  rtc step store store' → entry_at store d f = Some entry →
  ∃ entry', entry_at store' d f = Some entry' ∧ same_identity entry entry'.
Proof.
  intros Hs. revert entry.
  induction Hs as [|s1 s2 s3 H12 _ IH]; intros entry He; [by exists entry|].
  destruct (step_keeps_identity _ _ _ _ _ H12 He) as (e2 & He2 & Hid).
  destruct (IH _ He2) as (e3 & He3 & Hid'). exists e3. split; [done|by etrans].
Qed.

Lemma steps_store_all (P : CachedResult → Prop) store store' :
  (∀ w entry r, transform w (filename entry) (type entry) = Normal r →
                result entry = r → P entry) →
  rtc step store store' → store_all P store → store_all P store'.
Proof.
  intros HP. induction 1 as [|s1 s2 s3 [w largs s] _ IH]; [done|].
  intros Hs. apply IH. eapply cached_store_all; [apply HP|done].
Qed.

Lemma run_loads_steps requests store : rtc step store (run_loads requests store).2.
Proof.
  revert store. induction requests as [|[w largs] rest IH]; intros store; simpl; [done|].
  destruct (run (load w largs) store) as [c store1] eqn:E1.
  specialize (IH store1). destruct (run_loads rest store1) as [cs store2]. simpl in *.
  eapply rtc_l; [|done]. replace store1 with (run (load w largs) store).2 by by rewrite E1.
  constructor.
Qed.

Lemma run_loads_length requests store :
  length (run_loads requests store).1 = length requests.
Proof.
  revert store. induction requests as [|[w largs] rest IH]; intros store; simpl; [done|].
  destruct (run (load w largs) store) as [c store1].
  specialize (IH store1). destruct (run_loads rest store1). simpl in *. by f_equal.
Qed.

Lemma run_loads_cons w largs rest store :
  run_loads ((w, largs) :: rest) store =
  ((run (load w largs) store).1 :: (run_loads rest (run (load w largs) store).2).1,
   (run_loads rest (run (load w largs) store).2).2).
Proof.
  cbn [run_loads]. destruct (run (load w largs) store) as [c s1]. cbn [fst snd].
  by destruct (run_loads rest s1).
Qed.

Lemma run_loads_app requests1 requests2 store :
  run_loads (requests1 ++ requests2) store =
  let (cs1, store1) := run_loads requests1 store in
  let (cs2, store2) := run_loads requests2 store1 in
  (cs1 ++ cs2, store2).
Proof.
  revert store. induction requests1 as [|[w largs] rest IH]; intros store; simpl.
  - by destruct (run_loads requests2 store).
  - destruct (run (load w largs) store) as [c store1]. rewrite IH.
    destruct (run_loads rest store1) as [cs1 s1]. by destruct (run_loads requests2 s1).
Qed.

(** Sequences of loads answer alike on caches with the same entries. *)
#[export] Instance run_loads_proper requests :
  Proper (same_entries ==> prod_relation (=) same_entries) (run_loads requests).
Proof.
  induction requests as [|[w largs] rest IH]; intros s1 s2 H; simpl; [by split|].
  destruct (cached_proper w typeOf (resolve w) (transform w) largs _ _ H) as [Hc Hs].
  unfold load. destruct (run (cached _ _ _ _ _) s1) as [c1 t1], (run (cached _ _ _ _ _) s2) as [c2 t2].
  simpl in Hc, Hs. subst c2. destruct (IH _ _ Hs) as [Hcs Hss].
  destruct (run_loads rest t1), (run_loads rest t2). simpl in *. split; simpl; by f_equal.
Qed.

(** A load that throws can be left out of a sequence: the loads after it
    complete as they would without it. *)
Lemma run_loads_cons_throw w largs rest store e :
  (run (load w largs) store).1 = Throw e →
  (run_loads ((w, largs) :: rest) store).1 = Throw e :: (run_loads rest store).1 ∧
  (run_loads ((w, largs) :: rest) store).2 ≈ (run_loads rest store).2.
Proof.
  intros Ht. pose proof (cached_throw_same _ _ _ _ _ _ _ Ht) as Hs.
  destruct (run_loads_proper rest _ _ Hs) as [Hcs Hss]. simpl.
  unfold load in *. destruct (run (cached _ _ _ _ _) store) as [c store1]. simpl in *. subst c.
  destruct (run_loads rest store1), (run_loads rest store). simpl in *. by subst.
Qed.

(** Loads of a stale entry in one world: the stored result first, then the
    recomputed one every time. *)
Lemma run_loads_stale w largs n store entry r :
  entry_of store largs = Some entry → stale w entry →
  transform w (filename entry) (type entry) = Normal r →
  (run_loads (replicate (S n) (w, largs)) store).1 =
  Normal (result entry) :: replicate n (Normal r).
Proof.
  revert store entry. induction n as [|n IH]; intros store entry He Hst Hr.
  - simpl. unfold load. by rewrite (cached_stale_run _ _ _ _ _ _ _ _ He Hst Hr).
  - change (replicate (S (S n)) (w, largs)) with ((w, largs) :: replicate (S n) (w, largs)).
    cbn [run_loads]. unfold load at 1.
    rewrite (cached_stale_run _ _ _ _ _ _ _ _ He Hst Hr).
    specialize (IH (store_entry store largs (set_result entry r)) (set_result entry r)
                  (entry_of_store_entry _ _ _) Hst Hr).
    destruct (run_loads (replicate (S n) (w, largs)) _) as [cs store2]. simpl in *.
    by rewrite IH.
Qed.

(** Loads of a fresh entry in one world: the stored result every time, and
    the cache as it was. *)
Lemma run_loads_fresh w largs n store entry :
  entry_of store largs = Some entry → fresh w entry →
  run_loads (replicate n (w, largs)) store = (replicate n (Normal (result entry)), store).
Proof.
  intros He Hf. induction n as [|n IH]; [done|].
  change (replicate (S n) (w, largs)) with ((w, largs) :: replicate n (w, largs)).
  rewrite run_loads_cons. unfold load.
  rewrite (cached_fresh_run _ _ _ _ _ _ _ He Hf). cbn [fst snd]. by rewrite IH.
Qed.

(** *** Loads of different keys *)

Lemma load_other_key w largs largs' store :
  key_of largs ≠ key_of largs' →
  entry_of (run (load w largs) store).2 largs' = entry_of store largs'.
Proof. apply cached_other_key. Qed.

(** A load completes after a load of another key as it does before it. *)
Lemma load_after_other w largs w' largs' store :
  key_of largs ≠ key_of largs' →
  (run (load w' largs') (run (load w largs) store).2).1 = (run (load w' largs') store).1.
Proof. intros Hne. by apply cached_local, load_other_key. Qed.

Lemma loads_swap w1 largs1 w2 largs2 store :
  key_of largs1 ≠ key_of largs2 →
  (run (load w2 largs2) (run (load w1 largs1) store).2).2 ≈
  (run (load w1 largs1) (run (load w2 largs2) store).2).2.
Proof.
  intros Hne d f.
  destruct (decide (key_of largs1 = (d, f))) as [H1|H1];
    [|destruct (decide (key_of largs2 = (d, f))) as [H2|H2]].
  - injection H1 as <- <-. fold (entry_of (run (load w2 largs2) (run (load w1 largs1) store).2).2 largs1).
    rewrite load_other_key by done.
    by apply cached_local; rewrite load_other_key.
  - injection H2 as <- <-. symmetry.
    fold (entry_of (run (load w1 largs1) (run (load w2 largs2) store).2).2 largs2).
    rewrite load_other_key by done.
    by apply cached_local; rewrite load_other_key.
  - unfold load. rewrite !cached_frame_entry; [done|..]; intros [<- <-]; by unfold key_of in *.
Qed.

(** *** Loads in a world that does not change *)

#[export] Instance settled_proper w : Proper (same_entries ==> iff) (settled w).
Proof. intros s1 s2 H. unfold settled. by setoid_rewrite H. Qed.

Lemma settled_empty w : settled w ∅.
Proof. intros largs entry. unfold entry_of, entry_at. by rewrite lookup_empty. Qed.

Lemma settled_store_entry w largs store file r mtime :
  key_stable w → settled w store →
  resolve w (pluginData largs) = Normal file →
  transform w file (typeOf (pluginData largs)) = Normal r →
  statSync w file = Normal mtime →
  settled w (store_entry store largs
               {| filename := file; type := typeOf (pluginData largs); mtimeMs := mtime;
                  result := r |}).
Proof.
  intros Hk Hs Hf Hr Hm largs' entry. unfold entry_of. rewrite entry_at_store_entry.
  case_decide as Hkey; [|apply Hs]. intros [= <-]. split; [exists mtime; simpl; split; [done|lia]|].
  destruct (Hk largs' largs) as [Ht Hres]; [unfold key_of; by destruct Hkey as [-> ->]|].
  unfold uncached. cbv zeta. by rewrite Hres, Hf, Ht.
Qed.

(** In a settled cache a load returns what the callback without a cache
    returns, and the cache stays settled. *)
Lemma load_settled w largs store :
  key_stable w → stat_follows w → settled w store →
  (run (load w largs) store).1 = uncached typeOf (resolve w) (transform w) largs ∧
  settled w (run (load w largs) store).2.
Proof.
  intros Hk Hstat Hs. unfold load. destruct (entry_of store largs) as [entry|] eqn:He.
  - destruct (Hs _ _ He) as [Hf ->]. by rewrite (cached_fresh_run _ _ _ _ _ _ _ He Hf).
  - rewrite cached_unfold. cbv zeta. rewrite He. unfold uncached. cbv zeta.
    destruct (resolve w _) as [file|] eqn:Hf; simpl; [|by rewrite with_group_same].
    destruct (transform w file _) as [r|] eqn:Hr; [|by rewrite with_group_same].
    pose proof (Hstat _ _ _ Hf Hr) as Hm.
    destruct (statSync w file) as [mtime|] eqn:Hm'; [|done].
    split; [done|]. by apply settled_store_entry.
Qed.

(** ** Properties *)

(** An entry, once stored, is never removed and keeps its file name, its
    type and its modification time through every sequence of loads, in
    whatever worlds they run: a recompute uses the type recorded at the first
    load, and never records the modification time it saw. *)
Lemma loads_keep_identity requests store dir file entry :
  entry_at store dir file = Some entry →
  ∃ entry', entry_at (run_loads requests store).2 dir file = Some entry' ∧
            same_identity entry entry'.
Proof. intros He. eapply steps_keep_identity; [apply run_loads_steps|done]. Qed.

(** C17.  An entry that is stale in a world stays stale in it whatever loads
    happen in between, so every later load of its key in that world runs the
    transform again and stores what it returns. *)
Theorem stale_forever w requests largs store entry r :
  entry_of store largs = Some entry → stale w entry →
  transform w (filename entry) (type entry) = Normal r →
  ∃ entry', entry_of (run_loads requests store).2 largs = Some entry' ∧
            stale w entry' ∧
            entry_of (run (load w largs) (run_loads requests store).2).2 largs =
              Some (set_result entry r).
Proof.
  intros He Hst Hr.
  destruct (steps_keep_identity _ _ _ _ _
              (run_loads_steps requests store) He) as (entry' & He' & Hid).
  exists entry'. split_and!; [done|by rewrite <-Hid|]. unfold load.
  destruct Hid as (Hf & Ht & Hm).
  erewrite cached_stale_run; [|done|by apply (stale_proper _ entry)|by rewrite Hf, Ht]. simpl.
  rewrite entry_of_store_entry. f_equal. destruct entry, entry'; simpl in *. by subst.
Qed.

(** C22.  A load that throws, anywhere in a sequence of loads, is invisible to
    the loads after it: they complete as in the sequence without it, and the
    two sequences leave caches with the same entries. *)
Theorem throwing_load_invisible requests1 w largs requests2 store e :
  (run (load w largs) (run_loads requests1 store).2).1 = Throw e →
  (run_loads (requests1 ++ (w, largs) :: requests2) store).1 =
    (run_loads requests1 store).1 ++
    Throw e :: (run_loads requests2 (run_loads requests1 store).2).1 ∧
  (run_loads (requests1 ++ (w, largs) :: requests2) store).2 ≈
    (run_loads (requests1 ++ requests2) store).2.
Proof.
  intros Ht. rewrite !run_loads_app.
  destruct (run_loads requests1 store) as [cs1 store1]. cbn [fst snd] in *.
  destruct (run_loads_cons_throw w largs requests2 store1 e Ht) as [Hcs Hs].
  destruct (run_loads (_ :: _) store1), (run_loads requests2 store1). cbn [fst snd] in *.
  subst. by split.
Qed.

(** C18.  Once the file of an entry has changed, the recomputed result does
    reach the host: of the loads of its key in the world of the change, the
    first returns the result that was stored and every later one the result
    of the transform. *)
Theorem stale_converges w largs n store entry r :
  entry_of store largs = Some entry → stale w entry →
  transform w (filename entry) (type entry) = Normal r →
  (run_loads (replicate (S n) (w, largs)) store).1 !! 0%nat = Some (Normal (result entry)) ∧
  ∀ i, (0 < i ≤ n)%nat →
       (run_loads (replicate (S n) (w, largs)) store).1 !! i = Some (Normal r).
Proof.
  intros He Hst Hr. rewrite (run_loads_stale _ _ _ _ _ _ He Hst Hr). split; [done|].
  intros [|i] Hi; [lia|]. simpl. apply lookup_replicate_2. lia.
Qed.

(** C23.  Loads of different keys do not depend on each other: in a sequence
    of loads with pairwise different keys, in whatever worlds, every load
    completes as it would alone on the cache the sequence started with. *)
Theorem loads_independent requests store :
  NoDup (key_of ∘ snd <$> requests) →
  (run_loads requests store).1 = (λ r, (run (load r.1 r.2) store).1) <$> requests.
Proof.
  revert store. induction requests as [|[w largs] rest IH]; intros store Hnd; [done|].
  apply NoDup_cons in Hnd as [Hnotin Hnd]. rewrite run_loads_cons, fmap_cons. cbn [fst snd].
  f_equal. rewrite IH by done. apply list_fmap_ext. intros i [w' largs'] Hin. simpl.
  apply load_after_other. intros Heq. apply Hnotin, list_elem_of_fmap.
  exists (w', largs'). split; [done|by eapply list_elem_of_lookup_2].
Qed.

(** The order of loads of different keys does not show in the cache:
    two sequences of the same loads, with pairwise different keys, leave
    caches with the same entries. *)
Lemma loads_permute requests1 requests2 store :
  requests1 ≡ₚ requests2 → NoDup (key_of ∘ snd <$> requests1) →
  (run_loads requests1 store).2 ≈ (run_loads requests2 store).2.
Proof.
  intros Hp. revert store.
  induction Hp as [|[w largs] l l' Hp IH|[w1 largs1] [w2 largs2] l|l1 l2 l3 H12 IH1 H23 IH2];
    intros store Hnd; [done|..].
  - rewrite !run_loads_cons. cbn [fst snd]. apply IH. by apply NoDup_cons in Hnd as [_ ?].
  - rewrite !run_loads_cons. cbn [fst snd]. apply run_loads_proper, loads_swap.
    apply NoDup_cons in Hnd as [Hnotin _]. intros Heq. apply Hnotin. simpl. rewrite Heq. left.
  - etrans; [by apply IH1|]. apply IH2. by rewrite <-H12.
Qed.

(** C19.  A file that is written while it is loaded for the first time, after
    the transform read it and before [statSync] (lines 141 and 142): the
    entry holds the result of the old content under the new modification
    time, and every later load in the world of the write returns that result
    without transforming the file again. *)
Theorem miss_race_pins_old w_before w_after largs store file r mtime n :
  entry_of store largs = None →
  resolve w_before (pluginData largs) = Normal file →
  transform w_before file (typeOf (pluginData largs)) = Normal r →
  statSync w_after file = Normal mtime →
  ∃ store1,
    run (cached w_after typeOf (resolve w_before) (transform w_before) largs) store =
      (Normal r, store1) ∧
    run_loads (replicate n (w_after, largs)) store1 = (replicate n (Normal r), store1).
Proof.
  intros He Hf Hr Hm.
  set (entry := {| filename := file; type := typeOf (pluginData largs); mtimeMs := mtime;
                   result := r |}).
  exists (store_entry store largs entry). split; [by apply cached_miss_run|].
  apply (run_loads_fresh w_after largs n _ entry); [apply entry_of_store_entry|].
  exists mtime. simpl. split; [done|lia].
Qed.

(** C14.  The cache is transparent in a world that does not change: when the
    type and the file of a request depend on its key only and every file that
    was transformed can be stat'ed, a sequence of loads through the cache
    returns and throws, load by load, what the callback without a cache
    returns and throws. *)
Theorem cache_transparent w requests store :
  key_stable w → stat_follows w → settled w store →
  (run_loads (pair w <$> requests) store).1 =
  uncached typeOf (resolve w) (transform w) <$> requests.
Proof.
  intros Hk Hstat. revert store.
  induction requests as [|largs rest IH]; intros store Hs; [done|].
  rewrite !fmap_cons, run_loads_cons. cbn [fst snd].
  destruct (load_settled w largs store Hk Hstat Hs) as [-> Hs']. by rewrite IH.
Qed.

End loads.

Lemma loads_keep_identity_witness :
  ∃ entry',
    entry_at (run_loads demo_typeOf (λ _, demo_pathResolve)
                (λ w file t, cmap (demo_result t) (readFileSync w file))
                [(world_of demo_files_edited, a_css); (world_of demo_files, b_scss)]
                demo_store).2 "/project/src" "./a.css" = Some entry' ∧
    same_identity demo_entry entry'.
Proof.
  apply (loads_keep_identity demo_typeOf (λ _, demo_pathResolve)
           (λ w file t, cmap (demo_result t) (readFileSync w file))).
  by vm_compute.
Defined.

Lemma stale_forever_witness :
  ∃ entry',
    entry_of (run_loads demo_typeOf (λ _, demo_pathResolve)
                (λ w file t, cmap (demo_result t) (readFileSync w file))
                [(world_of demo_files_edited, a_css); (world_of demo_files, b_scss)]
                demo_store).2 a_css = Some entry' ∧
    stale (world_of demo_files_edited) entry' ∧
    entry_of (run (load demo_typeOf (λ _, demo_pathResolve)
                     (λ w file t, cmap (demo_result t) (readFileSync w file))
                     (world_of demo_files_edited) a_css)
                (run_loads demo_typeOf (λ _, demo_pathResolve)
                   (λ w file t, cmap (demo_result t) (readFileSync w file))
                   [(world_of demo_files_edited, a_css); (world_of demo_files, b_scss)]
                   demo_store).2).2 a_css =
      Some (set_result demo_entry (demo_result "css" "body{color:blue}")).
Proof.
  apply (stale_forever demo_typeOf (λ _, demo_pathResolve)
           (λ w file t, cmap (demo_result t) (readFileSync w file))
           (world_of demo_files_edited)).
  - by vm_compute.
  - exists 11. by vm_compute.
  - by vm_compute.
Defined.

(** The callbacks of the witnesses: the resolver and the transform of the
    fixture, in the world of each call. *)
Definition demo_resolve_in : World → OnResolveArgs → completion string :=
  λ _, demo_pathResolve.

Definition demo_transform_in : World → string → string → completion OnLoadResult :=
  λ w file t, cmap (demo_result t) (readFileSync w file).

Lemma throwing_load_invisible_witness :
  (run_loads demo_typeOf demo_resolve_in demo_transform_in
     ([(world_of demo_files, a_css)] ++ (world_of demo_files, missing_css) ::
      [(world_of demo_files, b_scss)]) ∅).1 =
    (run_loads demo_typeOf demo_resolve_in demo_transform_in
       [(world_of demo_files, a_css)] ∅).1 ++
    Throw (FileSystemError "/project/src/missing.css") ::
    (run_loads demo_typeOf demo_resolve_in demo_transform_in [(world_of demo_files, b_scss)]
       (run_loads demo_typeOf demo_resolve_in demo_transform_in
          [(world_of demo_files, a_css)] ∅).2).1 ∧
  (run_loads demo_typeOf demo_resolve_in demo_transform_in
     ([(world_of demo_files, a_css)] ++ (world_of demo_files, missing_css) ::
      [(world_of demo_files, b_scss)]) ∅).2 ≈
  (run_loads demo_typeOf demo_resolve_in demo_transform_in
     ([(world_of demo_files, a_css)] ++ [(world_of demo_files, b_scss)]) ∅).2.
Proof.
  apply (throwing_load_invisible demo_typeOf demo_resolve_in demo_transform_in
           [(world_of demo_files, a_css)] (world_of demo_files) missing_css
           [(world_of demo_files, b_scss)] ∅ (FileSystemError "/project/src/missing.css")).
  by vm_compute.
Defined.

Lemma stale_converges_witness :
  (run_loads demo_typeOf demo_resolve_in demo_transform_in
     (replicate 3 (world_of demo_files_edited, a_css)) demo_store).1 !! 0%nat =
    Some (Normal (demo_result "css" "body{color:red}")) ∧
  ∀ i, (0 < i ≤ 2)%nat →
       (run_loads demo_typeOf demo_resolve_in demo_transform_in
          (replicate 3 (world_of demo_files_edited, a_css)) demo_store).1 !! i =
       Some (Normal (demo_result "css" "body{color:blue}")).
Proof.
  apply (stale_converges demo_typeOf demo_resolve_in demo_transform_in
           (world_of demo_files_edited) a_css 2 demo_store demo_entry
           (demo_result "css" "body{color:blue}")).
  - by vm_compute.
  - exists 11. by vm_compute.
  - by vm_compute.
Defined.

Lemma loads_independent_witness :
  (run_loads demo_typeOf demo_resolve_in demo_transform_in
     [(world_of demo_files, a_css); (world_of demo_files, missing_css);
      (world_of demo_files_edited, b_scss)] demo_store).1 =
  [Normal (demo_result "css" "body{color:red}");
   Throw (FileSystemError "/project/src/missing.css");
   Normal (demo_result "css" "body{color:red}")].
Proof.
  apply (loads_independent demo_typeOf demo_resolve_in demo_transform_in
           [(world_of demo_files, a_css); (world_of demo_files, missing_css);
            (world_of demo_files_edited, b_scss)] demo_store).
  by apply (bool_decide_unpack _); vm_compute.
Defined.

Lemma loads_permute_witness :
  (run_loads demo_typeOf demo_resolve_in demo_transform_in
     [(world_of demo_files, a_css); (world_of demo_files, b_scss)] ∅).2 ≈
  (run_loads demo_typeOf demo_resolve_in demo_transform_in
     [(world_of demo_files, b_scss); (world_of demo_files, a_css)] ∅).2.
Proof.
  apply (loads_permute demo_typeOf demo_resolve_in demo_transform_in
           [(world_of demo_files, a_css); (world_of demo_files, b_scss)]
           [(world_of demo_files, b_scss); (world_of demo_files, a_css)] ∅).
  - apply perm_swap.
  - by apply (bool_decide_unpack _); vm_compute.
Defined.

Lemma miss_race_pins_old_witness :
  ∃ store1,
    run (cached (world_of demo_files_edited) demo_typeOf
           (demo_resolve_in (world_of demo_files))
           (demo_transform_in (world_of demo_files)) a_css) ∅ =
      (Normal (demo_result "css" "body{color:red}"), store1) ∧
    run_loads demo_typeOf demo_resolve_in demo_transform_in
      (replicate 2 (world_of demo_files_edited, a_css)) store1 =
      (replicate 2 (Normal (demo_result "css" "body{color:red}")), store1).
Proof.
  exact (miss_race_pins_old demo_typeOf demo_resolve_in demo_transform_in
           (world_of demo_files) (world_of demo_files_edited) a_css ∅
           "/project/src/a.css" (demo_result "css" "body{color:red}") 11 2
           eq_refl eq_refl eq_refl eq_refl).
Defined.

(** What the file holds after the write, which no load returns. *)
Example miss_race_content :
  demo_transform_in (world_of demo_files_edited) "/project/src/a.css" "css" =
  Normal (demo_result "css" "body{color:blue}").
Proof. by vm_compute. Qed.

(** The fixture with one type for every request is a world where the cache
    is transparent. *)
Lemma demo_key_stable files : key_stable (λ _, "css") demo_resolve_in (world_of files).
Proof.
  intros largs1 largs2 [= Hd Hp]. split; [done|].
  unfold demo_resolve_in, demo_pathResolve. by rewrite Hd, Hp.
Qed.

Lemma demo_stat_follows typeOf files :
  stat_follows typeOf demo_resolve_in demo_transform_in (world_of files).
Proof.
  intros largs file r _. unfold demo_transform_in. simpl.
  destruct (demo_read files file) as [text|] eqn:Hread; [|done]. intros _.
  by eapply demo_read_stat.
Qed.

Lemma cache_transparent_witness :
  (run_loads (λ _, "css") demo_resolve_in demo_transform_in
     (pair (world_of demo_files) <$> [a_css; b_scss; missing_css; a_css_from_widget]) ∅).1 =
  uncached (λ _, "css") (demo_resolve_in (world_of demo_files))
    (demo_transform_in (world_of demo_files)) <$>
  [a_css; b_scss; missing_css; a_css_from_widget].
Proof.
  apply (cache_transparent (λ _, "css") demo_resolve_in demo_transform_in (world_of demo_files)
           [a_css; b_scss; missing_css; a_css_from_widget] ∅).
  - apply demo_key_stable.
  - apply demo_stat_follows.
  - apply settled_empty.
Defined.

(** With a type that depends on the importer the cache is not transparent:
    the second importer gets the module of the first. *)
Example cache_not_transparent :
  (run_loads demo_typeOf demo_resolve_in demo_transform_in
     (pair (world_of demo_files) <$> [a_css; a_css_from_widget]) ∅).1 =
    [Normal (demo_result "css" "body{color:red}");
     Normal (demo_result "css" "body{color:red}")] ∧
  uncached demo_typeOf (demo_resolve_in (world_of demo_files))
    (demo_transform_in (world_of demo_files)) <$> [a_css; a_css_from_widget] =
    [Normal (demo_result "css" "body{color:red}");
     Normal (demo_result "style" "body{color:red}")].
Proof. by vm_compute. Qed.
