(* ===== verification/HeapLoads.v ===== *)
(** * HeapLoads: sequences of loads on the heap

    [CacheLoads] runs sequences of loads on the cache as a value, [CacheHeap]
    runs one load on the cache as objects.  Here sequences run on the objects:
    [load_h] and [run_loads_h] are [load] and [run_loads] once more, on a
    heap.  The theorems say that, from a heap where no object is shared, and
    so from the empty cache a plugin makes for itself, a build on the objects
    completes load by load as the build on the values does, that such heaps
    are the only ones a build reaches, and how many calls a build makes. *)

From S2P Require Import Prelude Host Fixture Cache CacheEquiv CacheHeap CacheLoads.

Local Open Scope js_scope.
Local Open Scope Z_scope.

(** ** Definitions *)

Section loads_h.
Context (typeOf : OnResolveArgs → string)
        (resolve : World → OnResolveArgs → completion string)
        (transform : World → string → string → completion OnLoadResult).

(** One call of the load callback, in the world of the call. *)
Definition load_h (w : World) (largs : OnLoadArgs) : M Heap OnLoadResult :=
  cached_h w typeOf (resolve w) (transform w) largs.

(** The heap after one more load, of any request in any world. *)
Inductive step_h : Heap → Heap → Prop :=
| step_h_load w largs h : step_h h (run (load_h w largs) h).2.

(** The completions of a sequence of loads and the heap they leave. *)
Fixpoint run_loads_h (requests : list (World * OnLoadArgs)) (h : Heap)
    : list (completion OnLoadResult) * Heap :=
  match requests with
  | [] => ([], h)
  | (w, largs) :: rest =>
      let (c, h1) := run (load_h w largs) h in
      let (cs, h2) := run_loads_h rest h1 in
      (c :: cs, h2)
  end.

(** ** Lemmas *)

Implicit Types (h : Heap) (largs : OnLoadArgs) (w : World).

Lemma run_loads_h_cons w largs rest h :
  run_loads_h ((w, largs) :: rest) h =
  ((run (load_h w largs) h).1 :: (run_loads_h rest (run (load_h w largs) h).2).1,
   (run_loads_h rest (run (load_h w largs) h).2).2).
Proof.
  cbn [run_loads_h]. destruct (run (load_h w largs) h) as [c h1]. cbn [fst snd].
  by destruct (run_loads_h rest h1).
Qed.

Lemma step_h_separated h h' : step_h h h' → separated h → separated h'.
Proof. intros [w largs h0]. apply cached_h_separated. Qed.

Lemma steps_h_separated h h' : rtc step_h h h' → separated h → separated h'.
Proof. induction 1; eauto using step_h_separated. Qed.

Lemma run_loads_h_steps requests h : rtc step_h h (run_loads_h requests h).2.
Proof.
  revert h. induction requests as [|[w largs] rest IH]; intros h; [done|].
  rewrite run_loads_h_cons. simpl. eapply rtc_l; [constructor|apply IH].
Qed.

Lemma separated_empty : separated empty_heap.
Proof. by split; split. Qed.

Lemma view_empty : view empty_heap = ∅.
Proof. apply fmap_empty. Qed.

(** ** Properties *)

(** C11. From a heap where no object is held twice, a sequence of loads on
    the objects completes load by load as the sequence on the values does,
    and leaves a heap that holds the entries the values hold. *)
Theorem loads_h_refine requests h :
  separated h →
  (run_loads_h requests h).1 = (run_loads typeOf resolve transform requests (view h)).1 ∧
  view (run_loads_h requests h).2 ≈ (run_loads typeOf resolve transform requests (view h)).2.
Proof.
  revert h. induction requests as [|[w largs] rest IH]; intros h Hsep; [done|].
  rewrite run_loads_h_cons, run_loads_cons. cbn [fst snd]. unfold load_h, load.
  destruct (IH _ (cached_h_separated w typeOf (resolve w) (transform w) largs h Hsep))
    as [Hcs Hv].
  destruct (run_loads_proper typeOf resolve transform rest _ _
              (cached_h_view w typeOf (resolve w) (transform w) largs h Hsep)) as [Hcs' Hv'].
  unfold load_h in *. rewrite cached_h_result, Hcs, Hcs'. split; [done|]. by rewrite Hv.
Qed.

(** C24. Every heap that loads reach from the empty cache holds no object
    twice and no location without an object. *)
Theorem reachable_separated h : rtc step_h empty_heap h → separated h.
Proof. intros Hs. eapply steps_h_separated; [done|apply separated_empty]. Qed.


End loads_h.

(** ** Witnesses *)

(** A build: two files, then the first again after it was rewritten. *)
Definition demo_build_requests : list (World * OnLoadArgs) :=
  [(world_of demo_files, a_css); (world_of demo_files, b_scss);
   (world_of demo_files_edited, a_css)].

(** The files with a second [a.css], in the directory [lib]. *)
Definition demo_files_lib : Files :=
  touch "/project/lib/a.css" 3 "body{color:green}" demo_files.

Definition a_css_lib : OnLoadArgs := load_request "/project/lib" "./a.css" "/project/lib/main.js".

Lemma loads_h_refine_witness :
  (run_loads_h demo_typeOf demo_resolve_in demo_transform_in demo_build_requests demo_heap).1 =
  (run_loads demo_typeOf demo_resolve_in demo_transform_in demo_build_requests
     (view demo_heap)).1 ∧
  view (run_loads_h demo_typeOf demo_resolve_in demo_transform_in demo_build_requests
          demo_heap).2 ≈
  (run_loads demo_typeOf demo_resolve_in demo_transform_in demo_build_requests
     (view demo_heap)).2.
Proof.
  apply (loads_h_refine demo_typeOf demo_resolve_in demo_transform_in demo_build_requests
           demo_heap).
  apply (cached_h_separated _ _ _ _ a_css empty_heap separated_empty).
Defined.

Lemma reachable_separated_witness :
  separated
    (run_loads_h demo_typeOf demo_resolve_in demo_transform_in demo_build_requests
       empty_heap).2.
Proof.
  apply (reachable_separated demo_typeOf demo_resolve_in demo_transform_in).
  apply run_loads_h_steps.
Defined.

(** The build on the objects: what it returns and the calls it makes. *)
Example demo_build_h :
  (run_loads_h demo_typeOf demo_resolve_in demo_transform_in demo_build_requests empty_heap).1 =
    [Normal (demo_result "css" "body{color:red}");
     Normal (demo_result "css" "body{color:red}");
     Normal (demo_result "css" "body{color:red}")] ∧
  length (calls (run_loads_h demo_typeOf demo_resolve_in demo_transform_in
                   demo_build_requests empty_heap).2) = 10%nat.
Proof. by vm_compute. Qed.

(** On the cache with a shared group, [lib/a.css] is answered with the text
    of [src/a.css]; on the cache as a value it is answered with its own. *)
Example shared_cache_serves_other_file :
  (run_loads_h demo_typeOf demo_resolve_in demo_transform_in
     [(world_of demo_files_lib, a_css); (world_of demo_files_lib, a_css_lib)] shared_heap).1 =
    [Normal (demo_result "css" "body{color:red}");
     Normal (demo_result "css" "body{color:red}")] ∧
  (run_loads demo_typeOf demo_resolve_in demo_transform_in
     [(world_of demo_files_lib, a_css); (world_of demo_files_lib, a_css_lib)]
     (view shared_heap)).1 =
    [Normal (demo_result "css" "body{color:red}");
     Normal (demo_result "css" "body{color:green}")].
Proof. by vm_compute. Qed.
