(* ===== verification/CacheSpec.v ===== *)
(** * CacheSpec: the cache as the specification describes it

    [getOrCompute] is the algorithm of the specification's section 4.4, over
    one map keyed by the pair (base directory, specifier): it is written from
    the specification, not from [src/].  The lemmas relate it to
    [Cache.cached]: the two keep the same entries along every sequence of
    loads, and answer alike except when the entry is stale, where the
    specification returns the recomputed result and the code the stored one. *)

From S2P Require Import Prelude Host Fixture Cache CacheLoads.

Local Open Scope js_scope.
Local Open Scope Z_scope.

(** ** Definitions *)

Abbreviation Flat := (gmap (string * string) CachedResult).

(** The nested store and the flat map hold the same entries. *)
Definition abstracts (store : Store) (flat : Flat) : Prop :=
  ∀ dir file, entry_at store dir file = flat !! (dir, file).

Section spec.
Context (w : World)
        (typeOf : OnResolveArgs → string)
        (resolve : OnResolveArgs → completion string)
        (transform : string → string → completion OnLoadResult).

(** Section 4.4, steps 1 to 4, with the choice (a) of its last paragraph: a
    stale entry is recomputed with its recorded file and type, the new result
    is stored and returned. *)
Definition getOrCompute (largs : OnLoadArgs) : M Flat OnLoadResult :=
  flat <- get ;;
  match flat !! key_of largs with
  | None =>
      file <- lift (resolve (pluginData largs)) ;;
      let t := typeOf (pluginData largs) in
      r <- lift (transform file t) ;;
      mtime <- lift (statSync w file) ;;
      put (<[key_of largs :=
               {| filename := file; type := t; mtimeMs := mtime; result := r |}]> flat) ;;;
      ret r
  | Some entry =>
      current <- lift (statSync w (filename entry)) ;;
      if current <=? mtimeMs entry then ret (result entry)
      else
        r <- lift (transform (filename entry) (type entry)) ;;
        put (<[key_of largs := set_result entry r]> flat) ;;;
        ret r
  end.

End spec.

Section spec_loads.
Context (typeOf : OnResolveArgs → string)
        (resolve : World → OnResolveArgs → completion string)
        (transform : World → string → string → completion OnLoadResult).

Definition spec_load (w : World) (largs : OnLoadArgs) : M Flat OnLoadResult :=
  getOrCompute w typeOf (resolve w) (transform w) largs.

Fixpoint spec_loads (requests : list (World * OnLoadArgs)) (flat : Flat)
    : list (completion OnLoadResult) * Flat :=
  match requests with
  | [] => ([], flat)
  | (w, largs) :: rest =>
      let (c, flat1) := run (spec_load w largs) flat in
      let (cs, flat2) := spec_loads rest flat1 in
      (c :: cs, flat2)
  end.

End spec_loads.

(** ** Lemmas *)

Section refinement.
Context (w : World)
        (typeOf : OnResolveArgs → string)
        (resolve : OnResolveArgs → completion string)
        (transform : string → string → completion OnLoadResult).
Implicit Types (store : Store) (flat : Flat) (largs : OnLoadArgs) (entry : CachedResult).

Lemma abstracts_empty : abstracts ∅ ∅.
Proof. intros d f. unfold entry_at. by rewrite !lookup_empty. Qed.

Lemma abstracts_entry_of store flat largs :
  abstracts store flat → entry_of store largs = flat !! key_of largs.
Proof. intros Ha. apply Ha. Qed.

Lemma abstracts_with_group store flat largs :
  abstracts store flat → abstracts (with_group store largs) flat.
Proof. intros Ha d f. by rewrite entry_at_with_group. Qed.

Lemma abstracts_store_entry store flat largs entry :
  abstracts store flat →
  abstracts (store_entry store largs entry) (<[key_of largs := entry]> flat).
Proof.
  intros Ha d f. rewrite entry_at_store_entry, lookup_insert. unfold key_of.
  destruct (decide (resolveDir (pluginData largs) = d ∧ path (pluginData largs) = f))
    as [[<- <-]|Hne].
  - by rewrite decide_True.
  - rewrite decide_False; [apply Ha|]. intros [= <- <-]. by apply Hne.
Qed.

(** The specification's algorithm, one case at a time. *)
Lemma getOrCompute_unfold largs flat :
  run (getOrCompute w typeOf resolve transform largs) flat =
  match flat !! key_of largs with
  | Some entry =>
      match statSync w (filename entry) with
      | Throw e => (Throw e, flat)
      | Normal mtime =>
          if mtime <=? mtimeMs entry then (Normal (result entry), flat)
          else
            match transform (filename entry) (type entry) with
            | Throw e => (Throw e, flat)
            | Normal r => (Normal r, <[key_of largs := set_result entry r]> flat)
            end
      end
  | None =>
      match resolve (pluginData largs) with
      | Throw e => (Throw e, flat)
      | Normal file =>
          match transform file (typeOf (pluginData largs)) with
          | Throw e => (Throw e, flat)
          | Normal r =>
              match statSync w file with
              | Throw e => (Throw e, flat)
              | Normal mtime =>
                  (Normal r, <[key_of largs :=
                     {| filename := file; type := typeOf (pluginData largs);
                        mtimeMs := mtime; result := r |}]> flat)
              end
          end
      end
  end.
Proof.
  unfold getOrCompute. unfold_M. destruct (flat !! key_of largs) as [entry|].
  - destruct (statSync _ _) as [mtime|]; [|done]. destruct (mtime <=? _); [done|].
    by destruct (transform _ _).
  - destruct (resolve _) as [file|]; [|done]. destruct (transform _ _); [|done].
    by destruct (statSync _ _).
Qed.

Lemma cached_simulation store flat largs :
  abstracts store flat →
  abstracts (run (cached w typeOf resolve transform largs) store).2
            (run (getOrCompute w typeOf resolve transform largs) flat).2.
Proof.
  intros Ha. rewrite cached_unfold, getOrCompute_unfold. cbv zeta.
  rewrite <-(abstracts_entry_of _ _ _ Ha).
  repeat case_match; simpl;
    auto using abstracts_with_group, abstracts_store_entry.
Qed.

Lemma cached_same_result store flat largs :
  abstracts store flat →
  (∀ entry, entry_of store largs = Some entry → ¬ stale w entry) →
  (run (cached w typeOf resolve transform largs) store).1 =
  (run (getOrCompute w typeOf resolve transform largs) flat).1.
Proof.
  intros Ha Hfresh. rewrite cached_unfold, getOrCompute_unfold. cbv zeta.
  rewrite <-(abstracts_entry_of _ _ _ Ha).
  destruct (entry_of store largs) as [entry|] eqn:He; [|by repeat case_match].
  destruct (statSync _ _) as [mtime|] eqn:Hm; [|done].
  destruct (Z.leb_spec mtime (mtimeMs entry)); [done|].
  destruct (Hfresh entry eq_refl). by exists mtime.
Qed.

Lemma cached_stale_results store flat largs entry r :
  abstracts store flat → entry_of store largs = Some entry → stale w entry →
  transform (filename entry) (type entry) = Normal r →
  (run (cached w typeOf resolve transform largs) store).1 = Normal (result entry) ∧
  (run (getOrCompute w typeOf resolve transform largs) flat).1 = Normal r.
Proof.
  intros Ha He Hst Hr. split; [by erewrite cached_stale_run|].
  rewrite getOrCompute_unfold, <-(abstracts_entry_of _ _ _ Ha), He.
  destruct Hst as (mtime & -> & Hlt). rewrite Hr.
  destruct (Z.leb_spec mtime (mtimeMs entry)); [lia|done].
Qed.

End refinement.

Section refinement_loads.
Context (typeOf : OnResolveArgs → string)
        (resolve : World → OnResolveArgs → completion string)
        (transform : World → string → string → completion OnLoadResult).

Lemma run_loads_simulation requests store flat :
  abstracts store flat →
  abstracts (run_loads typeOf resolve transform requests store).2
            (spec_loads typeOf resolve transform requests flat).2.
Proof.
  revert store flat. induction requests as [|[w largs] rest IH]; intros store flat Ha; [done|].
  simpl. pose proof (cached_simulation w typeOf (resolve w) (transform w) _ _ largs Ha) as H1.
  unfold load, spec_load.
  destruct (run (cached _ _ _ _ _) store) as [c store1].
  destruct (run (getOrCompute _ _ _ _ _) flat) as [c' flat1]. simpl in H1.
  specialize (IH _ _ H1).
  destruct (run_loads _ _ _ rest store1), (spec_loads _ _ _ rest flat1). done.
Qed.

End refinement_loads.

(** ** Properties *)

Section properties.
Context (typeOf : OnResolveArgs → string)
        (resolve : World → OnResolveArgs → completion string)
        (transform : World → string → string → completion OnLoadResult).
Implicit Types (store : Store) (flat : Flat) (largs : OnLoadArgs) (entry : CachedResult).

(** C5.  Started on an empty cache, the code and the algorithm of the
    specification hold the same entries after every sequence of loads, in
    whatever worlds the loads run. *)
Theorem loads_refine_spec requests :
  abstracts (run_loads typeOf resolve transform requests ∅).2
            (spec_loads typeOf resolve transform requests ∅).2.
Proof. apply run_loads_simulation, abstracts_empty. Qed.

(** On the same entries, a load of the code and a load of the
    specification's algorithm complete alike, by the same result or the same
    exception, whenever the entry of the request is not stale. *)
Lemma load_agrees_with_spec w store flat largs :
  abstracts store flat →
  (∀ entry, entry_of store largs = Some entry → ¬ stale w entry) →
  (run (load typeOf resolve transform w largs) store).1 =
  (run (spec_load typeOf resolve transform w largs) flat).1.
Proof. apply cached_same_result. Qed.

(** C34.  On a stale entry the two differ: the algorithm of the specification
    returns the recomputed result, the code the result it had stored. *)
Theorem load_differs_from_spec w store flat largs entry r :
  abstracts store flat → entry_of store largs = Some entry → stale w entry →
  transform w (filename entry) (type entry) = Normal r →
  (run (load typeOf resolve transform w largs) store).1 = Normal (result entry) ∧
  (run (spec_load typeOf resolve transform w largs) flat).1 = Normal r.
Proof. apply cached_stale_results. Qed.

End properties.

(** ** Witnesses *)

Definition demo_flat : Flat := {[ ("/project/src", "./a.css") := demo_entry ]}.

Lemma demo_abstracts : abstracts demo_store demo_flat.
Proof.
  intros dir file. unfold demo_flat.
  destruct (decide ((dir, file) = ("/project/src", "./a.css"))) as [[= -> ->]|Hne].
  - by vm_compute.
  - rewrite lookup_singleton_ne by done.
    change demo_store with (store_entry ∅ a_css demo_entry).
    rewrite entry_at_store_entry, decide_False; [done|].
    intros [<- <-]. by apply Hne.
Qed.

Lemma load_agrees_with_spec_witness :
  (run (load demo_typeOf (λ _, demo_pathResolve)
          (λ w file t, cmap (demo_result t) (readFileSync w file))
          (world_of demo_files) a_css) demo_store).1 =
  (run (spec_load demo_typeOf (λ _, demo_pathResolve)
          (λ w file t, cmap (demo_result t) (readFileSync w file))
          (world_of demo_files) a_css) demo_flat).1.
Proof.
  apply (load_agrees_with_spec demo_typeOf (λ _, demo_pathResolve)
           (λ w file t, cmap (demo_result t) (readFileSync w file))
           (world_of demo_files) demo_store demo_flat a_css demo_abstracts).
  intros entry He (m & Hm & Hlt). rewrite demo_store_entry in He. injection He as <-.
  vm_compute in Hm. injection Hm as <-. by vm_compute in Hlt.
Defined.

Lemma load_differs_from_spec_witness :
  (run (load demo_typeOf (λ _, demo_pathResolve)
          (λ w file t, cmap (demo_result t) (readFileSync w file))
          (world_of demo_files_edited) a_css) demo_store).1 =
    Normal (demo_result "css" "body{color:red}") ∧
  (run (spec_load demo_typeOf (λ _, demo_pathResolve)
          (λ w file t, cmap (demo_result t) (readFileSync w file))
          (world_of demo_files_edited) a_css) demo_flat).1 =
    Normal (demo_result "css" "body{color:blue}").
Proof.
  apply (load_differs_from_spec demo_typeOf (λ _, demo_pathResolve)
           (λ w file t, cmap (demo_result t) (readFileSync w file))
           (world_of demo_files_edited) demo_store demo_flat a_css demo_entry
           (demo_result "css" "body{color:blue}") demo_abstracts).
  - apply demo_store_entry.
  - exists 11. by vm_compute.
  - by vm_compute.
Defined.
