(* ===== verification/Filters.v ===== *)
(** * Filters: the regular expressions the hooks are registered with

    The three [filter] expressions of plugin.ts (lines 112, 164 and 165) as
    values of a small type of regular expressions, the semantics of
    [RegExp.prototype.test] for that type, and for each filter the plain
    condition on the path it amounts to. *)

From S2P Require Import Prelude JsString.

Local Open Scope char_scope.

(** ** Regular expressions *)

(** The constructs the three filters use. *)
Inductive regex : Type :=
| Chr (c : ascii)
| NotChr (c : ascii)
| OneOf (cs : list ascii)
| Seq (r1 r2 : regex)
| Alt (r1 r2 : regex)
| Opt (r : regex)
| Bol
| Eol.

(** [matches r at_start s k]: [r] matches a prefix of [s] and [k] accepts what
    is left.  [at_start] says that [s] is the whole input, which is where the
    assertion [^] holds; [$] holds where nothing is left. *)
Fixpoint matches (r : regex) (at_start : bool) (s : string)
    (k : bool → string → bool) : bool :=
  match r with
  | Chr c =>
      match s with
      | String c' rest => (c' =? c) && k false rest
      | EmptyString => false
      end
  | NotChr c =>
      match s with
      | String c' rest => negb (c' =? c) && k false rest
      | EmptyString => false
      end
  | OneOf cs =>
      match s with
      | String c' rest => existsb (Ascii.eqb c') cs && k false rest
      | EmptyString => false
      end
  | Seq r1 r2 => matches r1 at_start s (λ b rest, matches r2 b rest k)
  | Alt r1 r2 => matches r1 at_start s k || matches r2 at_start s k
  | Opt r => matches r at_start s k || k at_start s
  | Bol => at_start && k at_start s
  | Eol => match s with EmptyString => k at_start s | String _ _ => false end
  end.

Definition accept : bool → string → bool := λ _ _, true.

(** A match that starts at the head of [s] or further on. *)
Fixpoint search (r : regex) (at_start : bool) (s : string) : bool :=
  matches r at_start s accept ||
  match s with
  | String _ rest => search r false rest
  | EmptyString => false
  end.

(** [r.test(s)] *)
Definition test (r : regex) (s : string) : bool := search r true s.

(** ** The filters *)

(** Line 112: [/\.(s[ac]ss|css)$/] *)
Definition filter_resolve : regex :=
  Seq (Chr ".")
    (Seq (Alt (Seq (Chr "s") (Seq (OneOf ["a"; "c"]) (Seq (Chr "s") (Chr "s"))))
              (Seq (Chr "c") (Seq (Chr "s") (Chr "s"))))
         Eol).

(** Line 164: [/^\.\.?\//] *)
Definition filter_relative : regex :=
  Seq Bol (Seq (Chr ".") (Seq (Opt (Chr ".")) (Chr "/"))).

(** Line 165: [/^([^.]|\.\.?[^/])/] *)
Definition filter_other : regex :=
  Seq Bol (Alt (NotChr ".") (Seq (Chr ".") (Seq (Opt (Chr ".")) (NotChr "/")))).

(** ** The conditions the filters amount to *)

Definition is_stylesheet (p : string) : bool :=
  endsWith p ".scss" || endsWith p ".sass" || endsWith p ".css".

Definition is_relative (p : string) : bool :=
  startsWith p "./" || startsWith p "../".

(** The first character is not a dot, or it is one and the second character is
    not a slash, or the first two are dots and the third is not a slash. *)
Definition is_other (p : string) : bool :=
  match p with
  | EmptyString => false
  | String c1 rest1 =>
      negb (c1 =? ".") ||
      match rest1 with
      | EmptyString => false
      | String c2 rest2 =>
          negb (c2 =? "/") ||
          ((c2 =? ".") && match rest2 with
                          | String c3 _ => negb (c3 =? "/")
                          | EmptyString => false
                          end)
      end
  end.

(** ** Lemmas *)

Section lemmas.
Implicit Types (r : regex) (s p q : string) (b : bool).

Lemma search_bol r s : search (Seq Bol r) false s = false.
Proof. induction s as [|c s IH]; simpl; [done|]. by rewrite IH. Qed.

Lemma test_bol r s : test (Seq Bol r) s = matches r true s accept.
Proof.
  unfold test. destruct s; simpl; [by rewrite orb_false_r|].
  by rewrite search_bol, orb_false_r.
Qed.

(** A search succeeds when the expression matches at the head of the input or
    at the head of one of its proper suffixes. *)
Lemma search_spec r b s :
  search r b s = true ↔
  matches r b s accept = true ∨
  ∃ c p q, s = String c (p +:+ q) ∧ matches r false q accept = true.
Proof.
  revert b. induction s as [|c s IH]; intros b; simpl.
  - rewrite orb_false_r. split; [by left|]. by intros [?|(?&?&?&?&?)].
  - rewrite orb_true_iff, IH. split.
    + intros [?|[?|(c' & p & q & -> & ?)]]; [by left|right..].
      * by exists c, EmptyString, s.
      * by exists c, (String c' p), q.
    + intros [?|(c' & p & q & [= <- ->] & Hq)]; [by left|right].
      destruct p as [|c'' p]; [by left|right]. rewrite str_app_cons. eauto.
Qed.

Lemma matches_filter_resolve b q :
  matches filter_resolve b q accept = true ↔
  q = ".scss"%string ∨ q = ".sass"%string ∨ q = ".css"%string.
Proof.
  split; [|by intros [->|[->| ->]]].
  destruct q as [|c1 [|c2 [|c3 [|c4 [|c5 [|c6 q]]]]]]; simpl; case_chars; auto.
Qed.

Lemma is_stylesheet_spec s :
  is_stylesheet s = true ↔
  ∃ p q, s = p +:+ q ∧ (q = ".scss"%string ∨ q = ".sass"%string ∨ q = ".css"%string).
Proof.
  unfold is_stylesheet. rewrite !orb_true_iff, !endsWith_spec. split.
  - intros [[[p ->]|[p ->]]|[p ->]]; eauto 6.
  - intros (p & q & -> & [->|[->| ->]]); eauto.
Qed.

Lemma test_filter_resolve_iff s : test filter_resolve s = true ↔ is_stylesheet s = true.
Proof.
  unfold test. rewrite search_spec, is_stylesheet_spec. split.
  - intros [Hq|(c & p & q & -> & Hq)]; apply matches_filter_resolve in Hq.
    + by exists EmptyString, s.
    + by exists (String c p), q.
  - intros (p & q & -> & Hq). destruct p as [|c p].
    + left. by apply matches_filter_resolve.
    + right. exists c, p, q. split; [done|]. by apply matches_filter_resolve.
Qed.

Lemma test_filter_resolve s : test filter_resolve s = is_stylesheet s.
Proof. apply Bool.eq_iff_eq_true, test_filter_resolve_iff. Qed.

Lemma test_filter_relative s : test filter_relative s = is_relative s.
Proof.
  unfold filter_relative. rewrite test_bol. unfold is_relative, startsWith.
  destruct s as [|c1 [|c2 [|c3 s]]]; simpl; try done; case_chars.
Qed.

Lemma test_filter_other s : test filter_other s = is_other s.
Proof.
  unfold filter_other. rewrite test_bol.
  destruct s as [|c1 [|c2 [|c3 s]]]; simpl; try done; case_chars.
Qed.

Lemma is_stylesheet_length s : is_stylesheet s = true → (4 ≤ String.length s)%nat.
Proof.
  intros (p & q & -> & Hq)%is_stylesheet_spec. rewrite str_length_app.
  destruct Hq as [->|[->| ->]]; simpl; lia.
Qed.

Lemma relative_or_other s :
  (2 ≤ String.length s)%nat → is_relative s || is_other s = true.
Proof.
  unfold is_relative, startsWith.
  destruct s as [|c1 [|c2 s]]; simpl; [lia..|]. intros _. case_chars.
  apply orb_true_r.
Qed.

Lemma relative_and_other s : is_relative s && is_other s = startsWith s "../".
Proof.
  unfold is_relative, startsWith.
  destruct s as [|c1 [|c2 [|c3 s]]]; simpl; try done; case_chars.
Qed.

End lemmas.

(** ** Properties *)

(** The filter of the resolve hook holds of a path exactly when the path
    ends in ".scss", ".sass" or ".css". *)
Lemma filter_resolve_suffix s :
  test filter_resolve s = endsWith s ".scss" || endsWith s ".sass" || endsWith s ".css".
Proof. apply test_filter_resolve. Qed.

(** The filter of the first load hook holds of a path exactly when it
    starts with "./" or "../"; the filter of the second holds exactly when the
    first character is not a dot, or the second is not a slash and not a dot,
    or the path starts with two dots and a third character that is no slash. *)
Lemma filter_load_prefix s :
  test filter_relative s = (startsWith s "./" || startsWith s "../") ∧
  test filter_other s = is_other s.
Proof. split; [apply test_filter_relative|apply test_filter_other]. Qed.

(** A path that the resolve hook takes is taken by a load hook: of a
    path that ends in ".scss", ".sass" or ".css" one of the two load filters
    holds. *)
Lemma filters_cover s :
  test filter_resolve s = true →
  test filter_relative s || test filter_other s = true.
Proof.
  rewrite test_filter_resolve, test_filter_relative, test_filter_other.
  intros Hs%is_stylesheet_length. apply relative_or_other. lia.
Qed.

(** C40.  The two load filters both hold of a path exactly when it starts with
    "../": there the optional dot of the second filter matches nothing and the
    second dot of the path is its character that is no slash. *)
Theorem filters_overlap s :
  test filter_relative s && test filter_other s = startsWith s "../".
Proof. rewrite test_filter_relative, test_filter_other. apply relative_and_other. Qed.

(** ** Witnesses *)

Example filter_examples :
  test filter_resolve "./a.css" = true ∧ test filter_resolve "a.sass" = true ∧
  test filter_resolve "a.scss.map" = false ∧ test filter_resolve "a.sbss" = false ∧
  test filter_relative "./a.css" = true ∧ test filter_relative "../a.css" = true ∧
  test filter_relative ".a.css" = false ∧ test filter_relative "x/./a.css" = false ∧
  test filter_other "pkg/a.css" = true ∧ test filter_other "./a.css" = false ∧
  test filter_other "../a.css" = true ∧ test filter_other ".hidden/a.css" = true ∧
  test filter_other "/abs/a.css" = true ∧ test filter_other "" = false.
Proof. by vm_compute. Qed.

Lemma filters_cover_witness :
  test filter_relative "pkg/a.scss" || test filter_other "pkg/a.scss" = true.
Proof. exact (filters_cover "pkg/a.scss" eq_refl). Defined.
