(* ===== verification/Plugin.v ===== *)
(** * Plugin: [sassPlugin] and the hooks it registers

    [sassPlugin] of plugin.ts lines 29-168: the defaults of the options, the
    exit when no module directory is found, the choice of the cache, and
    [setup] with its three registrations.  [run_onResolve], [run_onLoad] and
    [import] are esbuild's side of the protocol, written from its
    documentation: the callbacks whose filter and namespace match run in the
    order of their registration and the first answer is taken; [run_imports]
    is a build, a sequence of imports on one cache.  The theorems compose the
    components: the route of an import, what it returns, the plugin with a
    cache against the plugin without one, and a cache shared by two plugins. *)

From S2P Require Import Prelude JsString Posix Utils Host Fixture Paths.
From S2P Require Import Matcher Resolver Transform Filters.
From S2P Require Import Cache CacheEquiv CacheLoads.

Local Open Scope js_scope.

(** ** Definitions *)

(** A registered [onResolve] callback. *)
Record ResolveHook : Type := {
  rh_filter : regex;
  rh_callback : OnResolveArgs → OnResolveResult;
}.

(** A registered [onLoad] callback.  It runs in the world of the call, on the
    cache of the plugin. *)
Record LoadHook : Type := {
  lh_filter : regex;
  lh_namespace : string;
  lh_callback : World → OnLoadArgs → M Store OnLoadResult;
}.

(** The registrations a [build] object has received. *)
Record Build : Type := {
  resolveHooks : list ResolveHook;
  loadHooks : list LoadHook;
}.

Definition empty_build : Build := {| resolveHooks := []; loadHooks := [] |}.

(** [build.onResolve({filter}, callback)] *)
Definition onResolve (filter : regex) (callback : OnResolveArgs → OnResolveResult)
    (build : Build) : Build :=
  {| resolveHooks := resolveHooks build ++ [{| rh_filter := filter; rh_callback := callback |}];
     loadHooks := loadHooks build |}.

(** [build.onLoad({filter, namespace}, callback)] *)
Definition onLoad (filter : regex) (namespace : string)
    (callback : World → OnLoadArgs → M Store OnLoadResult) (build : Build) : Build :=
  {| resolveHooks := resolveHooks build;
     loadHooks := loadHooks build ++
       [{| lh_filter := filter; lh_namespace := namespace; lh_callback := callback |}] |}.

(** The object [sassPlugin] returns. *)
Record Plugin : Type := {
  name : string;
  setup : Build → Build;
}.

(** What a call of [sassPlugin] ends in: the process exits, or the plugin is
    returned, with the cache its callbacks will work on ([None]: no cache). *)
Inductive Construction : Type :=
| Exit (stderr : string) (code : Z)
| Constructed (plugin : Plugin) (cache : option Store).

Section plugin.
Context `{Libs}.

(** Lines 31-36. *)
Definition with_defaults (proc : Process) (options : Index) : Index :=
  {| opt_basedir :=
       if truthy_opt (opt_basedir options) then opt_basedir options
       else Some (process_cwd proc);
     opt_cache := opt_cache options;
     opt_type := opt_type options;
     opt_includePaths := opt_includePaths options;
     opt_picomatch :=
       match opt_picomatch options with
       | Some p => Some p
       | None => Some [("unixify", "true")]
       end;
     opt_importer := opt_importer options |}.

(** Lines 102-106. *)
Definition initial_cache (options : Index) : option Store :=
  match opt_cache options with
  | CacheFalsy => None
  | CacheMap m => Some m
  | CacheTruthy => Some ∅
  end.

(** Line 113. *)
Definition resolve_callback (args : OnResolveArgs) : OnResolveResult :=
  {| res_path := path args; res_namespace := "sass"; res_pluginData := args |}.

(** Lines 116-150: [cached(resolve, transform)], for the cache the plugin has
    or has not. *)
Definition load_callback (options : Index) (moduleDirectory : string) (use_cache : bool)
    (resolve : World → OnResolveArgs → completion string)
    : World → OnLoadArgs → M Store OnLoadResult :=
  λ w largs,
    if use_cache then
      cached w (typeOf options) (resolve w) (transform options moduleDirectory w) largs
    else
      lift (uncached (typeOf options) (resolve w) (transform options moduleDirectory w) largs).

(** Lines 110-166. *)
Definition plugin_setup (options : Index) (moduleDirectory : string) (use_cache : bool)
    (build : Build) : Build :=
  let build := onResolve filter_resolve resolve_callback build in
  let build := onLoad filter_relative "sass"
                 (load_callback options moduleDirectory use_cache
                    (λ _ args, Normal (pathResolve args))) build in
  onLoad filter_other "sass"
    (load_callback options moduleDirectory use_cache (requireResolve options)) build.

(** Lines 29-168. *)
Definition sassPlugin (proc : Process) (given : Index) : Construction :=
  let options := with_defaults proc given in
  let moduleDirectory := findModuleDirectory proc options in
  if truthy_opt moduleDirectory then
    let cache := initial_cache options in
    Constructed
      {| name := "sass-plugin";
         setup := plugin_setup options (default "" moduleDirectory) (bool_decide (is_Some cache)) |}
      cache
  else
    Exit ("Unable to find 'node_modules' from: " +:+ default "undefined" (opt_basedir options)) 1.

(** ** esbuild's side *)

Fixpoint run_onResolve (hooks : list ResolveHook) (args : OnResolveArgs)
    : option OnResolveResult :=
  match hooks with
  | [] => None
  | hook :: rest =>
      if test (rh_filter hook) (path args) then Some (rh_callback hook args)
      else run_onResolve rest args
  end.

Fixpoint run_onLoad (hooks : list LoadHook) (w : World) (largs : OnLoadArgs)
    : option (M Store OnLoadResult) :=
  match hooks with
  | [] => None
  | hook :: rest =>
      if test (lh_filter hook) (load_path largs) &&
         String.eqb (lh_namespace hook) (load_namespace largs)
      then Some (lh_callback hook w largs)
      else run_onLoad rest w largs
  end.

(** The [OnLoadArgs] esbuild makes of a resolve result. *)
Definition load_args (r : OnResolveResult) : OnLoadArgs :=
  {| load_path := res_path r; load_namespace := res_namespace r;
     pluginData := res_pluginData r |}.

(** An import as the registered hooks handle it: [None] when no hook of the
    plugin takes it. *)
Definition import (build : Build) (w : World) (args : OnResolveArgs)
    : option (M Store OnLoadResult) :=
  r ← run_onResolve (resolveHooks build) args;
  run_onLoad (loadHooks build) w (load_args r).

(** A sequence of imports in one world, each through the hooks that take it:
    what each import completes with ([None] for an import no hook takes) and
    the cache at the end. *)
Fixpoint run_imports (build : Build) (w : World) (requests : list OnResolveArgs) (store : Store)
    : list (option (completion OnLoadResult)) * Store :=
  match requests with
  | [] => ([], store)
  | args :: rest =>
      match import build w args with
      | Some m =>
          let (c, store1) := run m store in
          let (cs, store2) := run_imports build w rest store1 in
          (Some c :: cs, store2)
      | None =>
          let (cs, store2) := run_imports build w rest store in
          (None :: cs, store2)
      end
  end.

End plugin.

(** The cache invariant of the plugin: the result of an entry has the shape
    its file and its type call for. *)
Definition entry_shaped `{Libs} (entry : CachedResult) : Prop :=
  shaped (filename entry) (type entry) (result entry).

(** The cache after one more import through the hooks of a plugin with a
    cache, of any request in any world. *)
Inductive plugin_step `{Libs} (options : Index) (moduleDirectory : string)
    : Store → Store → Prop :=
| plugin_step_import w args m store :
    import (plugin_setup options moduleDirectory true empty_build) w args = Some m →
    plugin_step options moduleDirectory store (run m store).2.

(** The resolver of the load hook that takes a request: the first
    registration, for a path that starts with "./" or "../", resolves against
    the resolve directory, the second resolves a module. *)
Definition resolver_of `{Libs} (options : Index) (w : World) (args : OnResolveArgs)
    : completion string :=
  if is_relative (path args) then Normal (pathResolve args) else requireResolve options w args.

(** ** Lemmas *)

Section plugin_lemmas.
Context `{Libs}.
Implicit Types (options given : Index) (proc : Process) (args : OnResolveArgs)
               (w : World) (store : Store).

Lemma with_defaults_basedir proc given :
  opt_basedir (with_defaults proc given) =
  Some (if truthy_opt (opt_basedir given) then default "" (opt_basedir given)
        else process_cwd proc).
Proof. unfold with_defaults. simpl. by destruct (opt_basedir given) as [[]|]. Qed.

Lemma with_defaults_picomatch proc given :
  opt_picomatch (with_defaults proc given) =
  Some (default [("unixify", "true")] (opt_picomatch given)).
Proof. unfold with_defaults. simpl. by destruct (opt_picomatch given). Qed.

Lemma run_onResolve_setup options md uc args :
  run_onResolve (resolveHooks (plugin_setup options md uc empty_build)) args =
  if is_stylesheet (path args) then Some (resolve_callback args) else None.
Proof. simpl. by rewrite test_filter_resolve. Qed.

Lemma run_onLoad_setup options md uc w largs :
  run_onLoad (loadHooks (plugin_setup options md uc empty_build)) w largs =
  if String.eqb "sass" (load_namespace largs) then
    if is_relative (load_path largs) then
      Some (load_callback options md uc (λ _ args, Normal (pathResolve args)) w largs)
    else if is_other (load_path largs) then
      Some (load_callback options md uc (requireResolve options) w largs)
    else None
  else None.
Proof.
  unfold plugin_setup, onLoad, onResolve, empty_build.
  cbn [loadHooks app run_onLoad lh_filter lh_namespace lh_callback].
  rewrite test_filter_relative, test_filter_other.
  destruct (String.eqb "sass" (load_namespace largs));
    rewrite ?andb_true_r, ?andb_false_r; [|done].
  by destruct (is_relative (load_path largs)), (is_other (load_path largs)).
Qed.

Lemma import_setup options md uc w args :
  import (plugin_setup options md uc empty_build) w args =
  let largs := load_args (resolve_callback args) in
  if is_stylesheet (path args) then
    if is_relative (path args) then
      Some (load_callback options md uc (λ _ args, Normal (pathResolve args)) w largs)
    else if is_other (path args) then
      Some (load_callback options md uc (requireResolve options) w largs)
    else None
  else None.
Proof.
  unfold import. rewrite run_onResolve_setup.
  destruct (is_stylesheet (path args)); [|done]. cbn [mbind option_bind].
  by rewrite run_onLoad_setup.
Qed.

(** An import the hooks take is a load through the cache, with one of the two
    resolvers. *)
Lemma import_cached options md w args m :
  import (plugin_setup options md true empty_build) w args = Some m →
  ∃ resolve, m = cached w (typeOf options) resolve (transform options md w)
                   (load_args (resolve_callback args)).
Proof.
  rewrite import_setup. cbv zeta. intros Hm.
  repeat case_match; simplify_eq; unfold load_callback; eauto.
Qed.

Lemma run_imports_cons build w args rest store :
  run_imports build w (args :: rest) store =
  match import build w args with
  | Some m =>
      (Some (run m store).1 :: (run_imports build w rest (run m store).2).1,
       (run_imports build w rest (run m store).2).2)
  | None => (None :: (run_imports build w rest store).1, (run_imports build w rest store).2)
  end.
Proof.
  cbn [run_imports]. destruct (import build w args) as [m|].
  - destruct (run m store) as [c store1]. cbn [fst snd]. by destruct (run_imports _ _ rest store1).
  - by destruct (run_imports _ _ rest store).
Qed.

(** The resolver an import is loaded with is [resolver_of] on its request. *)
Lemma import_resolver options md uc w args m :
  import (plugin_setup options md uc empty_build) w args = Some m →
  ∀ store, run m store =
           run (load_callback options md uc (resolver_of options) w
                  (load_args (resolve_callback args))) store.
Proof.
  rewrite import_setup. cbv zeta. unfold resolver_of, load_callback. intros Hm store.
  repeat case_match; simplify_eq; rewrite ?run_lift; try done;
    try (apply cached_resolve_ext; simpl; by rewrite ?H1, ?H2);
    unfold uncached; simpl; by rewrite ?H1, ?H2.
Qed.

(** Whether the hooks take an import does not depend on the cache. *)
Lemma import_taken options md uc uc' w args :
  (∃ m m', import (plugin_setup options md uc empty_build) w args = Some m ∧
           import (plugin_setup options md uc' empty_build) w args = Some m') ∨
  (import (plugin_setup options md uc empty_build) w args = None ∧
   import (plugin_setup options md uc' empty_build) w args = None).
Proof. rewrite !import_setup. cbv zeta. repeat case_match; eauto. Qed.

(** Without rules on the importer, the type and the file of a request depend
    on its key only. *)
Lemma plugin_key_stable options w :
  forallb (λ rule, negb (reads_importer rule.2)) (rules_of (opt_type options)) = true →
  key_stable (typeOf options) (resolver_of options) w.
Proof.
  intros Hrules largs1 largs2 [= Hd Hp]. split.
  - apply typeOf_ignores_importer; [done|]. by rewrite Hd, Hp.
  - unfold resolver_of, pathResolve, requireResolve, lookup_paths. by rewrite Hd, Hp.
Qed.

Lemma plugin_step_shaped options md store store' :
  plugin_step options md store store' →
  store_all entry_shaped store → store_all entry_shaped store'.
Proof.
  intros [w args m s (resolve & ->)%import_cached]. apply cached_store_all.
  intros entry r Hr <-. by eapply transform_shaped.
Qed.

End plugin_lemmas.

(** ** Properties *)

Section plugin_properties.
Context `{Libs}.
Implicit Types (options given : Index) (proc : Process) (args : OnResolveArgs)
               (w : World) (store : Store).

(** C9.  The hooks of the plugin take an import exactly when its path ends in
    ".scss", ".sass" or ".css".  The load callback then resolves a path that
    starts with "./" or "../" against the resolve directory and any other path
    as a module; the [OnLoadArgs] carry the resolve request as plugin data. *)
Theorem import_routes options md uc w args :
  import (plugin_setup options md uc empty_build) w args =
  if is_stylesheet (path args) then
    Some (load_callback options md uc
            (if is_relative (path args) then λ _ args, Normal (pathResolve args)
             else requireResolve options)
            w (load_args (resolve_callback args)))
  else None.
Proof.
  rewrite import_setup. cbv zeta. destruct (is_stylesheet (path args)) eqn:Hs; [|done].
  destruct (is_relative (path args)) eqn:Hr; [done|].
  apply is_stylesheet_length in Hs.
  pose proof (relative_or_other (path args)) as Ho. rewrite Hr in Ho.
  simpl in Ho. by rewrite Ho by lia.
Qed.

(** C30.  Every entry of the cache keeps the shape of its type through any
    sequence of imports, in any worlds: loader "css" and no resolve directory
    for the type "css", and for another type loader "js", the directory of the
    file and a module made by [makeModule]. *)
Theorem plugin_cache_shaped options md store store' :
  store_all entry_shaped store →
  rtc (plugin_step options md) store store' →
  store_all entry_shaped store'.
Proof.
  intros Hs Hsteps. induction Hsteps as [|s1 s2 s3 H12 _ IH]; [done|].
  by eapply IH, plugin_step_shaped.
Qed.

(** When no module directory is found the construction ends the process
    with code 1 after a message that names the base directory: the one of the
    options when it is truthy, the working directory otherwise. *)
Lemma sassPlugin_exits proc given :
  truthy_opt (findModuleDirectory proc (with_defaults proc given)) = false →
  sassPlugin proc given =
  Exit ("Unable to find 'node_modules' from: " +:+
        (if truthy_opt (opt_basedir given) then default "" (opt_basedir given)
         else process_cwd proc)) 1.
Proof. intros Hm. unfold sassPlugin. cbv zeta. by rewrite Hm, with_defaults_basedir. Qed.


(** A path of an import that ends in ".scss", ".sass" or ".css" and is
    not yet in the cache is resolved, by the resolve directory when it starts
    with "./" or "../" and as a module otherwise, classified by [typeOf] and
    transformed; the import returns what the transform returns, and an
    exception of the resolver or of the transform is the import's. *)
Lemma import_first_load options md w args store m :
  import (plugin_setup options md true empty_build) w args = Some m →
  entry_at store (resolveDir args) (path args) = None →
  (∀ file, resolver_of options w args = Normal file → is_Normal (statSync w file) = true) →
  (run m store).1 =
  (file <~ resolver_of options w args ;;
   transform options md w file (typeOf options args)).
Proof.
  rewrite import_setup. cbv zeta. unfold resolver_of, load_callback. intros Hm He Hstat.
  repeat case_match; simplify_eq; by apply cached_miss_result.
Qed.

(** After an import that returned normally, the same import in the same
    world returns the same result and leaves the cache as it is, provided the
    entry it found, if it found one, was not stale. *)
Lemma import_again options md w args store m r store' :
  import (plugin_setup options md true empty_build) w args = Some m →
  (∀ entry, entry_at store (resolveDir args) (path args) = Some entry → ¬ stale w entry) →
  run m store = (Normal r, store') →
  run m store' = (Normal r, store').
Proof. intros (resolve & ->)%import_cached Hns. apply cached_repeat. exact Hns. Qed.

(** Without a cache an import is the transform of the resolved file for
    the type of the request, whatever was imported before: the store is
    neither read nor written. *)
Lemma import_without_cache options md w args store m :
  import (plugin_setup options md false empty_build) w args = Some m →
  run m store =
  (file <~ resolver_of options w args ;;
   transform options md w file (typeOf options args), store).
Proof.
  rewrite import_setup. cbv zeta. unfold resolver_of, load_callback. intros Hm.
  repeat case_match; simplify_eq; by rewrite run_lift.
Qed.

(** C31.  Two plugins that share a cache: an import that the first plugin
    stored is answered by the second with the result of the first, whatever
    the options, the module directory and the resolver of the second are, as
    long as the file is not newer than the entry. *)
Theorem shared_cache_crosses_plugins options1 md1 options2 md2 w1 w2 args store m1 m2 r store1 :
  import (plugin_setup options1 md1 true empty_build) w1 args = Some m1 →
  import (plugin_setup options2 md2 true empty_build) w2 args = Some m2 →
  entry_at store (resolveDir args) (path args) = None →
  run m1 store = (Normal r, store1) →
  (∀ entry, entry_at store1 (resolveDir args) (path args) = Some entry → fresh w2 entry) →
  run m2 store1 = (Normal r, store1).
Proof.
  intros (resolve1 & ->)%import_cached (resolve2 & ->)%import_cached He Hrun Hfresh.
  destruct (cached_miss_stored _ _ _ _ (load_args (resolve_callback args)) _ _ _ He Hrun)
    as (entry & He1 & <-).
  apply cached_fresh_run; [done|]. by apply Hfresh.
Qed.

(** Filling in the defaults twice is filling them in once. *)
Lemma with_defaults_idempotent proc given :
  with_defaults proc (with_defaults proc given) = with_defaults proc given.
Proof.
  unfold with_defaults. simpl.
  destruct (opt_basedir given) as [[|c s]|], (opt_picomatch given); simpl;
    try done; by destruct (process_cwd proc).
Qed.

(** C15.  The plugin with a cache and the plugin without one answer alike in
    a world that does not change: when no rule of the options looks at the
    importer and every file that was transformed can be stat'ed, a sequence
    of imports through the hooks of the plugin with a cache, started on the
    empty cache, completes import by import as the same sequence through the
    hooks of the plugin without a cache. *)
Theorem plugin_cache_transparent options md w requests store :
  forallb (λ rule, negb (reads_importer rule.2)) (rules_of (opt_type options)) = true →
  stat_follows (typeOf options) (resolver_of options) (transform options md) w →
  (run_imports (plugin_setup options md true empty_build) w requests ∅).1 =
  (run_imports (plugin_setup options md false empty_build) w requests store).1.
Proof.
  intros Hk%(plugin_key_stable _ w) Hstat.
  pose proof (settled_empty (typeOf options) (resolver_of options) (transform options md) w)
    as Hs.
  revert Hs. generalize (∅ : Store) as cache. revert store.
  induction requests as [|args rest IH]; intros store cache Hs; [done|].
  rewrite !run_imports_cons.
  pose proof (import_resolver options md true w args) as Hc.
  pose proof (import_resolver options md false w args) as Hu.
  destruct (import_taken options md true false w args) as [[mc [mu [Ec Eu]]]|[Ec Eu]];
    rewrite Ec, Eu in *; cbn [fst snd]; [|f_equal; by apply IH].
  rewrite (Hc _ eq_refl), (Hu _ eq_refl). unfold load_callback. rewrite run_lift. cbn [fst snd].
  destruct (load_settled _ _ _ w (load_args (resolve_callback args)) cache Hk Hstat Hs)
    as [Hr Hs'].
  unfold load in Hr, Hs'. rewrite Hr. f_equal. by apply IH.
Qed.

(** The defaults are written into the options object of the caller (lines 32
    and 35): an object that went through one construction keeps the base
    directory it got there in a second one, wherever the process then is. *)
Lemma with_defaults_sticky proc proc' given :
  truthy (process_cwd proc) = true →
  with_defaults proc' (with_defaults proc given) = with_defaults proc given.
Proof.
  intros Hcwd. unfold with_defaults. simpl.
  destruct (opt_basedir given) as [[|c s]|], (opt_picomatch given); simpl;
    by rewrite ?Hcwd.
Qed.

End plugin_properties.

Section plugin_paths.
Context `{PathLaws}.

(** With path functions that have the laws of [PathLaws], the module
    made for an import [p/name] that starts with "./" or "../" is resolved
    from the directory [p] of the resolve directory of the import: the
    directory the style sheet is in. *)
Lemma relative_import_resolve_dir options md w args p name r :
  path args = p +:+ "/" +:+ name → is_relative (path args) = true → plain name = true →
  typeOf options args ≠ "css" →
  (file <~ resolver_of options w args ;;
   transform options md w file (typeOf options args)) = Normal r →
  out_resolveDir r = Some (path_resolve (resolveDir args) p).
Proof.
  intros Hpath Hrel Hname Htype. unfold resolver_of. rewrite Hrel. simpl.
  intros (text & _ & ->)%transform_Normal. rewrite package_js by done. simpl.
  unfold pathResolve. rewrite Hpath, dirname_of_resolved; [done| |done].
  intros ->. by rewrite Hpath in Hrel.
Qed.

End plugin_paths.

(** ** Witnesses

    The plugin of the fixture, as [sassPlugin] builds it. *)

Definition demo_build : Build :=
  match sassPlugin demo_process demo_options with
  | Constructed plugin _ => setup plugin empty_build
  | Exit _ _ => empty_build
  end.

(** The import of [path] from the file [main.js] of [/project/src]. *)
Definition demo_import (files : Files) (path : string) (store : Store)
    : option (completion OnLoadResult * Store) :=
  (λ m : M Store OnLoadResult, run m store) <$>
  import demo_build (world_of files) (request "/project/src" path "/project/src/main.js").

(** The cache of the plugin of the fixture after the import of [path]. *)
Definition demo_import_store (path : string) : Store :=
  default ∅ (snd <$> demo_import demo_files path ∅).

Definition lost_process : Process := {|
  process_cwd := "/tmp";
  findModuleDirectory := λ _, None;
|}.

Example demo_import_examples :
  fst <$> demo_import demo_files "./a.css" ∅ =
    Some (Normal {| contents := "body{color:red}"; loader := Loader_css;
                    out_resolveDir := None |}) ∧
  fst <$> demo_import demo_files "./c.scss" ∅ =
    Some (Normal {| contents := "a{b:c}"; loader := Loader_css; out_resolveDir := None |}) ∧
  fst <$> demo_import demo_files "pkg/d.scss" ∅ =
    Some (Normal {| contents := "p{q:$r}"; loader := Loader_css; out_resolveDir := None |}) ∧
  fst <$> demo_import demo_files "nowhere/e.scss" ∅ =
    Some (Throw (ResolutionError "nowhere/e.scss")) ∧
  demo_import demo_files "./main.js" ∅ = None.
Proof. by vm_compute. Qed.

Lemma plugin_cache_shaped_witness :
  store_all entry_shaped
    (run (load_callback (with_defaults demo_process demo_options) "/project/node_modules" true
            (λ _ args, Normal (pathResolve args)) (world_of demo_files)
            (load_request "/project/src" "./b.scss" "/project/src/main.js")) ∅).2.
Proof.
  apply (plugin_cache_shaped (with_defaults demo_process demo_options)
           "/project/node_modules" ∅).
  - intros dir file entry. unfold entry_at. by rewrite lookup_empty.
  - apply rtc_once.
    exact (plugin_step_import _ _ (world_of demo_files)
             (request "/project/src" "./b.scss" "/project/src/main.js") _ ∅ eq_refl).
Defined.

Lemma import_first_load_witness :
  (run (load_callback (with_defaults demo_process demo_options) "/project/node_modules" true
          (requireResolve (with_defaults demo_process demo_options)) (world_of demo_files)
          (load_request "/project/src" "pkg/d.scss" "/project/src/main.js")) ∅).1 =
  Normal {| contents := "p{q:$r}"; loader := Loader_css; out_resolveDir := None |}.
Proof.
  apply (import_first_load (with_defaults demo_process demo_options) "/project/node_modules"
           (world_of demo_files) (request "/project/src" "pkg/d.scss" "/project/src/main.js") ∅).
  - done.
  - done.
  - intros file [= <-]. done.
Defined.

Lemma import_again_witness :
  run (load_callback (with_defaults demo_process demo_options) "/project/node_modules" true
         (λ _ args, Normal (pathResolve args)) (world_of demo_files)
         (load_request "/project/src" "./a.css" "/project/src/main.js"))
    (demo_import_store "./a.css") =
  (Normal {| contents := "body{color:red}"; loader := Loader_css; out_resolveDir := None |},
   demo_import_store "./a.css").
Proof.
  apply (import_again (with_defaults demo_process demo_options) "/project/node_modules"
           (world_of demo_files) (request "/project/src" "./a.css" "/project/src/main.js") ∅).
  - done.
  - by intros entry [=].
  - by vm_compute.
Defined.

Lemma import_without_cache_witness :
  run (load_callback demo_options "/project/node_modules" false
         (λ _ args, Normal (pathResolve args)) (world_of demo_files)
         (load_request "/project/src" "./a.css" "/project/src/main.js")) demo_store =
  (Normal {| contents := "body{color:red}"; loader := Loader_css; out_resolveDir := None |},
   demo_store).
Proof.
  exact (import_without_cache demo_options "/project/node_modules" (world_of demo_files)
           (request "/project/src" "./a.css" "/project/src/main.js") demo_store
           (load_callback demo_options "/project/node_modules" false
              (λ _ args, Normal (pathResolve args)) (world_of demo_files)
              (load_request "/project/src" "./a.css" "/project/src/main.js"))
           eq_refl).
Defined.

Lemma sassPlugin_exits_witness :
  sassPlugin lost_process demo_options =
  Exit "Unable to find 'node_modules' from: /project" 1.
Proof. exact (sassPlugin_exits lost_process demo_options eq_refl). Defined.


(** The options of a second plugin, which packages every file as a style
    module. *)
Definition style_options : Index := {|
  opt_basedir := Some "/project";
  opt_cache := CacheTruthy;
  opt_type := TypeString "style";
  opt_includePaths := None;
  opt_picomatch := None;
  opt_importer := None;
|}.

Lemma shared_cache_crosses_plugins_witness :
  run (load_callback (with_defaults demo_process style_options) "/project/node_modules" true
         (λ _ args, Normal (pathResolve args)) (world_of demo_files)
         (load_request "/project/src" "./a.css" "/project/src/main.js"))
    (demo_import_store "./a.css") =
  (Normal {| contents := "body{color:red}"; loader := Loader_css; out_resolveDir := None |},
   demo_import_store "./a.css").
Proof.
  apply (shared_cache_crosses_plugins
           (with_defaults demo_process demo_options) "/project/node_modules"
           (with_defaults demo_process style_options) "/project/node_modules"
           (world_of demo_files) (world_of demo_files)
           (request "/project/src" "./a.css" "/project/src/main.js") ∅
           (load_callback (with_defaults demo_process demo_options) "/project/node_modules" true
              (λ _ args, Normal (pathResolve args)) (world_of demo_files)
              (load_request "/project/src" "./a.css" "/project/src/main.js"))).
  - done.
  - done.
  - done.
  - by vm_compute.
  - intros entry [= <-]. by exists 10%Z.
Defined.

(** On its own cache the second plugin answers with a style module. *)
Example style_plugin_alone :
  cmap loader
  (run (load_callback (with_defaults demo_process style_options) "/project/node_modules" true
          (λ _ args, Normal (pathResolve args)) (world_of demo_files)
          (load_request "/project/src" "./a.css" "/project/src/main.js")) ∅).1 =
  Normal Loader_js.
Proof. by vm_compute. Qed.

(** In the fixture a file that was transformed can be stat'ed. *)
Lemma demo_plugin_stat_follows options md files :
  stat_follows (typeOf options) (resolver_of options) (transform options md) (world_of files).
Proof.
  intros largs file r _ (text & Hread & _)%transform_Normal. revert Hread.
  unfold read_contents, renderSync. simpl. destruct (endsWith file ".css").
  - apply demo_read_stat.
  - apply (demo_sass_stat files (sass_call options md file)).
Qed.

Lemma plugin_cache_transparent_witness :
  (run_imports (plugin_setup (with_defaults demo_process demo_options)
                  "/project/node_modules" true empty_build)
     (world_of demo_files)
     [request "/project/src" "./a.css" "/project/src/main.js";
      request "/project/src" "./main.js" "/project/src/main.js";
      request "/project/src" "pkg/d.scss" "/project/src/main.js";
      request "/project/src" "./a.css" "/project/src/widget.js"] ∅).1 =
  (run_imports (plugin_setup (with_defaults demo_process demo_options)
                  "/project/node_modules" false empty_build)
     (world_of demo_files)
     [request "/project/src" "./a.css" "/project/src/main.js";
      request "/project/src" "./main.js" "/project/src/main.js";
      request "/project/src" "pkg/d.scss" "/project/src/main.js";
      request "/project/src" "./a.css" "/project/src/widget.js"] ∅).1.
Proof.
  apply (plugin_cache_transparent (with_defaults demo_process demo_options)
           "/project/node_modules" (world_of demo_files)).
  - done.
  - apply demo_plugin_stat_follows.
Defined.

Lemma relative_import_resolve_dir_witness :
  out_resolveDir
    (package (H := node_libs "/w" demo_picomatch) "/project/src/b.scss" "style"
       "body{color:red}") = Some "/project/src".
Proof.
  apply (relative_import_resolve_dir (H0 := node_path_laws "/w" demo_picomatch eq_refl)
           style_options "/project/node_modules" (world_of demo_files)
           (request "/project/src" "./sub/../b.scss" "/project/src/main.js")
           "./sub/.." "b.scss"); [done..|by vm_compute].
Defined.
