(* ===== verification/NodePlugin.v ===== *)
(** * NodePlugin: the plugin with the paths of Node

    [sassPlugin] and its importer with the libraries of [Utils] in the place
    of the interfaces: the module directory is the one [findModuleDirectory]
    finds from [options.basedir] when the plugin is made (plugin.ts line 84),
    and the importer (lines 92-95) makes its URL for that directory whichever
    file imports.  With the file system of [NodeFs], the construction finds
    the [node_modules] that holds a file. *)

From S2P Require Import Prelude JsString Posix Utils NodeFs Host Fixture Paths Transform Plugin.

Local Open Scope js_scope.

(** ** Definitions *)

(** The base directory after line 32: the option when it is truthy, the
    working directory otherwise. *)
Definition basedir_of (cwd : string) (given : Index) : string :=
  if truthy_opt (opt_basedir given) then default "" (opt_basedir given) else cwd.

(** A project with a package that has modules of its own. *)
Definition nested_modules : string → bool :=
  existing ["/project/node_modules"; "/project/packages/ui/node_modules"].

(** ** Lemmas *)

Section node.
Context (exist : string → bool) (cwd : string).
Context (pm : string → option PicomatchOptions → string → bool).

#[local] Instance libs : Libs := node_libs cwd pm.

Lemma findModuleDirectory_node given :
  findModuleDirectory (node_process exist cwd) (with_defaults (node_process exist cwd) given) =
  find_module_directory exist cwd (basedir_of cwd given).
Proof. unfold basedir_of. simpl. by destruct (opt_basedir given) as [[]|]. Qed.

(** ** Properties *)

(** C27.  With the helper that walks up the directories, the construction of
    the plugin ends the process, with code 1 and a message that names the
    base directory, exactly when no directory from the base directory
    upwards has a [node_modules]; otherwise the plugin is set up with the
    nearest one. *)
Theorem sassPlugin_on_node given :
  let up n := module_root cwd (Nat.iter n Posix.posix_dirname (basedir_of cwd given)) in
  match sassPlugin (node_process exist cwd) given with
  | Exit msg code =>
      msg = "Unable to find 'node_modules' from: " +:+ basedir_of cwd given ∧ code = 1%Z ∧
      ∀ n, exist (up n) = false
  | Constructed plugin cache =>
      ∃ n, exist (up n) = true ∧ (∀ m, m < n → exist (up m) = false) ∧
           setup plugin =
           plugin_setup (with_defaults (node_process exist cwd) given) (up n)
             (bool_decide (is_Some cache))
  end.
Proof.
  intros up. unfold sassPlugin. cbv zeta. rewrite findModuleDirectory_node.
  destruct (find_module_directory _ _ _) as [md|] eqn:Hfind.
  - apply find_module_directory_nearest in Hfind as (n & -> & Hex & Hmin).
    simpl. by exists n.
  - simpl. split_and!; [unfold basedir_of; by destruct (opt_basedir given) as [[]|]|done|].
    by apply find_module_directory_None.
Qed.

(** C26.  The importer takes a tilde to the module directory that was found
    from the base directory when the plugin was made, also in a file from
    whose directory a nearer [node_modules] is found: the file it names is
    the rest of the URL in the former and not in the latter. *)
Theorem tilde_import_skips_nearer_modules basedir prev rest md md' :
  is_absolute cwd = true →
  find_module_directory exist cwd basedir = Some md →
  find_module_directory exist cwd (Posix.posix_dirname prev) = Some md' →
  md ≠ md' →
  Forall (λ seg, plain seg = true) (split_slash rest) →
  lacks "$" (module_relative_url cwd (Posix.posix_dirname prev) md) = true →
  ∃ file, plugin_importer md (String "~" rest) prev = ImportFile file ∧
          posix_resolve cwd (Posix.posix_dirname prev) file =
            posix_resolve cwd md ("./" +:+ rest) ∧
          posix_resolve cwd (Posix.posix_dirname prev) file ≠
            posix_resolve cwd md' ("./" +:+ rest).
Proof.
  intros Hcwd (n & -> & _)%find_module_directory_nearest
    (n' & -> & _)%find_module_directory_nearest Hne Hrest Hd.
  eexists. split; [by apply plugin_importer_tilde|]. simpl.
  rewrite module_url_resolves by done. split; [done|].
  intros Heq%resolve_in_dir_inj; [|done..]. by rewrite !module_root_normal in Heq.
Qed.

End node.

(** On a file system in which the [node_modules] of the base directory holds
    a file, the plugin is constructed. *)
Theorem sassPlugin_with_modules cwd pm (fs : FileSystem) given name :
  plain name = true →
  is_Some (fs !! locate cwd (module_root cwd (basedir_of cwd given) +:+ "/" +:+ name)) →
  ∃ plugin cache,
    sassPlugin (H := node_libs cwd pm) (node_process (exists_sync cwd fs) cwd) given =
    Constructed plugin cache.
Proof.
  intros Hn Hf. unfold sassPlugin. cbv zeta. rewrite findModuleDirectory_node.
  destruct (find_module_directory _ _ _) as [md|] eqn:Hfind.
  - apply find_module_directory_nearest in Hfind as (n & -> & _). simpl. eauto.
  - pose proof (proj1 (find_module_directory_None _ _ _) Hfind 0) as Hnone. simpl in Hnone.
    by rewrite (exists_sync_parent cwd fs _ name) in Hnone.
Qed.

(** ** Witnesses *)

Example sassPlugin_on_node_examples :
  (∃ plugin, sassPlugin (H := node_libs "/w" (λ _ _ _, false))
               (node_process nested_modules "/project/packages/ui") demo_options =
             Constructed plugin (Some ∅)) ∧
  sassPlugin (H := node_libs "/w" (λ _ _ _, false))
    (node_process (existing ["/project/node_modules"]) "/elsewhere/app")
    {| opt_basedir := None; opt_cache := CacheFalsy; opt_type := TypeAbsent;
       opt_includePaths := None; opt_picomatch := None; opt_importer := None |} =
  Exit "Unable to find 'node_modules' from: /elsewhere/app" 1.
Proof. split; [eexists|]; by vm_compute. Qed.

Lemma tilde_import_skips_nearer_modules_witness :
  ∃ file,
    plugin_importer (H := node_libs "/w" (λ _ _ _, false)) "/project/node_modules"
      "~bootstrap/scss/bootstrap" "/project/packages/ui/src/app.scss" = ImportFile file ∧
    posix_resolve "/w" "/project/packages/ui/src" file =
      "/project/node_modules/bootstrap/scss/bootstrap" ∧
    posix_resolve "/w" "/project/packages/ui/src" file ≠
      "/project/packages/ui/node_modules/bootstrap/scss/bootstrap".
Proof.
  apply (tilde_import_skips_nearer_modules nested_modules "/w" (λ _ _ _, false) "/project"
           "/project/packages/ui/src/app.scss" "bootstrap/scss/bootstrap"
           "/project/node_modules" "/project/packages/ui/node_modules");
    [done..|by repeat constructor|done].
Defined.

Lemma sassPlugin_with_modules_witness :
  ∃ plugin cache,
    sassPlugin (H := node_libs "/w" (λ _ _ _, false))
      (node_process (exists_sync "/w" project_fs) "/w")
      {| opt_basedir := Some "/project"; opt_cache := CacheFalsy; opt_type := TypeAbsent;
         opt_includePaths := None; opt_picomatch := None; opt_importer := None |} =
    Constructed plugin cache.
Proof.
  apply (sassPlugin_with_modules "/w" _ project_fs _ "normalize.css"); [done|by eexists].
Defined.
