(* ===== verification/NodeBuild.v ===== *)
(** * NodeBuild: imports on a file system

    The hooks of the plugin with every library but the compiler in its
    place: the paths of [Posix], the helpers of [Utils], and the file system
    and module lookup of [NodeFs].  What an import returns is then a
    function of the files: the theorems give it for an import that starts
    with [./] or [../] (lines 75-77 and 164), for an import of a module
    (lines 79-82 and 165), and for an import that is repeated after another
    file was written (lines 128-136). *)

From S2P Require Import Prelude JsString Posix Utils NodeFs Host Fixture Paths.
From S2P Require Import ModuleBuilder Matcher Resolver Transform Filters Cache Plugin.

Local Open Scope js_scope.

(** ** Definitions *)

(** A compiler is well behaved when it compiles no file that is not there. *)
Definition compiles_files (cwd : string) (sass : FileSystem → SassCall → completion string)
    : Prop :=
  ∀ fs call css, sass fs call = Normal css → is_Some (fs !! locate cwd (sass_file call)).

(** A stand-in for the compiler that knows one construct: a file whose text
    is [@import url] compiles to the text of the file its importer names,
    looked up from the directory of the file; any other file compiles to its
    own text.  It is used by the witnesses only. *)
Definition import_sass (cwd : string) (fs : FileSystem) (call : SassCall) : completion string :=
  text <~ of_option (CompileError (sass_file call)) (snd <$> fs !! locate cwd (sass_file call)) ;;
  match strip_prefix "@import " text with
  | Some url =>
      match sass_importer call url (sass_file call) with
      | ImportFile f =>
          of_option (CompileError f)
            (snd <$> fs !! posix_resolve cwd (Posix.posix_dirname (sass_file call)) f)
      | ImportContents t => Normal t
      | ImportNull => Throw (CompileError url)
      end
  | None => Normal text
  end.

(** Options without rules, for the type ["style"]. *)
Definition node_options : Index := {|
  opt_basedir := Some "/project";
  opt_cache := CacheTruthy;
  opt_type := TypeString "style";
  opt_includePaths := Some ["/shared/styles"];
  opt_picomatch := None;
  opt_importer := None;
|}.

(** ** Lemmas *)

Section build.
Context (cwd : string) (pm : string → option PicomatchOptions → string → bool).
Context (sass : FileSystem → SassCall → completion string).
Implicit Types (fs : FileSystem) (options : Index) (args : OnResolveArgs) (store : Store).

#[local] Instance build_libs : Libs := node_libs cwd pm.

(** The transform of a file that is there: its text, or what the compiler
    makes of it, packaged for the type. *)
Lemma transform_on_node options md fs file mtime text type :
  fs !! file = Some (mtime, text) → locate cwd file = file →
  transform options md (node_world cwd sass fs) file type =
  cmap (package file type)
       (if endsWith file ".css" then Normal text else sass fs (sass_call options md file)).
Proof.
  intros Hf Hl. unfold transform, read_contents, renderSync. simpl.
  destruct (endsWith file ".css"); [|done]. unfold read_file_sync. by rewrite Hl, Hf.
Qed.

(** What a resolver answers is a path in normal form. *)
Lemma resolver_of_located options fs args file :
  resolver_of options (node_world cwd sass fs) args = Normal file → locate cwd file = file.
Proof.
  unfold resolver_of. destruct (is_relative (path args)).
  - intros [= <-]. apply locate_resolved.
  - by intros [_ ?]%require_resolve_node_file.
Qed.

(** With a well-behaved compiler a file that was transformed can be
    stat'ed. *)
Lemma transform_stat options md fs file type r :
  compiles_files cwd sass →
  transform options md (node_world cwd sass fs) file type = Normal r →
  is_Normal (statSync (node_world cwd sass fs) file) = true.
Proof.
  intros Hsass (text & Hread & _)%transform_Normal. revert Hread.
  unfold read_contents, renderSync. simpl. destruct (endsWith file ".css").
  - apply read_stat.
  - intros [[mtime t] Hf]%Hsass. unfold stat_sync. simpl in Hf. by rewrite Hf.
Qed.

(** A first load through the hooks, whichever resolver it takes. *)
Lemma import_miss options md fs args store m :
  import (plugin_setup options md true empty_build) (node_world cwd sass fs) args = Some m →
  entry_at store (resolveDir args) (path args) = None →
  run m store =
  let w := node_world cwd sass fs in
  let largs := load_args (resolve_callback args) in
  match resolver_of options w args with
  | Throw e => (Throw e, with_group store largs)
  | Normal file =>
      match transform options md w file (typeOf options args) with
      | Throw e => (Throw e, with_group store largs)
      | Normal r =>
          match stat_sync cwd fs file with
          | Throw e => (Throw e, with_group store largs)
          | Normal mtime =>
              (Normal r, store_entry store largs
                 {| filename := file; type := typeOf options args; mtimeMs := mtime;
                    result := r |})
          end
      end
  end.
Proof.
  intros Hm He. rewrite (import_resolver _ _ _ _ _ _ Hm). unfold load_callback.
  rewrite cached_unfold. cbv zeta. unfold entry_of. simpl. by rewrite He.
Qed.

(** ** Properties *)

(** A module is looked up from the resolve directory of the import
    first: what is found in the [node_modules] of that directory or of a
    directory above it is the answer, whatever the include paths are, and
    the include paths are tried, in their order, only when nothing is found
    there. *)
Theorem requireResolve_order options fs args :
  is_absolute (path args) = false →
  requireResolve options (node_world cwd sass fs) args =
  match first_file fs (candidates cwd (path args) [resolveDir args]) with
  | Some file => Normal file
  | None => require_resolve_node cwd fs (path args) (default [] (opt_includePaths options))
  end.
Proof.
  intros Ha. unfold requireResolve, lookup_paths. simpl. unfold require_resolve_node.
  replace (match opt_includePaths options with
           | Some includePaths => resolveDir args :: includePaths
           | None => [resolveDir args]
           end) with ([resolveDir args] ++ default [] (opt_includePaths options))
    by by destruct (opt_includePaths options).
  rewrite candidates_app, first_file_app by done. by destruct (first_file fs (candidates _ _ [_])).
Qed.

(** C28.  An import that starts with [./] or [../] and ends in [.scss],
    [.sass] or [.css], of a file that is there and not yet in the cache: the
    hooks take it, and it returns the text of the file (for [.css]) or what
    the compiler makes of it (otherwise), packaged for the type of the
    request; when it returns, the cache holds the file, the type, the
    modification time of the file and the result under the resolve directory
    and the path of the import. *)
Theorem import_relative_on_node options md fs args store mtime text :
  is_relative (path args) = true → is_stylesheet (path args) = true →
  entry_at store (resolveDir args) (path args) = None →
  fs !! posix_resolve cwd (resolveDir args) (path args) = Some (mtime, text) →
  let file := posix_resolve cwd (resolveDir args) (path args) in
  ∃ m, import (plugin_setup options md true empty_build) (node_world cwd sass fs) args = Some m ∧
       (run m store).1 =
         cmap (package file (typeOf options args))
              (if endsWith file ".css" then Normal text
               else sass fs (sass_call options md file)) ∧
       ∀ r, (run m store).1 = Normal r →
            entry_at (run m store).2 (resolveDir args) (path args) =
            Some {| filename := file; type := typeOf options args; mtimeMs := mtime;
                    result := r |}.
Proof.
  intros Hrel Hs He Hf file. change (fs !! file = Some (mtime, text)) in Hf.
  pose proof (import_setup options md true (node_world cwd sass fs) args) as Him.
  cbv zeta in Him. rewrite Hs, Hrel in Him. eexists. split; [exact Him|].
  rewrite (import_miss _ _ _ _ _ _ Him He). cbv zeta. unfold resolver_of. rewrite Hrel.
  change (pathResolve args) with file.
  assert (locate cwd file = file) as Hl by apply locate_resolved.
  rewrite (transform_on_node _ _ _ _ _ _ _ Hf Hl). unfold stat_sync. rewrite Hl, Hf. simpl.
  destruct (if endsWith file ".css" then _ else _) as [css|e]; simpl; [|done].
  split; [done|]. intros r [= <-].
  exact (entry_of_store_entry store (load_args (resolve_callback args)) _).
Qed.

(** An import of a module that ends in [.scss], [.sass] or [.css] and
    is not yet in the cache: the hooks take it, and it returns the transform
    of the first candidate that is a file, the [node_modules] above the
    resolve directory first and those above the include paths after, or it
    throws a resolution error when no candidate is a file. *)
Theorem import_module_on_node options md fs args store :
  is_relative (path args) = false → is_stylesheet (path args) = true →
  entry_at store (resolveDir args) (path args) = None →
  ∃ m, import (plugin_setup options md true empty_build) (node_world cwd sass fs) args = Some m ∧
       (run m store).1 =
       match first_file fs (candidates cwd (path args)
                              (resolveDir args :: default [] (opt_includePaths options))) with
       | Some file => transform options md (node_world cwd sass fs) file (typeOf options args)
       | None => Throw (ResolutionError (path args))
       end.
Proof.
  intros Hrel Hs He.
  pose proof (import_setup options md true (node_world cwd sass fs) args) as Him.
  pose proof (relative_or_other (path args)) as Ho. rewrite Hrel in Ho. simpl in Ho.
  cbv zeta in Him. rewrite Hs, Hrel, Ho in Him by (apply is_stylesheet_length in Hs; lia).
  eexists. split; [exact Him|].
  rewrite (import_miss _ _ _ _ _ _ Him He). cbv zeta. unfold resolver_of. rewrite Hrel.
  unfold requireResolve, lookup_paths. simpl. unfold require_resolve_node.
  replace (match opt_includePaths options with
           | Some includePaths => resolveDir args :: includePaths
           | None => [resolveDir args]
           end) with (resolveDir args :: default [] (opt_includePaths options))
    by by destruct (opt_includePaths options).
  destruct (first_file fs _) as [file|] eqn:Hfile; simpl; [|done].
  destruct (transform _ _ _ _ _) as [r|e]; [|done].
  apply first_file_Some in Hfile as (i & Hi & [[mtime text] Hf] & _).
  pose proof (Forall_lookup_1 _ _ _ _ (candidates_located cwd _ _) Hi) as Hl.
  unfold stat_sync. simpl in Hl. by rewrite Hl, Hf.
Qed.

(** C20.  The cache looks at the file of the request only.  After a first
    load, a write to another file, one the style sheet imports for instance,
    is not seen: the import returns the result of the first load again,
    whatever the compiler makes of the files as they then are. *)
Theorem imported_file_change_unseen options md fs args store dep mtime text m m' file r :
  import (plugin_setup options md true empty_build) (node_world cwd sass fs) args = Some m →
  import (plugin_setup options md true empty_build)
    (node_world cwd sass (write_file cwd dep mtime text fs)) args = Some m' →
  entry_at store (resolveDir args) (path args) = None →
  resolver_of options (node_world cwd sass fs) args = Normal file →
  locate cwd dep ≠ file →
  (run m store).1 = Normal r →
  run m' (run m store).2 = (Normal r, (run m store).2).
Proof.
  intros Hm Hm' He Hfile Hdep. pose proof (resolver_of_located _ _ _ _ Hfile) as Hl.
  rewrite (import_miss _ _ _ _ _ _ Hm He). cbv zeta. rewrite Hfile.
  destruct (transform _ _ _ _ _) as [r'|]; [|done].
  destruct (stat_sync cwd fs file) as [mtime0|] eqn:Hstat; [|done]. intros [= ->].
  rewrite (import_resolver _ _ _ _ _ _ Hm'). unfold load_callback. cbn [snd].
  set (entry := {| filename := file; type := typeOf options args; mtimeMs := mtime0;
                   result := r |}).
  rewrite (cached_fresh_run _ _ _ _ (load_args (resolve_callback args)) _ entry);
    [done|apply entry_of_store_entry|].
  exists mtime0. simpl. split; [|lia].
  rewrite <-Hl in Hdep. by rewrite stat_write_file_other.
Qed.


End build.

(** ** Witnesses *)

Definition project_world (fs : FileSystem) : World := node_world "/w" (import_sass "/w") fs.

Definition ui_request (p : string) : OnResolveArgs :=
  request "/project/packages/ui/src" p "/project/packages/ui/src/main.js".

(** The plugin of the project: its module directory is the one of the base
    directory. *)
Definition project_import (fs : FileSystem) (p : string) : option (M Store OnLoadResult) :=
  import
    (plugin_setup (H := node_libs "/w" demo_picomatch) node_options "/project/node_modules" true
       empty_build)
    (project_world fs) (ui_request p).

Example project_import_examples :
  (λ m, (run m ∅).1) <$> project_import project_fs "./theme.css" =
    Some (Normal {| contents := makeModule "body{color:red}" "style"; loader := Loader_js;
                    out_resolveDir := Some "/project/packages/ui/src" |}) ∧
  (λ m, (run m ∅).1) <$> project_import project_fs "./app.scss" =
    Some (Normal {| contents := makeModule "b{}" "style"; loader := Loader_js;
                    out_resolveDir := Some "/project/packages/ui/src" |}) ∧
  (λ m, (run m ∅).1) <$> project_import project_fs "bootstrap/scss/bootstrap.scss" =
    Some (Normal {| contents := makeModule "ui{}" "style"; loader := Loader_js;
                    out_resolveDir :=
                      Some "/project/packages/ui/node_modules/bootstrap/scss" |}) ∧
  (λ m, (run m ∅).1) <$> project_import project_fs "mixins.scss" =
    Some (Throw (ResolutionError "mixins.scss")) ∧
  (λ m, (run m ∅).1) <$> project_import project_fs "./missing.scss" =
    Some (Throw (CompileError "/project/packages/ui/src/missing.scss")) ∧
  project_import project_fs "./app.js" = None.
Proof. by vm_compute. Qed.

(** The construction on the files of the project finds the modules of the
    base directory. *)
Example project_plugin :
  ∃ setup_,
    sassPlugin (H := node_libs "/w" demo_picomatch)
      (node_process (exists_sync "/w" project_fs) "/w") node_options =
    Constructed {| name := "sass-plugin"; setup := setup_ |} (Some ∅) ∧
    find_module_directory (exists_sync "/w" project_fs) "/w" "/project" =
    Some "/project/node_modules".
Proof. eexists. split; by vm_compute. Qed.

Lemma requireResolve_order_witness :
  requireResolve node_options (project_world project_fs) (ui_request "normalize.css") =
  Normal "/project/node_modules/normalize.css".
Proof.
  exact (requireResolve_order "/w" (import_sass "/w") node_options project_fs
           (ui_request "normalize.css") eq_refl).
Defined.

Lemma import_relative_on_node_witness :
  ∃ m, project_import project_fs "./theme.css" = Some m ∧
       (run m ∅).1 =
         Normal (package (H := node_libs "/w" demo_picomatch)
                   "/project/packages/ui/src/theme.css" "style" "body{color:red}") ∧
       ∀ r, (run m ∅).1 = Normal r →
            entry_at (run m ∅).2 "/project/packages/ui/src" "./theme.css" =
            Some {| filename := "/project/packages/ui/src/theme.css"; type := "style";
                    mtimeMs := 5; result := r |}.
Proof.
  exact (import_relative_on_node "/w" demo_picomatch (import_sass "/w") node_options
           "/project/node_modules" project_fs (ui_request "./theme.css") ∅ 5 "body{color:red}"
           eq_refl eq_refl eq_refl eq_refl).
Defined.

Lemma import_module_on_node_witness :
  ∃ m, project_import project_fs "bootstrap/scss/bootstrap.scss" = Some m ∧
       (run m ∅).1 =
       transform (H := node_libs "/w" demo_picomatch) node_options "/project/node_modules"
         (project_world project_fs)
         "/project/packages/ui/node_modules/bootstrap/scss/bootstrap.scss" "style".
Proof.
  exact (import_module_on_node "/w" demo_picomatch (import_sass "/w") node_options
           "/project/node_modules" project_fs (ui_request "bootstrap/scss/bootstrap.scss") ∅
           eq_refl eq_refl eq_refl).
Defined.

(** The module of [bootstrap] that [app.scss] imports is rewritten. *)
Definition project_fs_edited : FileSystem :=
  write_file "/w" "/project/node_modules/bootstrap/scss/bootstrap.scss" 9 "b{color:blue}"
    project_fs.

Lemma imported_file_change_unseen_witness :
  ∃ m m', project_import project_fs "./app.scss" = Some m ∧
          project_import project_fs_edited "./app.scss" = Some m' ∧
          (run m' (run m ∅).2).1 =
            Normal (package (H := node_libs "/w" demo_picomatch)
                      "/project/packages/ui/src/app.scss" "style" "b{}") ∧
          (run m' ∅).1 =
            Normal (package (H := node_libs "/w" demo_picomatch)
                      "/project/packages/ui/src/app.scss" "style" "b{color:blue}").
Proof.
  eexists _, _. split_and!; [done|done| |by vm_compute].
  rewrite (imported_file_change_unseen "/w" demo_picomatch (import_sass "/w") node_options
             "/project/node_modules" project_fs (ui_request "./app.scss") ∅
             "/project/node_modules/bootstrap/scss/bootstrap.scss" 9 "b{color:blue}" _ _
             "/project/packages/ui/src/app.scss"
             (package (H := node_libs "/w" demo_picomatch)
                "/project/packages/ui/src/app.scss" "style" "b{}"));
    [done..|by vm_compute].
Defined.


Example include_path_file_not_found :
  is_Some (project_fs !! "/shared/styles/mixins.scss") ∧
  requireResolve node_options (project_world project_fs) (ui_request "mixins.scss") =
  Throw (ResolutionError "mixins.scss").
Proof. split; [by eexists|by vm_compute]. Qed.
