(* ===== verification/Session.v ===== *)
(** * Session: imports and writes, interleaved

    A build that watches its files: between the imports that the host asks
    of the plugin, files are written.  The state is the file system together
    with the cache of the plugin, and a step is a write to a file or an
    import through the hooks (plugin.ts lines 110-166) in the file system as
    it then is.  A write moves the modification time of its file forward.

    The file proves, by induction on the steps, what the freshness test of
    line 131 can rely on: an entry is never newer than its file, and an
    entry of a [.css] file that has the modification time of its file holds
    the text the file has now.  A fresh hit on a [.css] file therefore
    returns the file as it is.  For a compiled file there is no such
    theorem: [NodeBuild.imported_file_change_unseen]. *)

From S2P Require Import Prelude JsString Posix Utils NodeFs Host Fixture Paths.
From S2P Require Import ModuleBuilder Matcher Resolver Transform Filters Cache Plugin NodeBuild.

Local Open Scope js_scope.

(** ** Definitions *)

Section session.
Context (cwd : string) (pm : string → option PicomatchOptions → string → bool).
Context (sass : FileSystem → SassCall → completion string).
Context (options : Index) (moduleDirectory : string).

#[local] Hint Extern 0 Libs => exact (build_libs cwd pm) : typeclass_instances.

(** A write at [mtime] comes after the last write to the same file. *)
Definition later_write (fs : FileSystem) (p : string) (mtime : Z) : Prop :=
  ∀ before text, fs !! locate cwd p = Some (before, text) → (before < mtime)%Z.

(** One step of a session, on the file system and the cache. *)
Inductive session_step : FileSystem * Store → FileSystem * Store → Prop :=
| session_write fs store p mtime text :
    later_write fs p mtime →
    session_step (fs, store) (write_file cwd p mtime text fs, store)
| session_import fs store args m :
    import (plugin_setup options moduleDirectory true empty_build) (node_world cwd sass fs) args
      = Some m →
    session_step (fs, store) (fs, (run m store).2).

(** The entry is of a file that is there and is not newer than the file;
    when it is as new as a [.css] file, it holds the text of the file. *)
Definition entry_current (fs : FileSystem) (entry : CachedResult) : Prop :=
  locate cwd (filename entry) = filename entry ∧
  ∃ mtime text,
    fs !! filename entry = Some (mtime, text) ∧ (mtimeMs entry ≤ mtime)%Z ∧
    (mtimeMs entry = mtime → endsWith (filename entry) ".css" = true →
     result entry = package (filename entry) (type entry) text).

(** ** Lemmas *)

Implicit Types (fs : FileSystem) (store : Store) (entry : CachedResult) (args : OnResolveArgs).

(** A load that stores nothing keeps what holds of every entry. *)
Local Ltac kept Hall := simpl; rewrite entry_at_with_group; apply Hall.

Lemma entry_current_write fs entry p mtime text :
  later_write fs p mtime → entry_current fs entry →
  entry_current (write_file cwd p mtime text fs) entry.
Proof.
  intros Hlater (Hl & m & t & Hf & Hle & Hcss). split; [done|].
  rewrite lookup_write_file. case_decide as Hp; [|by eauto].
  exists mtime, text. rewrite <-Hp in Hf. specialize (Hlater _ _ Hf).
  split_and!; [done|lia|lia].
Qed.

(** A load keeps the entries current. *)
Lemma cached_entry_current fs store resolve largs :
  (∀ file, resolve (pluginData largs) = Normal file → locate cwd file = file) →
  store_all (entry_current fs) store →
  store_all (entry_current fs)
    (run (cached (node_world cwd sass fs) (typeOf options) resolve
            (transform options moduleDirectory (node_world cwd sass fs)) largs) store).2.
Proof.
  intros Hres Hall d f entry. rewrite cached_unfold. cbv zeta.
  destruct (entry_of store largs) as [old|] eqn:Hold.
  - destruct (Hall _ _ _ Hold) as (Hl & m & t & Hf & Hle & Hcss).
    simpl. unfold stat_sync. rewrite Hl, Hf. simpl.
    destruct (Z.leb_spec m (mtimeMs old)); [kept Hall|].
    destruct (transform _ _ _ _ _) as [r|]; [|kept Hall].
    simpl. rewrite entry_at_store_entry. case_decide; [|apply Hall]. intros [= <-].
    split; [done|]. exists m, t. simpl. split_and!; [done|done|lia].
  - destruct (resolve _) as [file|] eqn:Hfile; [|kept Hall].
    destruct (transform _ _ _ _ _) as [r|] eqn:Hr; [|kept Hall].
    simpl. destruct (stat_sync cwd fs file) as [mtime|] eqn:Hstat; [|kept Hall].
    simpl. rewrite entry_at_store_entry. case_decide; [|apply Hall]. intros [= <-].
    pose proof (Hres _ eq_refl) as Hl. apply stat_sync_Normal in Hstat as [text Hf].
    rewrite Hl in Hf. split; [done|]. exists mtime, text. simpl. split_and!; [done|done|].
    intros _ Hcss. rewrite (transform_on_node _ _ _ _ _ _ _ _ _ _ Hf Hl), Hcss in Hr.
    by injection Hr as <-.
Qed.

(** A step keeps the entries current. *)
Lemma session_step_current s s' :
  session_step s s' → store_all (entry_current s.1) s.2 → store_all (entry_current s'.1) s'.2.
Proof.
  intros [fs store p mtime text Hlater|fs store args m Hm]; simpl; intros Hall.
  - intros d f entry He. by apply entry_current_write, (Hall d f).
  - destruct (import_cached _ _ _ _ _ Hm) as [resolve ->].
    pose proof (import_resolver _ _ _ _ _ _ Hm) as Hrun. unfold load_callback in Hrun.
    intros d f entry. rewrite Hrun. apply cached_entry_current; [|done].
    intros file. apply resolver_of_located.
Qed.

Lemma session_steps_current s s' :
  rtc session_step s s' → store_all (entry_current s.1) s.2 → store_all (entry_current s'.1) s'.2.
Proof. induction 1 as [|s1 s2 s3 Hstep _ IH]; [done|]. intros Hs. by eapply IH, session_step_current. Qed.

(** ** Properties *)

(** C21.  In every state that a session of writes and imports reaches from
    an empty cache, an import that finds an entry of a [.css] file as new as
    the file returns the text the file has now, packaged for the type of the
    entry, and leaves the cache as it is: the cache does not answer with the
    text of a [.css] file that was written since. *)
Theorem css_hit_current fs0 fs store args m entry mtime text :
  rtc session_step (fs0, ∅) (fs, store) →
  import (plugin_setup options moduleDirectory true empty_build) (node_world cwd sass fs) args
    = Some m →
  entry_at store (resolveDir args) (path args) = Some entry →
  endsWith (filename entry) ".css" = true →
  fs !! filename entry = Some (mtime, text) → (mtime ≤ mtimeMs entry)%Z →
  run m store = (Normal (package (filename entry) (type entry) text), store).
Proof.
  intros Hsteps Hm He Hcss Hf Hle.
  apply session_steps_current in Hsteps;
    [|intros d f e; simpl; unfold entry_at; by rewrite lookup_empty].
  destruct (Hsteps _ _ _ He) as (Hl & mtime' & text' & Hf' & Hle' & Hres). simpl in *.
  simplify_eq. rewrite <-Hres by (done || lia).
  destruct (import_cached _ _ _ _ _ Hm) as [resolve ->].
  apply (cached_fresh_run _ _ _ _ (load_args (resolve_callback args)) _ entry He).
  exists mtime. simpl. unfold stat_sync. rewrite Hl, Hf. split; [done|lia].
Qed.

End session.

(** ** Witnesses *)

(** The cache after [theme.css] was imported once. *)
Definition theme_store : Store :=
  from_option (λ m, (run m ∅).2) ∅ (project_import project_fs "./theme.css").

Lemma css_hit_current_witness :
  ∃ m, project_import project_fs "./theme.css" = Some m ∧
       run m theme_store =
       (Normal (package (H := node_libs "/w" demo_picomatch)
                  "/project/packages/ui/src/theme.css" "style" "body{color:red}"),
        theme_store).
Proof.
  eexists. split; [done|].
  apply (css_hit_current "/w" demo_picomatch (import_sass "/w") node_options
           "/project/node_modules" project_fs project_fs theme_store (ui_request "./theme.css") _
           {| filename := "/project/packages/ui/src/theme.css"; type := "style"; mtimeMs := 5;
              result := package (H := node_libs "/w" demo_picomatch)
                          "/project/packages/ui/src/theme.css" "style" "body{color:red}" |}
           5 "body{color:red}").
  - apply rtc_once.
    exact (session_import "/w" demo_picomatch (import_sass "/w") node_options
             "/project/node_modules" project_fs ∅ (ui_request "./theme.css") _ eq_refl).
  - done.
  - by vm_compute.
  - done.
  - done.
  - done.
Defined.

(** After a write to [theme.css] the entry is older than the file: the next
    import returns the text of before once more and the one after it the
    text of the file. *)
Example css_write_seen_late :
  let fs := write_file "/w" "/project/packages/ui/src/theme.css" 8 "body{color:blue}"
              project_fs in
  ∃ m, project_import fs "./theme.css" = Some m ∧
       cmap contents (run m theme_store).1 = Normal (makeModule "body{color:red}" "style") ∧
       cmap contents (run m (run m theme_store).2).1 =
         Normal (makeModule "body{color:blue}" "style").
Proof. eexists. split; [done|]. split; by vm_compute. Qed.
